(** * tk-nuke: the software launcher's discovery logic (startup.py)

    A shallow embedding of [startup.py] and proofs about it.  Python 2
    byte strings are [string]; [None] and [str] values that flow through
    [dict.get] are [pyval]; a call that can raise returns a [result]. *)

From Stdlib Require Import String Ascii List Bool Arith NArith Lia Permutation.
Import ListNotations.
Open Scope string_scope.
Open Scope list_scope.

(** String concatenation, Python's [+] on [str]. *)
Infix "+++" := String.append (right associativity, at level 60).

(** ** Python values and exceptions *)

Inductive pyval : Type :=
| PyNone
| PyStr (s : string).

Inductive exn : Type :=
| AttributeError   (* a method looked up on None *)
| TypeError        (* str % tuple with the wrong number of arguments *)
| ValueError       (* unsupported format character *)
| KeyError (k : string)
| ReError.         (* re.compile rejected the pattern *)

Inductive result (A : Type) : Type :=
| Ok (a : A)
| Raise (e : exn).

Arguments Ok {A} a.
Arguments Raise {A} e.

Definition bind {A B} (r : result A) (f : A -> result B) : result B :=
  match r with
  | Ok a => f a
  | Raise e => Raise e
  end.

Notation "x <- r ;; k" := (bind r (fun x => k))
  (at level 61, r at next level, right associativity).

(** A generator run to its end: the items it yielded, in order, and the
    exception that ended it, if one did. *)
Record gen (A : Type) : Type := Gen {
  yielded : list A;
  raised : option exn
}.

Arguments Gen {A} yielded raised.
Arguments yielded {A} g.
Arguments raised {A} g.

(** One generator body after another; the second runs only if the first
    ends normally. *)
Definition gen_then {A} (g1 g2 : gen A) : gen A :=
  match raised g1 with
  | Some _ => g1
  | None => Gen (yielded g1 ++ yielded g2) (raised g2)
  end.

(** [for x in xs: <body x>] inside a generator *)
Fixpoint gen_for {X A} (body : X -> gen A) (xs : list X) : gen A :=
  match xs with
  | [] => Gen [] None
  | x :: xs' => gen_then (body x) (gen_for body xs')
  end.

(** A computation whose exception, if any, ends the generator, followed by
    the rest of the generator's body. *)
Definition gen_bind {X A} (r : result X) (k : X -> gen A) : gen A :=
  match r with
  | Ok x => k x
  | Raise e => Gen [] (Some e)
  end.

Notation "x <~ r ;; k" := (gen_bind r (fun x => k))
  (at level 61, r at next level, right associativity).

(** [yield x] *)
Definition gen_yield {A} (x : A) : gen A := Gen [x] None.

(** ** The string methods the module calls *)

Module PyStr.

(** [s.startswith(p)] *)
Fixpoint startswith (s p : string) {struct p} : bool :=
  match p with
  | "" => true
  | String a p' =>
    match s with
    | "" => false
    | String b s' => Ascii.eqb a b && startswith s' p'
    end
  end.

(** [s[n:]] *)
Fixpoint drop (n : nat) (s : string) : string :=
  match n, s with
  | S k, String _ s' => drop k s'
  | _, _ => s
  end.

(** [sub in s] *)
Fixpoint contains (s sub : string) : bool :=
  startswith s sub ||
  match s with
  | "" => false
  | String _ s' => contains s' sub
  end.

(** [s.replace(old, new)] for a non-empty [old]: a left-to-right scan;
    [skip] counts the characters of a match still to be passed over. *)
Fixpoint replace_from (old new : string) (skip : nat) (s : string) : string :=
  match s with
  | "" => ""
  | String c s' =>
    match skip with
    | S k => replace_from old new k s'
    | O =>
      if startswith s old
      then new +++ replace_from old new (String.length old - 1) s'
      else String c (replace_from old new 0 s')
    end
  end.

(** [s.replace("", new)] puts [new] before every character and at the end. *)
Fixpoint replace_empty (new s : string) : string :=
  match s with
  | "" => new
  | String c s' => new +++ String c (replace_empty new s')
  end.

Definition replace (s old new : string) : string :=
  match old with
  | "" => replace_empty new s
  | _ => replace_from old new 0 s
  end.

(** [c.lower()] on one byte: only A-Z change (the C locale). *)
Definition lower_ascii (c : ascii) : ascii :=
  let n := nat_of_ascii c in
  if ((65 <=? n) && (n <=? 90))%nat then ascii_of_nat (n + 32) else c.

(** [s.lower()] *)
Fixpoint lower (s : string) : string :=
  match s with
  | "" => ""
  | String c s' => String (lower_ascii c) (lower s')
  end.

(** The characters [str.strip()] removes: space, \t, \n, \v, \f, \r. *)
Definition is_space (c : ascii) : bool :=
  let n := nat_of_ascii c in
  ((n =? 32) || ((9 <=? n) && (n <=? 13)))%nat.

Fixpoint lstrip (s : string) : string :=
  match s with
  | "" => ""
  | String c s' => if is_space c then lstrip s' else s
  end.

Fixpoint rstrip (s : string) : string :=
  match s with
  | "" => ""
  | String c s' =>
    match rstrip s' with
    | "" => if is_space c then "" else String c ""
    | r => String c r
    end
  end.

(** [s.strip()] *)
Definition strip (s : string) : string := rstrip (lstrip s).

(** [s.partition(sep)] when [sep] occurs in [s]: the text before the
    first occurrence and the text after it. *)
Fixpoint cut (s sep : string) : option (string * string) :=
  if startswith s sep then Some ("", drop (String.length sep) s)
  else
    match s with
    | "" => None
    | String c s' =>
      match cut s' sep with
      | Some (a, b) => Some (String c a, b)
      | None => None
      end
    end.

(** [s.split(sep, 1)] for a non-empty [sep] *)
Definition split1 (s sep : string) : list string :=
  match cut s sep with
  | Some (a, b) => [a; b]
  | None => [s]
  end.

(** [str(v)] *)
Definition str (v : pyval) : string :=
  match v with
  | PyNone => "None"
  | PyStr s => s
  end.

(** [fmt % args] for the conversions [%s] and [%%], the only ones the
    module's format strings hold (any other conversion is outside this
    model and comes out as [ValueError]).  Too few arguments, or arguments
    left over, are a [TypeError]. *)
Fixpoint percent (fmt : string) (args : list pyval) : result string :=
  match fmt with
  | "" => match args with [] => Ok "" | _ => Raise TypeError end
  | String c rest =>
    if Ascii.eqb c "%" then
      match rest with
      | "" => Raise ValueError
      | String d rest' =>
        if Ascii.eqb d "s" then
          match args with
          | [] => Raise TypeError
          | v :: args' => r <- percent rest' args' ;; Ok (str v +++ r)
          end
        else if Ascii.eqb d "%" then
          r <- percent rest' args ;; Ok (String "%" r)
        else Raise ValueError
      end
    else r <- percent rest args ;; Ok (String c r)
  end.

End PyStr.

(** ** Python 2 dictionaries

    A dict is the list of its items in iteration order.  Python 2 gives no
    ordering guarantee: a new key lands in the slot its hash selects, the
    keys already present keep their relative order.  [place] stands for
    that choice: the position at which a new key enters the iteration
    order, given the keys present. *)

Module PyDict.

Definition t (V : Type) : Type := list (string * V).

Definition keys {V} (d : t V) : list string := map fst d.

Definition has_key {V} (d : t V) (k : string) : bool :=
  existsb (String.eqb k) (keys d).

(** [d.get(k)] *)
Fixpoint get {V} (d : t V) (k : string) : option V :=
  match d with
  | [] => None
  | (k', v) :: d' => if String.eqb k k' then Some v else get d' k
  end.

Fixpoint update {V} (d : t V) (k : string) (v : V) : t V :=
  match d with
  | [] => []
  | (k', v') :: d' =>
    if String.eqb k k' then (k', v) :: d' else (k', v') :: update d' k v
  end.

Fixpoint insert_at {A} (n : nat) (x : A) (l : list A) : list A :=
  match n, l with
  | S n', y :: l' => y :: insert_at n' x l'
  | _, _ => x :: l
  end.

(** [d[k] = v] *)
Definition set {V} (place : list string -> string -> nat)
    (d : t V) (k : string) (v : V) : t V :=
  if has_key d k then update d k v
  else insert_at (place (keys d) k) (k, v) d.

(** A dict display [{k1: v1, k2: v2, ...}]: the items are stored one after
    the other. *)
Definition of_items {V} (place : list string -> string -> nat)
    (items : list (string * V)) : t V :=
  fold_left (fun d kv => set place d (fst kv) (snd kv)) items [].

End PyDict.

(** ** The pattern languages the templates are formatted into

    [glob] and [re] belong to Python's library.  What follows is the part
    of their matching rules that the formatted templates exercise, so
    that a glob pattern and a regular expression can be run on a path. *)

Module PyGlob.

(** [fnmatch.fnmatchcase(name, pat)] for patterns made of [*], [?] and
    literal characters.  Bracket expressions are not modelled ("[" is
    taken literally); no template of the module has one. *)
Fixpoint fnmatch (pat name : string) {struct pat} : bool :=
  match pat with
  | "" => match name with "" => true | _ => false end
  | String p pat' =>
    if Ascii.eqb p "*" then
      (fix star (name : string) : bool :=
         fnmatch pat' name ||
         match name with
         | "" => false
         | String _ name' => star name'
         end) name
    else
      match name with
      | "" => false
      | String c name' =>
        (Ascii.eqb p "?" || Ascii.eqb p c) && fnmatch pat' name'
      end
  end.

(** [glob.has_magic] *)
Definition has_magic (s : string) : bool :=
  PyStr.contains s "*" || PyStr.contains s "?" || PyStr.contains s "[".

(** The components of a path between its "/" separators. *)
Fixpoint components (s : string) : list string :=
  match s with
  | "" => [""]
  | String c s' =>
    if Ascii.eqb c "/" then "" :: components s'
    else
      match components s' with
      | [] => [String c ""]
      | x :: xs => String c x :: xs
      end
  end.

(** One path component against one pattern component: a component
    without wildcards must be that very name; one with wildcards is
    matched by [fnmatch], and selects a dot-file only if it starts with a
    dot itself ([glob.glob1]). *)
Definition component_matches (pat name : string) : bool :=
  if has_magic pat then
    (PyStr.startswith pat "." || negb (PyStr.startswith name ".")) &&
    fnmatch pat name
  else String.eqb pat name.

Fixpoint all_match (pats names : list string) : bool :=
  match pats, names with
  | [], [] => true
  | p :: pats', n :: names' => component_matches p n && all_match pats' names'
  | _, _ => false
  end.

(** [path] is among the paths [glob.glob(pattern)] returns when it
    exists on disk. *)
Definition matches (pattern path : string) : bool :=
  all_match (components pattern) (components path).

End PyGlob.

Module PyRe.

(** A member of a bracket expression. *)
Inductive item : Type :=
| IDigit             (* \d *)
| IWord              (* \w *)
| ISpace             (* \s *)
| IChar (c : ascii).

Inductive re : Type :=
| Eps
| Lit (c : ascii)
| Any                                 (* . *)
| Set_ (items : list item)            (* [...] *)
| Bol                                 (* ^ *)
| Eol                                 (* $ *)
| Group (name : option string) (r : re)   (* (?P<name>...), (...) *)
| Backref (name : string)             (* (?P=name) *)
| Seq (r1 r2 : re)
| Alt (r1 r2 : re)
| Star (r : re)
| Plus (r : re)
| Opt (r : re).                       (* ? and {0,1} *)

Definition is_digit (c : ascii) : bool :=
  let n := nat_of_ascii c in ((48 <=? n) && (n <=? 57))%nat.

Definition is_alpha (c : ascii) : bool :=
  let n := nat_of_ascii c in
  (((65 <=? n) && (n <=? 90)) || ((97 <=? n) && (n <=? 122)))%nat.

Definition is_word (c : ascii) : bool :=
  is_digit c || is_alpha c || Ascii.eqb c "_".

(** *** Reading a pattern *)

(** The text up to [stop], and what follows [stop]. *)
Fixpoint read_until (stop : ascii) (s : string) : option (string * string) :=
  match s with
  | "" => None
  | String c s' =>
    if Ascii.eqb c stop then Some ("", s')
    else
      match read_until stop s' with
      | Some (a, b) => Some (String c a, b)
      | None => None
      end
  end.

(** A character after a backslash: a category, or an escaped
    punctuation character. *)
Definition escaped (c : ascii) : option item :=
  if Ascii.eqb c "d" then Some IDigit
  else if Ascii.eqb c "w" then Some IWord
  else if Ascii.eqb c "s" then Some ISpace
  else if is_digit c || is_alpha c then None
  else Some (IChar c).

(** The members of a bracket expression, up to its closing "]".  Ranges
    and negation are outside the fragment. *)
Fixpoint read_set (s : string) : option (list item * string) :=
  match s with
  | "" => None
  | String c s' =>
    if Ascii.eqb c "]" then Some ([], s')
    else if Ascii.eqb c "-" || Ascii.eqb c "^" then None
    else if Ascii.eqb c "\" then
      match s' with
      | "" => None
      | String e s'' =>
        match escaped e, read_set s'' with
        | Some i, Some (items, rest) => Some (i :: items, rest)
        | _, _ => None
        end
      end
    else
      match read_set s' with
      | Some (items, rest) => Some (IChar c :: items, rest)
      | None => None
      end
  end.

Definition starts_repeat (s : string) : bool :=
  match s with
  | "" => false
  | String c s' =>
    Ascii.eqb c "*" || Ascii.eqb c "+" || Ascii.eqb c "?" ||
    (Ascii.eqb c "{" && match s' with
                        | "" => false
                        | String d _ => is_digit d
                        end)
  end.

(** The repetition operator after an atom, if any.  Of the counted
    repetitions only [{0,1}] is in the fragment; lazy and stacked
    operators are not. *)
Definition read_repeat (a : re) (s : string) : option (re * string) :=
  let single (r : re) (rest : string) :=
    if starts_repeat rest then None else Some (r, rest) in
  match s with
  | "" => Some (a, s)
  | String c s' =>
    if Ascii.eqb c "*" then single (Star a) s'
    else if Ascii.eqb c "+" then single (Plus a) s'
    else if Ascii.eqb c "?" then single (Opt a) s'
    else if PyStr.startswith s "{0,1}" then single (Opt a) (PyStr.drop 5 s)
    else if starts_repeat s then None
    else Some (a, s)
  end.

Fixpoint parse_alt (fuel : nat) (s : string) : option (re * string) :=
  match fuel with
  | O => None
  | S fuel' =>
    match parse_seq fuel' s with
    | None => None
    | Some (r1, rest) =>
      match rest with
      | "" => Some (r1, rest)
      | String c rest' =>
        if Ascii.eqb c "|" then
          match parse_alt fuel' rest' with
          | Some (r2, rest'') => Some (Alt r1 r2, rest'')
          | None => None
          end
        else Some (r1, rest)
      end
    end
  end

with parse_seq (fuel : nat) (s : string) : option (re * string) :=
  match fuel with
  | O => None
  | S fuel' =>
    match s with
    | "" => Some (Eps, s)
    | String c _ =>
      if Ascii.eqb c "|" || Ascii.eqb c ")" then Some (Eps, s)
      else
        match parse_atom fuel' s with
        | None => None
        | Some (a, rest) =>
          match read_repeat a rest with
          | None => None
          | Some (q, rest') =>
            match parse_seq fuel' rest' with
            | Some (r, rest'') => Some (Seq q r, rest'')
            | None => None
            end
          end
        end
    end
  end

with parse_atom (fuel : nat) (s : string) : option (re * string) :=
  match fuel with
  | O => None
  | S fuel' =>
    match s with
    | "" => None
    | String c s' =>
      if Ascii.eqb c "(" then
        let body (name : option string) (inner : string) :=
          match parse_alt fuel' inner with
          | Some (r, String d rest) =>
            if Ascii.eqb d ")" then Some (Group name r, rest) else None
          | _ => None
          end in
        if PyStr.startswith s' "?P<" then
          match read_until ">" (PyStr.drop 3 s') with
          | Some (name, inner) => body (Some name) inner
          | None => None
          end
        else if PyStr.startswith s' "?P=" then
          match read_until ")" (PyStr.drop 3 s') with
          | Some (name, rest) => Some (Backref name, rest)
          | None => None
          end
        else if PyStr.startswith s' "?" then None
        else body None s'
      else if Ascii.eqb c "[" then
        match read_set s' with
        | Some (items, rest) => Some (Set_ items, rest)
        | None => None
        end
      else if Ascii.eqb c "\" then
        match s' with
        | "" => None
        | String e rest =>
          match escaped e with
          | Some (IChar x) => Some (Lit x, rest)
          | Some i => Some (Set_ [i], rest)
          | None => None
          end
        end
      else if Ascii.eqb c "." then Some (Any, s')
      else if Ascii.eqb c "^" then Some (Bol, s')
      else if Ascii.eqb c "$" then Some (Eol, s')
      else if starts_repeat s then None
      else Some (Lit c, s')
    end
  end.

(** [sre_parse.parse]: the whole pattern must be consumed. *)
Definition parse (pattern : string) : option re :=
  match parse_alt (4 * String.length pattern + 4) pattern with
  | Some (r, "") => Some r
  | _ => None
  end.

(** *** Matching, with [re.IGNORECASE] *)

(** The text captured so far by each named group. *)
Definition captures : Type := list (string * string).

Fixpoint captured (g : captures) (name : string) : option string :=
  match g with
  | [] => None
  | (n, s) :: g' => if String.eqb n name then Some s else captured g' name
  end.

Definition in_item (c : ascii) (i : item) : bool :=
  match i with
  | IDigit => is_digit c
  | IWord => is_word c
  | ISpace => PyStr.is_space c
  | IChar x => Ascii.eqb (PyStr.lower_ascii x) c
  end.

(** [s[:n]] *)
Fixpoint take (n : nat) (s : string) : string :=
  match n, s with
  | S k, String c s' => String c (take k s')
  | _, _ => ""
  end.

(** Backtracking matcher in continuation-passing style: [pos] characters
    of the subject were consumed, [s] is what remains, [k] matches the
    rest of the pattern.  Alternatives are tried left to right and
    repetitions are greedy, as in [sre]; letters are compared through
    [lower]. *)
Fixpoint run (r : re) (pos : nat) (s : string) (g : captures)
    (k : nat -> string -> captures -> option captures) {struct r}
  : option captures :=
  match r with
  | Eps => k pos s g
  | Lit c =>
    match s with
    | String d s' =>
      if Ascii.eqb (PyStr.lower_ascii c) (PyStr.lower_ascii d)
      then k (S pos) s' g else None
    | "" => None
    end
  | Any =>
    match s with
    | String d s' =>
      if Ascii.eqb d (ascii_of_nat 10) then None else k (S pos) s' g
    | "" => None
    end
  | Set_ items =>
    match s with
    | String d s' =>
      if existsb (in_item (PyStr.lower_ascii d)) items
      then k (S pos) s' g else None
    | "" => None
    end
  | Bol => if (pos =? 0)%nat then k pos s g else None
  | Eol =>
    if String.eqb s "" || String.eqb s (String (ascii_of_nat 10) "")
    then k pos s g else None
  | Group name r' =>
    run r' pos s g
      (fun pos' s' g' =>
         match name with
         | Some n => k pos' s' ((n, take (pos' - pos) s) :: g')
         | None => k pos' s' g'
         end)
  | Backref name =>
    match captured g name with
    | Some text =>
      if String.eqb (PyStr.lower (take (String.length text) s))
                    (PyStr.lower text)
      then k (pos + String.length text) (PyStr.drop (String.length text) s) g
      else None
    | None => None
    end
  | Seq r1 r2 => run r1 pos s g (fun pos' s' g' => run r2 pos' s' g' k)
  | Alt r1 r2 =>
    match run r1 pos s g k with
    | Some g' => Some g'
    | None => run r2 pos s g k
    end
  | Opt r' =>
    match run r' pos s g k with
    | Some g' => Some g'
    | None => k pos s g
    end
  | Star r' =>
    (fix loop (n : nat) (pos : nat) (s : string) (g : captures) {struct n}
       : option captures :=
       match n with
       | O => k pos s g
       | S n' =>
         match run r' pos s g
                 (fun pos' s' g' =>
                    if (pos <? pos')%nat then loop n' pos' s' g' else None)
         with
         | Some g' => Some g'
         | None => k pos s g
         end
       end) (String.length s) pos s g
  | Plus r' =>
    run r' pos s g
      ((fix loop (n : nat) (pos : nat) (s : string) (g : captures) {struct n}
         : option captures :=
         match n with
         | O => k pos s g
         | S n' =>
           match run r' pos s g
                   (fun pos' s' g' =>
                      if (pos <? pos')%nat then loop n' pos' s' g' else None)
           with
           | Some g' => Some g'
           | None => k pos s g
           end
         end) (String.length s))
  end.

(** The named groups of a pattern, in order of appearance. *)
Fixpoint group_names (r : re) : list string :=
  match r with
  | Group (Some n) r' => n :: group_names r'
  | Group None r' | Star r' | Plus r' | Opt r' => group_names r'
  | Seq r1 r2 | Alt r1 r2 => group_names r1 ++ group_names r2
  | _ => []
  end.

(** [pattern.match(s)] and, on success, the match's [groupdict()]: every
    named group, with [None] for a group that took no part. *)
Definition match_ (r : re) (s : string) : option (PyDict.t pyval) :=
  match run r 0 s [] (fun _ _ g => Some g) with
  | Some g =>
    Some (map (fun n => (n, match captured g n with
                            | Some text => PyStr text
                            | None => PyNone
                            end))
              (group_names r))
  | None => None
  end.

(** [re.compile(pattern, re.IGNORECASE)]; a pattern outside the fragment
    read by [parse] is reported like a pattern [re] rejects. *)
Definition compile_ignorecase (pattern : string)
  : result (string -> option (PyDict.t pyval)) :=
  match parse pattern with
  | Some r => Ok (match_ r)
  | None => Raise ReError
  end.

End PyRe.

(** ** The host: interpreter, operating system and toolkit core

    What [startup.py] reads from outside itself. *)

Record Host : Type := {
  sys_platform : string;
  (** [os.path.expanduser] *)
  os_path_expanduser : string -> string;
  (** [os.path.join] of two components *)
  os_path_join : string -> string -> string;
  (** [glob.glob]: the paths on disk that a pattern selects, in the order
      the directory listings give them *)
  glob_glob : string -> list string;
  (** [re.compile(pattern, re.IGNORECASE)]: [Raise] when the pattern does
      not compile, else the compiled pattern's [match]: [None] when the
      string does not match, [Some d] with [d] the match's [groupdict()]
      when it does *)
  re_compile_ignorecase :
    string -> result (string -> option (PyDict.t pyval));
  (** where a new key enters a dict's iteration order *)
  dict_place : list string -> string -> nat
}.

(** [sgtk.platform.SoftwareVersion], as the arguments it is built from.
    [sv_args] is [None] when the constructor is called without [args]. *)
Record SoftwareVersion : Type := {
  sv_version : pyval;
  sv_product : pyval;
  sv_display_name : string;
  sv_path : string;
  sv_icon : string;
  sv_args : option (list string)
}.

(** The launcher instance: what [SoftwareLauncher] provides to its
    subclass. *)
Record Launcher : Type := {
  host : Host;
  disk_location : string;
  (** [SoftwareLauncher.is_version_supported] *)
  super_is_version_supported : SoftwareVersion -> bool
}.

(** ** startup.py *)

Definition _template_to_variation_name (template : string) : string :=
  PyStr.strip (PyStr.replace (PyStr.replace template "%s" "") "  " " ").

(** [for key, value in tokens.iteritems():
       template = template.replace("{%s}" % key, value)] *)
Definition _format (template : string) (tokens : PyDict.t string) : string :=
  fold_left
    (fun template kv =>
       PyStr.replace template ("{" +++ fst kv +++ "}") (snd kv))
    tokens template.

Definition COMPONENT_GLOB_LOOKUP_items : list (string * string) :=
  [ ("version", "*");
    ("variant", "*");
    ("suffix", "*");
    ("same_version", "*");
    ("major_minor_version", "*") ].

Definition COMPONENT_REGEX_LOOKUP_items : list (string * string) :=
  [ ("version", "(?P<version>[\d.v]+)");
    ("variant", "(?P<variant>[\w\s]+)");
    ("suffix", "(?P<suffix> Non-commercial| PLE){0,1}");
    ("same_version", "(?P=version)");
    ("major_minor_version", "(?P<major_minor_version>[\d.]+)") ].

Definition COMPONENT_GLOB_LOOKUP (h : Host) : PyDict.t string :=
  PyDict.of_items (dict_place h) COMPONENT_GLOB_LOOKUP_items.

Definition COMPONENT_REGEX_LOOKUP (h : Host) : PyDict.t string :=
  PyDict.of_items (dict_place h) COMPONENT_REGEX_LOOKUP_items.

Definition NUKE_7_8_VARIATION_DISPLAY_NAME_TEMPLATES : list string :=
  [ "Nuke %s";
    "NukeX %s";
    "Nuke %s PLE";
    "NukeAssist %s" ].

Definition NUKE_7_8_VARIATIONS : list string :=
  map _template_to_variation_name NUKE_7_8_VARIATION_DISPLAY_NAME_TEMPLATES.

Definition NUKE_9_OR_HIGHER_VARIATION_DISPLAY_NAME_TEMPLATES : list string :=
  [ "Nuke %s";
    "Nuke %s Non-commercial";
    "NukeAssist %s";
    "NukeStudio %s";
    "NukeStudio %s Non-commercial";
    "NukeX %s";
    "NukeX %s Non-commercial";
    "Hiero %s" ].

Definition NUKE_9_OR_HIGHER_VARIATIONS : list string :=
  map _template_to_variation_name
      NUKE_9_OR_HIGHER_VARIATION_DISPLAY_NAME_TEMPLATES.

(** [EXECUTABLE_MATCH_TEMPLATES[platform]]; a missing key is a KeyError. *)
Definition EXECUTABLE_MATCH_TEMPLATES (h : Host) (platform : string)
  : result (list string) :=
  if String.eqb platform "darwin" then
    Ok [ "/Applications/Nuke{version}/{variant}{same_version}{suffix}.app" ]
  else if String.eqb platform "win32" then
    Ok [ "C:/Program Files/Nuke{version}/Nuke{major_minor_version}.exe" ]
  else if String.eqb platform "linux2" then
    Ok [ "/usr/local/Nuke{version}/Nuke{major_minor_version}";
         os_path_expanduser h "~/Nuke{version}/Nuke{major_minor_version}" ]
  else Raise (KeyError platform).

(** [x in xs] for a list of strings *)
Definition str_in (x : string) (xs : list string) : bool :=
  existsb (String.eqb x) xs.

Definition _get_icon_from_variant (self : Launcher) (variant : pyval)
  : result string :=
  match variant with
  | PyNone => Raise AttributeError
  | PyStr variant =>
    if PyStr.contains (PyStr.lower variant) "studio" then
      Ok (os_path_join (host self) (disk_location self) "icon_studio_256.png")
    else if PyStr.contains (PyStr.lower variant) "hiero" then
      Ok (os_path_join (host self) (disk_location self) "icon_hiero_256.png")
    else if PyStr.contains (PyStr.lower variant) "nukex" then
      Ok (os_path_join (host self) (disk_location self) "icon_x_256.png")
    else
      Ok (os_path_join (host self) (disk_location self) "icon_256.png")
  end.

Definition _get_variation_templates_from_version (version : pyval)
  : result (list string) :=
  match version with
  | PyNone => Raise AttributeError
  | PyStr version =>
    if str_in (hd "" (PyStr.split1 version ".")) ["7"; "8"]
    then Ok NUKE_7_8_VARIATION_DISPLAY_NAME_TEMPLATES
    else Ok NUKE_9_OR_HIGHER_VARIATION_DISPLAY_NAME_TEMPLATES
  end.

Definition _get_variations_from_version (version : pyval)
  : result (list string) :=
  match version with
  | PyNone => Raise AttributeError
  | PyStr version =>
    if str_in (hd "" (PyStr.split1 version ".")) ["7"; "8"]
    then Ok NUKE_7_8_VARIATIONS
    else Ok NUKE_9_OR_HIGHER_VARIATIONS
  end.

(** [match.get(name)] on a [groupdict()] *)
Definition match_get (m : PyDict.t pyval) (name : string) : pyval :=
  match PyDict.get m name with
  | Some v => v
  | None => PyNone
  end.

(** [v or ""] *)
Definition or_empty (v : pyval) : string :=
  match v with
  | PyNone => ""
  | PyStr s => s
  end.

(** The arguments a shared launcher needs for one variation template:
    [arguments = []] and the appends that follow it in the loop of
    [_extract_variations_from_path]. *)
Definition variation_arguments (variation_template : string) : list string :=
  let arguments := [] in
  let arguments :=
    if PyStr.contains variation_template "Studio" then
      arguments ++ ["--studio"]
    else if PyStr.contains variation_template "Assist" then
      arguments ++ ["--nukeassist"]
    else if PyStr.contains variation_template "NukeX" then
      arguments ++ ["--nukex"]
    else if PyStr.contains variation_template "Hiero" then
      arguments ++ ["--hiero"]
    else if PyStr.contains variation_template "PLE" then
      arguments ++ ["--ple"]
    else arguments in
  if PyStr.contains variation_template "Non-commercial" then
    arguments ++ ["--nc"]
  else arguments.

Definition _extract_variations_from_path (self : Launcher)
    (executable_path : string) (m : PyDict.t pyval)
  : gen SoftwareVersion :=
  let executable_version := match_get m "version" in
  if String.eqb (sys_platform (host self)) "darwin" then
    let executable_variant := match_get m "variant" in
    let executable_suffix := or_empty (match_get m "suffix") in
    display_name <~
      PyStr.percent "%s %s%s"
        [executable_variant; executable_version; PyStr executable_suffix] ;;
    icon <~ _get_icon_from_variant self executable_variant ;;
    gen_yield
      {| sv_version := executable_version;
         sv_product := executable_variant;
         sv_display_name := display_name;
         sv_path := executable_path;
         sv_icon := icon;
         sv_args := None |}
  else
    templates <~ _get_variation_templates_from_version executable_version ;;
    gen_for
      (fun variation_template =>
         let arguments := variation_arguments variation_template in
         display_name <~
           PyStr.percent variation_template [executable_version] ;;
         icon <~ _get_icon_from_variant self (PyStr variation_template) ;;
         gen_yield
           {| sv_version := executable_version;
              sv_product :=
                PyStr (_template_to_variation_name variation_template);
              sv_display_name := display_name;
              sv_path := executable_path;
              sv_icon := icon;
              sv_args := Some arguments |})
      templates.

Definition _find_executables (self : Launcher) (match_templates : list string)
  : PyDict.t (list string) :=
  fold_left
    (fun executable_matches match_template =>
       let glob_pattern :=
         _format match_template (COMPONENT_GLOB_LOOKUP (host self)) in
       let matching_paths := glob_glob (host self) glob_pattern in
       match matching_paths with
       | [] => executable_matches
       | _ =>
         PyDict.set (dict_place (host self)) executable_matches match_template
           (map (fun x => PyStr.replace x "\" "/") matching_paths)
       end)
    match_templates [].

(** The body of the loop over one template's paths. *)
Definition variations_of_path (self : Launcher)
    (executable_regex : string -> option (PyDict.t pyval))
    (executable_path : string) : gen SoftwareVersion :=
  match executable_regex executable_path with
  | None => Gen [] None
  | Some groupdict =>
    _extract_variations_from_path self executable_path groupdict
  end.

(** The body of the loop over [executable_matches.iteritems()]. *)
Definition variations_of_template (self : Launcher)
    (item : string * list string) : gen SoftwareVersion :=
  let '(match_template, executable_paths) := item in
  let regex_pattern :=
    _format match_template (COMPONENT_REGEX_LOOKUP (host self)) in
  let regex_pattern := "^" +++ regex_pattern +++ "$" in
  executable_regex <~ re_compile_ignorecase (host self) regex_pattern ;;
  gen_for (variations_of_path self executable_regex) executable_paths.

Definition _find_software_variations (self : Launcher)
  : gen SoftwareVersion :=
  match_templates <~
    EXECUTABLE_MATCH_TEMPLATES (host self) (sys_platform (host self)) ;;
  let executable_matches := _find_executables self match_templates in
  gen_for (variations_of_template self) executable_matches.

Definition pyval_eqb (a b : pyval) : bool :=
  match a, b with
  | PyNone, PyNone => true
  | PyStr x, PyStr y => String.eqb x y
  | _, _ => false
  end.

Definition is_version_supported (self : Launcher) (version : SoftwareVersion)
  : result bool :=
  if super_is_version_supported self version then
    variations <- _get_variations_from_version (sv_version version) ;;
    Ok (existsb (pyval_eqb (sv_product version)) (map PyStr variations))
  else Ok false.

(** [for x in <generator>: if p(x): out.append(x)], then [return out]:
    the loop body runs on every item the generator yielded; the
    generator's own exception, if any, surfaces after them. *)
Fixpoint collect_if {A} (p : A -> result bool) (xs : list A)
    (stop : option exn) : result (list A) :=
  match xs with
  | [] => match stop with None => Ok [] | Some e => Raise e end
  | x :: xs' =>
    b <- p x ;; ys <- collect_if p xs' stop ;; Ok (if b then x :: ys else ys)
  end.

Definition scan_software (self : Launcher) : result (list SoftwareVersion) :=
  if negb (str_in (sys_platform (host self)) ["darwin"; "win32"; "linux2"])
  then Ok []
  else
    let found := _find_software_variations self in
    collect_if (is_version_supported self) (yielded found) (raised found).

Definition minimum_supported_version : string := "7.0v0".

(** ** A reference host

    One concrete [Host], to run the module on: POSIX path functions, the
    pattern matchers above over a listed file system, and CPython 2.7's
    placement of dict keys.  As in test_startup.py, which patches
    [sys.platform] and [os.listdir], the platform name is chosen
    independently of the rest. *)

Module Posix.

(** [posixpath.join(a, b)] *)
Definition join (a b : string) : string :=
  if PyStr.startswith b "/" then b
  else if String.eqb a "" || String.eqb (PyStr.drop (String.length a - 1) a) "/"
  then a +++ b
  else a +++ "/" +++ b.

Fixpoint rstrip_slash (s : string) : string :=
  match s with
  | "" => ""
  | String c s' =>
    match rstrip_slash s' with
    | "" => if Ascii.eqb c "/" then "" else String c ""
    | r => String c r
    end
  end.

(** [posixpath.expanduser(path)] with [$HOME] set to [home]; a
    [~user] prefix names no known user and is left alone. *)
Definition expanduser (home path : string) : string :=
  match path with
  | String c rest =>
    if Ascii.eqb c "~" && (String.eqb rest "" || PyStr.startswith rest "/")
    then
      match rstrip_slash home +++ rest with
      | "" => "/"
      | r => r
      end
    else path
  | "" => path
  end.

(** [posixpath.basename(p)]: what follows the last "/" *)
Fixpoint basename (p : string) : string :=
  match p with
  | "" => ""
  | String c p' =>
    if PyStr.contains p' "/" then basename p'
    else if Ascii.eqb c "/" then p' else p
  end.

End Posix.

(** CPython 2.7 on a 64-bit build without hash randomisation: the hash of
    a [str] and the eight-slot table of a small dict. *)
Module CPython27.

Definition wrap (x : N) : N := N.modulo x (2 ^ 64).

Fixpoint hash_loop (x : N) (s : string) : N :=
  match s with
  | "" => x
  | String c s' => hash_loop (N.lxor (wrap (1000003 * x)) (N_of_ascii c)) s'
  end.

(** [string_hash] of stringobject.c, as an unsigned 64-bit number *)
Definition string_hash (s : string) : N :=
  match s with
  | "" => 0
  | String c _ =>
    let x := hash_loop (wrap (N.shiftl (N_of_ascii c) 7)) s in
    let x := N.lxor x (N.of_nat (String.length s)) in
    if N.eqb x (2 ^ 64 - 1) then 2 ^ 64 - 2 else x
  end%N.

Definition table : Type := list (option string).

Definition empty : table := repeat None 8.

Definition slot_free (t : table) (i : N) (key : string) : bool :=
  match nth (N.to_nat i) t None with
  | None => true
  | Some k => String.eqb k key
  end.

(** The probe sequence of [lookdict_string]. *)
Fixpoint probe (fuel : nat) (t : table) (key : string) (i perturb : N)
  : option N :=
  match fuel with
  | O => None
  | S fuel' =>
    let i := wrap (N.shiftl i 2 + i + perturb + 1) in
    if slot_free t (N.land i 7) key then Some (N.land i 7)
    else probe fuel' t key i (N.shiftr perturb 5)
  end%N.

Definition find_slot (t : table) (key : string) : option N :=
  let hash := string_hash key in
  let i := N.land hash 7 in
  if slot_free t i key then Some i else probe 64 t key i hash.

Fixpoint store (i : nat) (key : string) (t : table) : table :=
  match t, i with
  | [], _ => []
  | _ :: t', O => Some key :: t'
  | x :: t', S i' => x :: store i' key t'
  end.

Definition insert (t : table) (key : string) : table :=
  match find_slot t key with
  | Some i => store (N.to_nat i) key t
  | None => t
  end.

(** The keys of a dict in iteration order, after they were stored in the
    order given (five keys at most: the table is not resized). *)
Definition iteration_order (inserted : list string) : list string :=
  flat_map (fun slot => match slot with Some k => [k] | None => [] end)
           (fold_left insert inserted empty).

Fixpoint index_of (k : string) (l : list string) : nat :=
  match l with
  | [] => 0
  | x :: l' => if String.eqb x k then 0 else S (index_of k l')
  end.

(** Where a new key enters the iteration order.  The keys present are
    taken to sit where storing them in iteration order puts them, which
    is exact whenever no two of them share a home slot. *)
Definition place (present : list string) (key : string) : nat :=
  index_of key (iteration_order (present ++ [key])).

End CPython27.

(** The reference launcher's stand-in for
    [SoftwareLauncher.is_version_supported] of the toolkit core: a check
    against a caller-supplied list of acceptable versions, [None]
    accepting every version. *)
Definition acceptable_version (versions : option (list string))
    (sv : SoftwareVersion) : bool :=
  match versions with
  | None => true
  | Some vs => existsb (pyval_eqb (sv_version sv)) (map PyStr vs)
  end.

Definition reference_host (platform home : string) (files : list string)
  : Host :=
  {| sys_platform := platform;
     os_path_expanduser := Posix.expanduser home;
     os_path_join := Posix.join;
     glob_glob := fun pattern => filter (PyGlob.matches pattern) files;
     re_compile_ignorecase := PyRe.compile_ignorecase;
     dict_place := CPython27.place |}.

Definition reference_launcher (platform home : string) (files : list string)
    (versions : option (list string)) : Launcher :=
  {| host := reference_host platform home files;
     disk_location := "/tk-nuke";
     super_is_version_supported := acceptable_version versions |}.

(** ** Notions the properties are stated with *)

(** The text of [v] before its first ".", all of [v] when it has none. *)
Fixpoint before_first_dot (v : string) : string :=
  match v with
  | "" => ""
  | String c v' => if Ascii.eqb c "." then "" else String c (before_first_dot v')
  end.

(** [sub] occurs in [s]. *)
Definition occurs_in (sub s : string) : Prop :=
  exists pre post, s = pre +++ sub +++ post.

(** [kw] occurs in [s] up to the case of ASCII letters. *)
Definition occurs_ignoring_case (kw s : string) : Prop :=
  exists pre mid post,
    s = pre +++ mid +++ post /\ PyStr.lower mid = PyStr.lower kw.

(** The keyword table behind the if/elif chain of
    [_extract_variations_from_path], and a first-match-wins reading of a
    table in a given order. *)
Definition ARGUMENT_KEYWORDS : list (string * string) :=
  [ ("Studio", "--studio");
    ("Assist", "--nukeassist");
    ("NukeX", "--nukex");
    ("Hiero", "--hiero");
    ("PLE", "--ple") ].

Fixpoint first_match (table : list (string * string)) (template : string)
  : list string :=
  match table with
  | [] => []
  | (keyword, flag) :: table' =>
    if PyStr.contains template keyword then [flag]
    else first_match table' template
  end.

(** How many of the product-selecting switches an argument list holds. *)
Definition product_switches (arguments : list string) : nat :=
  length (filter (fun a => str_in a (map snd ARGUMENT_KEYWORDS)) arguments).

(** The file name [_get_icon_from_variant] picks for a string. *)
Definition icon_of (self : Launcher) (variant : string) : string :=
  match _get_icon_from_variant self (PyStr variant) with
  | Ok icon => icon
  | Raise _ => ""
  end.

(** What a shared launcher yields for one variation template: the
    product name is the template without its version slot, the display
    name is the template with the version in the slot. *)
Definition shared_launcher_variation (self : Launcher)
    (executable_path version template : string) : SoftwareVersion :=
  {| sv_version := PyStr version;
     sv_product := PyStr (_template_to_variation_name template);
     sv_display_name := PyStr.replace template "%s" version;
     sv_path := executable_path;
     sv_icon := icon_of self template;
     sv_args := Some (variation_arguments template) |}.

(** The [--nc] switch of a template. *)
Definition non_commercial_switch (template : string) : list string :=
  if PyStr.contains template "Non-commercial" then ["--nc"] else [].

(** The placeholder of a name, ["{%s}" % key]. *)
Definition placeholder (key : string) : string := "{" +++ key +++ "}".

(** The first item of a lookup whose placeholder starts [s]. *)
Fixpoint placeholder_at (tokens : PyDict.t string) (s : string)
  : option (string * string) :=
  match tokens with
  | [] => None
  | (key, value) :: tokens' =>
    if PyStr.startswith s (placeholder key) then Some (key, value)
    else placeholder_at tokens' s
  end.

(** The contract of the formatter, read as one pass over the template:
    where the placeholder of a key starts, the key's value is written and
    the placeholder passed over; any other character is copied. *)
Fixpoint substitute_from (tokens : PyDict.t string) (skip : nat) (s : string)
  : string :=
  match s with
  | "" => ""
  | String c s' =>
    match skip with
    | S k => substitute_from tokens k s'
    | O =>
      match placeholder_at tokens s with
      | Some (key, value) =>
        value +++ substitute_from tokens (String.length key + 1) s'
      | None => String c (substitute_from tokens 0 s')
      end
    end
  end.

Definition substitute (tokens : PyDict.t string) (template : string) : string :=
  substitute_from tokens 0 template.

(** No occurrence of [q] begins at a character of [v], whatever text
    follows [v]. *)
Fixpoint no_start_inside (q v : string) : bool :=
  match v with
  | "" => true
  | String _ v' =>
    negb (PyStr.startswith v q || PyStr.startswith q v) &&
    no_start_inside q v'
  end.

(** A value [v] is inert for a placeholder [q]: it is not empty, its
    first character is foreign to [q], and no occurrence of [q] begins
    inside it.  Writing [v] into a text then neither completes nor starts
    an occurrence of [q]. *)
Definition inert_for (q v : string) : bool :=
  match v with
  | "" => false
  | String c _ => negb (PyStr.contains q (String c "")) && no_start_inside q v
  end.

(** Every value of the lookup is inert for every placeholder of the
    lookup, and no key holds a brace. *)
Definition inert_lookup (tokens : PyDict.t string) : bool :=
  forallb (fun kv =>
             negb (PyStr.contains (fst kv) "{" || PyStr.contains (fst kv) "}") &&
             forallb (fun jw => inert_for (placeholder (fst jw)) (snd kv))
                     tokens)
          tokens.

(** No occurrence of [q] that begins before [v] reaches into [v]: no
    non-empty end of [q] begins [v] or is begun by [v].  For a non-empty
    [q] this makes [v] non-empty. *)
Fixpoint no_end_inside (q v : string) : bool :=
  match q with
  | "" => true
  | String _ q' =>
    negb (PyStr.startswith v q || PyStr.startswith q v) &&
    no_end_inside q' v
  end.

(** A value [v] is clear of a placeholder [q]: written into a text, it
    shares no character with an occurrence of [q], whatever stands
    before it and after it. *)
Definition clear_of (q v : string) : bool :=
  no_start_inside q v && no_end_inside q v.

(** A lookup in the order its dict iterates: the value of each key is
    clear of the placeholders of the keys that come after it, and those
    keys hold no opening brace.  The placeholders of the later keys are
    the ones looked for in a text into which the value has been
    written. *)
Fixpoint clear_in_order (tokens : PyDict.t string) : bool :=
  match tokens with
  | [] => true
  | (_, value) :: tokens' =>
    forallb (fun jw => negb (PyStr.contains (fst jw) "{") &&
                       clear_of (placeholder (fst jw)) value) tokens' &&
    clear_in_order tokens'
  end.

(** The same for every order at once: every value of the lookup is clear
    of every placeholder of the lookup, and no key holds a brace. *)
Definition clear_lookup (tokens : PyDict.t string) : bool :=
  forallb (fun kv =>
             negb (PyStr.contains (fst kv) "{" || PyStr.contains (fst kv) "}") &&
             forallb (fun jw => clear_of (placeholder (fst jw)) (snd kv))
                     tokens)
          tokens.

(** The paths the finder records for a template: what [glob.glob]
    returns for its glob pattern, with forward slashes. *)
Definition matches_of (self : Launcher) (match_template : string)
  : list string :=
  map (fun x => PyStr.replace x "\" "/")
      (glob_glob (host self)
         (_format match_template (COMPONENT_GLOB_LOOKUP (host self)))).

(** The variations of one template's matches: path after path, and for
    each path variation after variation; nothing for a template without
    matches. *)
Definition group_of (self : Launcher) (match_template : string)
  : gen SoftwareVersion :=
  match matches_of self match_template with
  | [] => Gen [] None
  | paths => variations_of_template self (match_template, paths)
  end.



(** The anchored regular expression of a template. *)
Definition regex_of (h : Host) (match_template : string) : string :=
  "^" +++ _format match_template (COMPONENT_REGEX_LOOKUP h) +++ "$".

(** Whether the compiled regex of a template matches a path. *)
Definition regex_accepts (h : Host) (match_template path : string)
  : result bool :=
  executable_regex <- re_compile_ignorecase h (regex_of h match_template) ;;
  Ok (match executable_regex path with
      | Some _ => true
      | None => false
      end).

(** A key with the value a function gives it. *)
Definition keyed {V} (value_of : string -> V) (k : string) : string * V :=
  (k, value_of k).

(** Every character of [s] passes [p]. *)
Fixpoint all_chars (p : ascii -> bool) (s : string) : bool :=
  match s with
  | "" => true
  | String c s' => p c && all_chars p s'
  end.

(** A character that the class [[\d.v]] of the version group matches
    under [re.IGNORECASE]. *)
Definition version_char (c : ascii) : bool :=
  PyRe.is_digit c || Ascii.eqb c "." || Ascii.eqb (PyStr.lower_ascii c) "v".

(** A value of the suffix group: nothing, or one of the two suffixes of
    the regex, in any case of letters. *)
Definition suffix_value (g : pyval) : bool :=
  str_in (PyStr.lower (or_empty g)) [""; " non-commercial"; " ple"].

(** test_startup.py, [_test_nuke]: the file name that the test expects
    of the icon of a software version, from its display name. *)
Definition expected_icon_file (display_name : string) : string :=
  if PyStr.contains (PyStr.lower display_name) "studio" then
    "icon_studio_256.png"
  else if PyStr.contains (PyStr.lower display_name) "hiero" then
    "icon_hiero_256.png"
  else if PyStr.contains (PyStr.lower display_name) "nukex" then
    "icon_x_256.png"
  else "icon_256.png".

(** Every variation template of the module. *)
Definition known_templates : list string :=
  NUKE_7_8_VARIATION_DISPLAY_NAME_TEMPLATES ++
  NUKE_9_OR_HIGHER_VARIATION_DISPLAY_NAME_TEMPLATES.

(* ================================================================= *)
(** * Proofs *)

(** ** Strings *)

Lemma append_nil_r (s : string) : s +++ "" = s.
Proof. induction s; simpl; congruence. Qed.

Lemma append_assoc (a b c : string) : (a +++ b) +++ c = a +++ b +++ c.
Proof. induction a; simpl; congruence. Qed.

Lemma length_append (a b : string) :
  String.length (a +++ b) = String.length a + String.length b.
Proof. induction a; simpl; congruence. Qed.

Lemma startswith_app (p s : string) : PyStr.startswith (p +++ s) p = true.
Proof.
  induction p as [|c p IH]; simpl; [reflexivity|].
  now rewrite Ascii.eqb_refl.
Qed.

Lemma startswith_split (s p : string) :
  PyStr.startswith s p = true -> exists t, s = p +++ t.
Proof.
  revert s; induction p as [|c p IH]; intros s H.
  - now exists s.
  - destruct s as [|d s]; simpl in H; [discriminate|].
    apply andb_true_iff in H as [Hc Hp].
    apply Ascii.eqb_eq in Hc; subst d.
    destruct (IH _ Hp) as [t ->]. now exists t.
Qed.

Lemma startswith_iff (s p : string) :
  PyStr.startswith s p = true <-> exists t, s = p +++ t.
Proof.
  split; [apply startswith_split|].
  intros [t ->]. apply startswith_app.
Qed.

Lemma contains_iff (s sub : string) :
  PyStr.contains s sub = true <-> occurs_in sub s.
Proof.
  unfold occurs_in. induction s as [|c s IH].
  - simpl. rewrite orb_false_r, startswith_iff. split.
    + intros [t Ht]. now exists "", t.
    + intros [pre [post H]]. destruct pre; [now exists post|discriminate].
  - cbn [PyStr.contains]. rewrite orb_true_iff, IH, startswith_iff. split.
    + intros [[t Ht]|[pre [post Ht]]].
      * now exists "", t.
      * exists (String c pre), post. simpl. now rewrite Ht.
    + intros [pre [post Ht]]. destruct pre as [|d pre].
      * left. now exists post.
      * right. simpl in Ht. injection Ht as _ Ht. now exists pre, post.
Qed.

Lemma lower_append (a b : string) :
  PyStr.lower (a +++ b) = PyStr.lower a +++ PyStr.lower b.
Proof. induction a; simpl; congruence. Qed.

Lemma lower_length (s : string) : String.length (PyStr.lower s) = String.length s.
Proof. induction s; simpl; congruence. Qed.

(** A split of [lower s] comes from a split of [s]. *)
Lemma lower_split (s a b : string) :
  PyStr.lower s = a +++ b ->
  exists a' b', s = a' +++ b' /\ PyStr.lower a' = a /\ PyStr.lower b' = b.
Proof.
  revert s; induction a as [|c a IH]; intros s H.
  - exists "", s. auto.
  - destruct s as [|d s]; simpl in H; [discriminate|].
    injection H as Hc Hs. destruct (IH _ Hs) as [a' [b' [-> [Ha Hb]]]].
    exists (String d a'), b'. simpl. now rewrite Hc, Ha, Hb.
Qed.

Lemma lower_ascii_idem (c : ascii) :
  PyStr.lower_ascii (PyStr.lower_ascii c) = PyStr.lower_ascii c.
Proof.
  destruct c as [[] [] [] [] [] [] [] []]; reflexivity.
Qed.

Lemma lower_idem (s : string) : PyStr.lower (PyStr.lower s) = PyStr.lower s.
Proof. induction s; simpl; [|rewrite lower_ascii_idem]; congruence. Qed.

(** The test the module writes, [kw in s.lower()] for a lower-case [kw],
    is occurrence up to case. *)
Lemma contains_lower_iff (kw s : string) :
  PyStr.lower kw = kw ->
  PyStr.contains (PyStr.lower s) kw = true <-> occurs_ignoring_case kw s.
Proof.
  intros Hkw. rewrite contains_iff. unfold occurs_in, occurs_ignoring_case.
  split.
  - intros [pre [post H]].
    destruct (lower_split _ _ _ H) as [pre' [rest [-> [Hpre Hrest]]]].
    destruct (lower_split _ _ _ Hrest) as [mid [post' [-> [Hmid Hpost]]]].
    exists pre', mid, post'. split; [reflexivity|]. now rewrite Hkw.
  - intros [pre [mid [post [-> Hmid]]]].
    exists (PyStr.lower pre), (PyStr.lower post).
    now rewrite !lower_append, Hmid, Hkw.
Qed.

(** ** Selection of the variation templates *)

Lemma split1_head (v : string) :
  hd "" (PyStr.split1 v ".") = before_first_dot v.
Proof.
  unfold PyStr.split1. induction v as [|c v IH].
  - reflexivity.
  - cbn [PyStr.cut PyStr.startswith before_first_dot].
    rewrite Ascii.eqb_sym, andb_true_r.
    destruct (Ascii.eqb c ".") eqn:Hc; [reflexivity|].
    destruct (PyStr.cut v ".") as [[a b]|]; simpl in *; congruence.
Qed.

(** The head of [v.split(".", 1)] is a piece of [v] that holds no "."
    and is followed, when [v] has one, by the first ".". *)
Lemma before_first_dot_spec (v : string) :
  PyStr.contains (before_first_dot v) "." = false /\
  (v = before_first_dot v \/
   exists rest, v = before_first_dot v +++ "." +++ rest).
Proof.
  induction v as [|c v [IH1 IH2]]; [now split; [|left]|].
  cbn [before_first_dot]. destruct (Ascii.eqb c ".") eqn:Hc.
  - apply Ascii.eqb_eq in Hc; subst c. split; [reflexivity|].
    right. now exists v.
  - split.
    + cbn [PyStr.contains PyStr.startswith]. rewrite Ascii.eqb_sym, Hc.
      exact IH1.
    + destruct IH2 as [IH2|[rest IH2]].
      * left. f_equal. exact IH2.
      * right. exists rest. simpl. f_equal. exact IH2.
Qed.

(** C1. The variation-template list chosen for a version string [v]
    depends on [v] only through the text before its first ".": the
    legacy list (Nuke, NukeX, Nuke PLE, NukeAssist) when that text is
    exactly "7" or "8", the modern list of eight templates for every
    other string; the selection returns for every string. *)
Theorem variation_templates_by_major (v : string) :
  _get_variation_templates_from_version (PyStr v) =
    Ok (if String.eqb (before_first_dot v) "7"
           || String.eqb (before_first_dot v) "8"
        then NUKE_7_8_VARIATION_DISPLAY_NAME_TEMPLATES
        else NUKE_9_OR_HIGHER_VARIATION_DISPLAY_NAME_TEMPLATES) /\
  (forall w, before_first_dot w = before_first_dot v ->
     _get_variation_templates_from_version (PyStr w) =
     _get_variation_templates_from_version (PyStr v)) /\
  NUKE_7_8_VARIATION_DISPLAY_NAME_TEMPLATES =
    ["Nuke %s"; "NukeX %s"; "Nuke %s PLE"; "NukeAssist %s"] /\
  length NUKE_9_OR_HIGHER_VARIATION_DISPLAY_NAME_TEMPLATES = 8 /\
  _get_variation_templates_from_version (PyStr "7.0v0") =
    Ok NUKE_7_8_VARIATION_DISPLAY_NAME_TEMPLATES /\
  _get_variation_templates_from_version (PyStr "8.0v4") =
    Ok NUKE_7_8_VARIATION_DISPLAY_NAME_TEMPLATES /\
  _get_variation_templates_from_version (PyStr "6.3v6") =
    Ok NUKE_9_OR_HIGHER_VARIATION_DISPLAY_NAME_TEMPLATES /\
  _get_variation_templates_from_version (PyStr "9.0v1") =
    Ok NUKE_9_OR_HIGHER_VARIATION_DISPLAY_NAME_TEMPLATES /\
  _get_variation_templates_from_version (PyStr "10.0v5") =
    Ok NUKE_9_OR_HIGHER_VARIATION_DISPLAY_NAME_TEMPLATES /\
  _get_variation_templates_from_version (PyStr "not a version") =
    Ok NUKE_9_OR_HIGHER_VARIATION_DISPLAY_NAME_TEMPLATES.
Proof.
  assert (Hsel : forall u,
    _get_variation_templates_from_version (PyStr u) =
    Ok (if String.eqb (before_first_dot u) "7"
           || String.eqb (before_first_dot u) "8"
        then NUKE_7_8_VARIATION_DISPLAY_NAME_TEMPLATES
        else NUKE_9_OR_HIGHER_VARIATION_DISPLAY_NAME_TEMPLATES)).
  { intros u. unfold _get_variation_templates_from_version, str_in.
    rewrite split1_head. cbn [existsb]. rewrite orb_false_r.
    now destruct (_ || _). }
  split; [apply Hsel|].
  split; [intros w Hw; now rewrite !Hsel, Hw|].
  repeat split; reflexivity.
Qed.

(** ** Icons *)

(** C4. The icon of a variant or template string [s] is found by
    case-insensitive substring tests taken in a fixed order, the first
    success deciding: "studio" gives the studio icon, else "hiero" the
    hiero icon, else "nukex" the extended-edition icon, else the default
    icon.  "NukeX" gets the extended icon and plain "Nuke" the default
    one. *)
Theorem icon_first_match_wins (self : Launcher) (s : string) :
  let icon name := Ok (os_path_join (host self) (disk_location self) name) in
  (occurs_ignoring_case "studio" s ->
     _get_icon_from_variant self (PyStr s) = icon "icon_studio_256.png") /\
  (~ occurs_ignoring_case "studio" s ->
   occurs_ignoring_case "hiero" s ->
     _get_icon_from_variant self (PyStr s) = icon "icon_hiero_256.png") /\
  (~ occurs_ignoring_case "studio" s ->
   ~ occurs_ignoring_case "hiero" s ->
   occurs_ignoring_case "nukex" s ->
     _get_icon_from_variant self (PyStr s) = icon "icon_x_256.png") /\
  (~ occurs_ignoring_case "studio" s ->
   ~ occurs_ignoring_case "hiero" s ->
   ~ occurs_ignoring_case "nukex" s ->
     _get_icon_from_variant self (PyStr s) = icon "icon_256.png") /\
  _get_icon_from_variant self (PyStr "NukeX") = icon "icon_x_256.png" /\
  _get_icon_from_variant self (PyStr "Nuke") = icon "icon_256.png" /\
  _get_icon_from_variant self (PyStr "NukeStudio") =
    icon "icon_studio_256.png" /\
  _get_icon_from_variant self (PyStr "Hiero") = icon "icon_hiero_256.png".
Proof.
  intros icon. unfold _get_icon_from_variant.
  rewrite <- !contains_lower_iff by reflexivity.
  destruct (PyStr.contains (PyStr.lower s) "studio");
    destruct (PyStr.contains (PyStr.lower s) "hiero");
    destruct (PyStr.contains (PyStr.lower s) "nukex");
    repeat split; intros; try reflexivity; congruence.
Qed.

(** ** Generators *)

Lemma gen_for_all_yield {X A} (body : X -> gen A) (f : X -> A) (xs : list X) :
  (forall x, In x xs -> body x = Gen [f x] None) ->
  gen_for body xs = Gen (map f xs) None.
Proof.
  induction xs as [|x xs IH]; intros H; [reflexivity|].
  cbn [gen_for map]. rewrite (H x (or_introl eq_refl)).
  rewrite IH by (intros; apply H; now right). reflexivity.
Qed.

Lemma gen_for_clean {X A} (body : X -> gen A) (xs : list X) :
  (forall x, In x xs -> raised (body x) = None) ->
  gen_for body xs = Gen (flat_map (fun x => yielded (body x)) xs) None.
Proof.
  induction xs as [|x xs IH]; intros H; [reflexivity|].
  cbn [gen_for flat_map]. unfold gen_then.
  rewrite (H x (or_introl eq_refl)).
  rewrite IH by (intros; apply H; now right). reflexivity.
Qed.

Lemma gen_for_nil_bodies {X A} (body : X -> gen A) (xs : list X) :
  (forall x, In x xs -> body x = Gen [] None) ->
  gen_for body xs = Gen [] None.
Proof.
  induction xs as [|x xs IH]; intros H; [reflexivity|].
  cbn [gen_for]. rewrite (H x (or_introl eq_refl)).
  rewrite IH by (intros; apply H; now right). reflexivity.
Qed.

(** ** Variations of a shared launcher *)

Lemma icon_total (self : Launcher) (s : string) :
  _get_icon_from_variant self (PyStr s) = Ok (icon_of self s).
Proof.
  unfold icon_of, _get_icon_from_variant.
  destruct (PyStr.contains (PyStr.lower s) "studio");
    destruct (PyStr.contains (PyStr.lower s) "hiero");
    destruct (PyStr.contains (PyStr.lower s) "nukex"); reflexivity.
Qed.

Ltac each_template H :=
  cbv [known_templates NUKE_7_8_VARIATION_DISPLAY_NAME_TEMPLATES
       NUKE_9_OR_HIGHER_VARIATION_DISPLAY_NAME_TEMPLATES app In] in H;
  repeat (destruct H as [H|H]; [subst|]); [..|contradiction].

Lemma percent_template (t v : string) :
  In t known_templates ->
  PyStr.percent t [PyStr v] = Ok (PyStr.replace t "%s" v).
Proof. intros H. each_template H; reflexivity. Qed.

Lemma templates_known (v : string) (ts : list string) :
  _get_variation_templates_from_version (PyStr v) = Ok ts ->
  forall t, In t ts -> In t known_templates.
Proof.
  unfold _get_variation_templates_from_version, known_templates.
  intros H t Ht. apply in_or_app.
  destruct (str_in _ _); injection H as <-; auto.
Qed.

Lemma templates_total (v : string) :
  exists ts, _get_variation_templates_from_version (PyStr v) = Ok ts.
Proof.
  unfold _get_variation_templates_from_version.
  destruct (str_in _ _); eauto.
Qed.

(** Away from darwin a matched path with version [v] yields one variation
    per template of [v]'s list, in the list's order, and never raises. *)
Lemma extract_shared_launcher (self : Launcher) (path : string)
    (m : PyDict.t pyval) (v : string) (ts : list string) :
  sys_platform (host self) <> "darwin" ->
  match_get m "version" = PyStr v ->
  _get_variation_templates_from_version (PyStr v) = Ok ts ->
  _extract_variations_from_path self path m =
  Gen (map (shared_launcher_variation self path v) ts) None.
Proof.
  intros Hp Hv Hts. unfold _extract_variations_from_path.
  apply String.eqb_neq in Hp. rewrite Hp, Hv, Hts. cbn [gen_bind].
  apply gen_for_all_yield. intros t Ht.
  rewrite (percent_template t v (templates_known _ _ Hts _ Ht)).
  rewrite icon_total. reflexivity.
Qed.

(** ** Launch arguments *)

(** The if/elif chain is the keyword table read in source order. *)
Lemma variation_arguments_table (t : string) :
  variation_arguments t =
  first_match ARGUMENT_KEYWORDS t ++ non_commercial_switch t.
Proof.
  unfold variation_arguments, non_commercial_switch.
  cbn [ARGUMENT_KEYWORDS first_match app].
  repeat (match goal with
          | |- context [if PyStr.contains t ?k then _ else _] =>
            destruct (PyStr.contains t k)
          end; try reflexivity).
Qed.

(** When the keywords that occur in [t] all carry one flag, the order in
    which the table is read does not matter. *)
Lemma first_match_permutation (t : string)
    (table table' : list (string * string)) :
  Permutation table table' ->
  (forall k1 f1 k2 f2,
      In (k1, f1) table -> In (k2, f2) table ->
      PyStr.contains t k1 = true -> PyStr.contains t k2 = true -> f1 = f2) ->
  first_match table t = first_match table' t.
Proof.
  induction 1 as [|[k f] l l' Hperm IH|[k1 f1] [k2 f2] l|l l' l'' H1 IH1 H2 IH2];
    intros Hex.
  - reflexivity.
  - cbn [first_match]. destruct (PyStr.contains t k); [reflexivity|].
    apply IH. intros a b c d Ha Hc Ea Ec.
    apply (Hex a b c d); simpl; auto.
  - cbn [first_match].
    destruct (PyStr.contains t k1) eqn:E1, (PyStr.contains t k2) eqn:E2;
      try reflexivity.
    f_equal. eapply (Hex k2 f2 k1 f1); simpl; auto.
  - rewrite IH1 by exact Hex. apply IH2.
    intros k1 f1 k2 f2 Hi1 Hi2. apply Hex;
      eapply Permutation_in; try eassumption; now apply Permutation_sym.
Qed.

(** In each template of the two lists at most one keyword occurs. *)
Lemma keywords_exclusive (t : string) :
  In t known_templates ->
  forall k1 f1 k2 f2,
    In (k1, f1) ARGUMENT_KEYWORDS -> In (k2, f2) ARGUMENT_KEYWORDS ->
    PyStr.contains t k1 = true -> PyStr.contains t k2 = true -> f1 = f2.
Proof.
  intros Ht k1 f1 k2 f2 H1 H2.
  cbv [ARGUMENT_KEYWORDS In] in H1, H2.
  repeat (destruct H1 as [H1|H1]; [injection H1 as <- <-|]);
    try contradiction;
    (repeat (destruct H2 as [H2|H2]; [injection H2 as <- <-|]);
     try contradiction);
    try reflexivity;
    each_template Ht; vm_compute; intros; discriminate.
Qed.

Lemma product_switches_first_match (t : string) :
  product_switches (variation_arguments t) =
  length (first_match ARGUMENT_KEYWORDS t).
Proof.
  rewrite variation_arguments_table. unfold product_switches.
  rewrite filter_app, length_app.
  replace (length (filter _ (non_commercial_switch t))) with 0
    by (unfold non_commercial_switch; now destruct (PyStr.contains t _)).
  rewrite Nat.add_0_r.
  cbn [ARGUMENT_KEYWORDS first_match].
  repeat (match goal with
          | |- context [if PyStr.contains t ?k then _ else _] =>
            destruct (PyStr.contains t k)
          end; try reflexivity).
Qed.

(** C2, as amended.  On the platforms with a shared launcher, a matched
    path yields one variation per template of its version's list, and
    the argument list of each holds at most one of --studio,
    --nukeassist, --nukex, --hiero, --ple: the one whose keyword
    (Studio, Assist, NukeX, Hiero, PLE) occurs in the template, found the
    same whatever the order of the tests, and none when no keyword
    occurs; --nc follows exactly when the template contains
    "Non-commercial".  The NukeX Non-commercial variation carries
    ["--nukex"; "--nc"]. *)
Theorem shared_launcher_arguments (self : Launcher) (path : string)
    (m : PyDict.t pyval) (v : string) :
  sys_platform (host self) <> "darwin" ->
  match_get m "version" = PyStr v ->
  exists ts,
    _get_variation_templates_from_version (PyStr v) = Ok ts /\
    raised (_extract_variations_from_path self path m) = None /\
    map sv_args (yielded (_extract_variations_from_path self path m)) =
      map (fun t => Some (first_match ARGUMENT_KEYWORDS t ++
                          non_commercial_switch t)) ts /\
    (forall t, In t ts ->
       (forall table, Permutation table ARGUMENT_KEYWORDS ->
          first_match table t = first_match ARGUMENT_KEYWORDS t) /\
       product_switches (variation_arguments t) <= 1 /\
       (product_switches (variation_arguments t) = 1 <->
        exists keyword, In keyword (map fst ARGUMENT_KEYWORDS) /\
                        occurs_in keyword t) /\
       (In "--nc" (variation_arguments t) <-> occurs_in "Non-commercial" t)) /\
    variation_arguments "NukeX %s Non-commercial" = ["--nukex"; "--nc"].
Proof.
  intros Hp Hv. destruct (templates_total v) as [ts Hts]. exists ts.
  rewrite (extract_shared_launcher self path m v ts Hp Hv Hts).
  cbn [raised yielded]. repeat split; try reflexivity.
  - exact Hts.
  - rewrite map_map. apply map_ext. intros t.
    cbn [shared_launcher_variation sv_args].
    now rewrite variation_arguments_table.
  - intros table Hperm. symmetry.
    apply first_match_permutation; [now apply Permutation_sym|].
    apply keywords_exclusive. eapply templates_known; eauto.
  - rewrite product_switches_first_match.
    cbn [ARGUMENT_KEYWORDS first_match].
    repeat (match goal with
            | |- context [if PyStr.contains t ?k then _ else _] =>
              destruct (PyStr.contains t k)
            end; simpl; try lia).
  - rewrite product_switches_first_match. intros Hone.
    cbn [ARGUMENT_KEYWORDS first_match] in Hone.
    repeat (match type of Hone with
            | context [if PyStr.contains t ?k then _ else _] =>
              let E := fresh "E" in
              destruct (PyStr.contains t k) eqn:E;
              [apply contains_iff in E; exists k; split;
               [simpl; tauto|exact E]|]
            end).
    discriminate.
  - intros [k [Hk Hocc]]. rewrite product_switches_first_match.
    apply contains_iff in Hocc.
    cbv [ARGUMENT_KEYWORDS map fst In] in Hk.
    cbn [ARGUMENT_KEYWORDS first_match].
    repeat (match goal with
            | |- context [if PyStr.contains t ?k then _ else _] =>
              destruct (PyStr.contains t k) eqn:?
            end; try reflexivity).
    repeat (destruct Hk as [Hk|Hk]; [subst k; congruence|]).
    contradiction.
  - rewrite variation_arguments_table, in_app_iff. intros [Hin|Hin].
    + exfalso. cbn [ARGUMENT_KEYWORDS first_match] in Hin.
      repeat (match type of Hin with
              | context [if PyStr.contains t ?k then _ else _] =>
                destruct (PyStr.contains t k)
              end; simpl in Hin;
              try (destruct Hin as [Hin|Hin]; [discriminate|]);
              try contradiction).
    + unfold non_commercial_switch in Hin.
      destruct (PyStr.contains t "Non-commercial") eqn:E;
        [now apply contains_iff in E|contradiction].
  - intros Hocc. apply contains_iff in Hocc.
    rewrite variation_arguments_table, in_app_iff. right.
    unfold non_commercial_switch. rewrite Hocc. now left.
Qed.

(** ** The single-bundle platform *)

Lemma extract_single_bundle (self : Launcher) (path : string)
    (m : PyDict.t pyval) (variant version : string) :
  sys_platform (host self) = "darwin" ->
  match_get m "variant" = PyStr variant ->
  match_get m "version" = PyStr version ->
  _extract_variations_from_path self path m =
  Gen [ {| sv_version := PyStr version;
           sv_product := PyStr variant;
           sv_display_name :=
             variant +++ " " +++ version +++ or_empty (match_get m "suffix");
           sv_path := path;
           sv_icon := icon_of self variant;
           sv_args := None |} ]
      None.
Proof.
  intros Hp Hvariant Hversion.
  unfold _extract_variations_from_path.
  rewrite Hp, Hvariant, Hversion, icon_total.
  cbn. unfold gen_yield. now rewrite append_nil_r.
Qed.

(** C3. On darwin a matched path whose groups give a variant and a
    version yields exactly one variation: its display name is the
    variant, a space, the version and then the suffix, or nothing when the
    suffix group took no part in the match; its path is the matched path
    and it is built without launch arguments.  A missing suffix raises
    nothing. *)
Theorem darwin_single_variation (self : Launcher) (path : string)
    (m : PyDict.t pyval) (variant version : string) (suffix_group : pyval) :
  sys_platform (host self) = "darwin" ->
  match_get m "variant" = PyStr variant ->
  match_get m "version" = PyStr version ->
  match_get m "suffix" = suffix_group ->
  _extract_variations_from_path self path m =
  Gen [ {| sv_version := PyStr version;
           sv_product := PyStr variant;
           sv_display_name :=
             variant +++ " " +++ version +++
             match suffix_group with
             | PyStr suffix => suffix
             | PyNone => ""
             end;
           sv_path := path;
           sv_icon := icon_of self variant;
           sv_args := None |} ]
      None.
Proof.
  intros Hp Hvariant Hversion Hsuffix.
  rewrite (extract_single_bundle self path m _ _ Hp Hvariant Hversion), Hsuffix.
  destruct suffix_group; reflexivity.
Qed.

(** ** Product names of a shared launcher's variations *)

Lemma variations_of_templates (v : string) (ts : list string) :
  _get_variation_templates_from_version (PyStr v) = Ok ts ->
  _get_variations_from_version (PyStr v) =
  Ok (map _template_to_variation_name ts).
Proof.
  unfold _get_variation_templates_from_version, _get_variations_from_version.
  destruct (str_in _ _); intros H; injection H as <-; reflexivity.
Qed.

Lemma pyval_eqb_refl (a : pyval) : pyval_eqb a a = true.
Proof. destruct a; simpl; [reflexivity|apply String.eqb_refl]. Qed.

(** C10. Away from darwin every variation that the expansion of a
    matched path yields has a product name that belongs to the variation
    names of its own version, so [is_version_supported] returns for it
    just what the toolkit's own check returns.  On darwin the product is
    the variant read from the path, and the membership test can fail:
    HieroPlayer is rejected whatever the toolkit's check says. *)
Theorem shared_launcher_products_supported (self : Launcher) (path : string)
    (m : PyDict.t pyval) (sv : SoftwareVersion) :
  (sys_platform (host self) <> "darwin" ->
   In sv (yielded (_extract_variations_from_path self path m)) ->
   exists names,
     _get_variations_from_version (sv_version sv) = Ok names /\
     existsb (pyval_eqb (sv_product sv)) (map PyStr names) = true /\
     is_version_supported self sv = Ok (super_is_version_supported self sv)) /\
  (sys_platform (host self) = "darwin" ->
   match_get m "variant" = PyStr "HieroPlayer" ->
   match_get m "version" = PyStr "10.0v5" ->
   exists player,
     yielded (_extract_variations_from_path self path m) = [player] /\
     sv_product player = PyStr "HieroPlayer" /\
     is_version_supported self player = Ok false).
Proof.
  split.
  - intros Hp Hin.
    destruct (match_get m "version") as [|v] eqn:Hv.
    + unfold _extract_variations_from_path in Hin.
      apply String.eqb_neq in Hp. rewrite Hp, Hv in Hin. destruct Hin.
    + destruct (templates_total v) as [ts Hts].
      rewrite (extract_shared_launcher self path m v ts Hp Hv Hts) in Hin.
      cbn [yielded] in Hin. apply in_map_iff in Hin as [t [<- Ht]].
      exists (map _template_to_variation_name ts).
      cbn [shared_launcher_variation sv_version sv_product].
      assert (Hmem : existsb
                (pyval_eqb (PyStr (_template_to_variation_name t)))
                (map PyStr (map _template_to_variation_name ts)) = true).
      { apply existsb_exists. exists (PyStr (_template_to_variation_name t)).
        split; [|apply pyval_eqb_refl].
        apply in_map, in_map, Ht. }
      repeat split.
      * now apply variations_of_templates.
      * exact Hmem.
      * unfold is_version_supported.
        cbn [shared_launcher_variation sv_version sv_product].
        rewrite (variations_of_templates _ _ Hts). cbn [bind]. rewrite Hmem.
        now destruct (super_is_version_supported self _).
  - intros Hp Hvariant Hversion.
    rewrite (extract_single_bundle self path m _ _ Hp Hvariant Hversion).
    eexists. split; [reflexivity|]. split; [reflexivity|].
    unfold is_version_supported.
    destruct (super_is_version_supported self _); reflexivity.
Qed.

(** ** The formatter *)

Lemma string_length_ind (P : string -> Prop) :
  (forall s, (forall s', String.length s' < String.length s -> P s') -> P s) ->
  forall s, P s.
Proof.
  intros H s.
  assert (forall n s', String.length s' < n -> P s') as Hn.
  { induction n as [|n IH]; intros s' Hlt; [lia|].
    apply H. intros s'' Hlt'. apply IH. lia. }
  apply H. intros s' Hlt. eapply Hn. exact Hlt.
Qed.

Lemma drop_0 (s : string) : PyStr.drop 0 s = s.
Proof. now destruct s. Qed.

Lemma drop_app_length (a b : string) :
  PyStr.drop (String.length a) (a +++ b) = b.
Proof. induction a; simpl; [apply drop_0|assumption]. Qed.

Lemma replace_from_skip (old new : string) (n : nat) (s : string) :
  PyStr.replace_from old new n s =
  PyStr.replace_from old new 0 (PyStr.drop n s).
Proof.
  revert n; induction s as [|c s IH]; intros [|n]; try reflexivity.
  cbn [PyStr.replace_from PyStr.drop]. apply IH.
Qed.

Lemma replace_match (p : ascii) (old' new s : string) :
  PyStr.replace_from (String p old') new 0 (String p old' +++ s) =
  new +++ PyStr.replace_from (String p old') new 0 s.
Proof.
  change (String p old' +++ s) with (String p (old' +++ s)).
  cbn [PyStr.replace_from].
  change (String p (old' +++ s)) with (String p old' +++ s).
  rewrite startswith_app. f_equal.
  rewrite replace_from_skip. cbn [String.length].
  replace (S (String.length old') - 1) with (String.length old') by lia.
  now rewrite drop_app_length.
Qed.

Lemma replace_nomatch (old new : string) (c : ascii) (s : string) :
  PyStr.startswith (String c s) old = false ->
  PyStr.replace_from old new 0 (String c s) =
  String c (PyStr.replace_from old new 0 s).
Proof. intros H. cbn [PyStr.replace_from]. now rewrite H. Qed.

Lemma contains_cons_false (c : ascii) (s sub : string) :
  PyStr.contains (String c s) sub = false ->
  PyStr.startswith (String c s) sub = false /\ PyStr.contains s sub = false.
Proof. cbn [PyStr.contains]. apply orb_false_iff. Qed.

(** Text without an opening brace is copied by the replacement of a
    placeholder. *)
Lemma replace_copy (old' new q s : string) :
  PyStr.contains q "{" = false ->
  PyStr.replace_from (String "{" old') new 0 (q +++ s) =
  q +++ PyStr.replace_from (String "{" old') new 0 s.
Proof.
  induction q as [|c q IH]; intros Hq; [reflexivity|].
  apply contains_cons_false in Hq as [Hc Hq].
  cbn [String.append]. rewrite replace_nomatch.
  - now rewrite IH.
  - cbn [PyStr.startswith] in *. rewrite andb_true_r in Hc. now rewrite Hc.
Qed.

Lemma no_brace_close (j : string) :
  PyStr.contains j "{" = false -> PyStr.contains (j +++ "}") "{" = false.
Proof.
  induction j as [|c j IH]; intros H; [reflexivity|].
  apply contains_cons_false in H as [Hc Hj].
  cbn [String.append PyStr.contains]. rewrite (IH Hj), orb_false_r.
  cbn [PyStr.startswith] in *. exact Hc.
Qed.

(** A placeholder at the head of [s], other than the one replaced, is
    copied whole. *)
Lemma replace_through (k new j s : string) :
  PyStr.contains j "{" = false ->
  PyStr.startswith (placeholder j +++ s) (placeholder k) = false ->
  PyStr.replace_from (placeholder k) new 0 (placeholder j +++ s) =
  placeholder j +++ PyStr.replace_from (placeholder k) new 0 s.
Proof.
  intros Hj Hno.
  change (placeholder k) with (String "{" (k +++ "}")) in *.
  change (placeholder j +++ s) with (String "{" ((j +++ "}") +++ s)) in *.
  rewrite replace_nomatch by exact Hno.
  rewrite replace_copy by now apply no_brace_close.
  reflexivity.
Qed.

Lemma replace_placeholder (k new s : string) :
  PyStr.replace_from (placeholder k) new 0 (placeholder k +++ s) =
  new +++ PyStr.replace_from (placeholder k) new 0 s.
Proof. exact (replace_match "{" (k +++ "}") new s). Qed.

Lemma not_in_cons (q : ascii) (Q : string) (c : ascii) :
  PyStr.contains (String q Q) (String c "") = false ->
  Ascii.eqb c q = false /\ PyStr.contains Q (String c "") = false.
Proof.
  intros H. apply contains_cons_false in H as [H1 H2].
  cbn [PyStr.startswith] in H1. rewrite andb_true_r in H1. auto.
Qed.

Lemma substitute_from_skip (tokens : PyDict.t string) (n : nat) (s : string) :
  substitute_from tokens n s = substitute_from tokens 0 (PyStr.drop n s).
Proof.
  revert n; induction s as [|c s IH]; intros [|n]; try reflexivity.
  cbn [substitute_from PyStr.drop]. apply IH.
Qed.

Lemma placeholder_at_Some (tokens : PyDict.t string) (s k v : string) :
  placeholder_at tokens s = Some (k, v) ->
  In (k, v) tokens /\ exists s2, s = placeholder k +++ s2.
Proof.
  induction tokens as [|[k' v'] tokens IH]; [discriminate|].
  cbn [placeholder_at].
  destruct (PyStr.startswith s (placeholder k')) eqn:E.
  - intros H; injection H as <- <-. split; [now left|].
    now apply startswith_split.
  - intros H. destruct (IH H) as [Hin Hs]. split; [now right|exact Hs].
Qed.

Lemma placeholder_at_None (tokens : PyDict.t string) (s : string) :
  placeholder_at tokens s = None <->
  forall k v, In (k, v) tokens -> PyStr.startswith s (placeholder k) = false.
Proof.
  induction tokens as [|[k' v'] tokens IH]; cbn [placeholder_at].
  - split; [intros _ k v []|reflexivity].
  - destruct (PyStr.startswith s (placeholder k')) eqn:E.
    + split; [discriminate|]. intros H.
      rewrite (H k' v' (or_introl eq_refl)) in E. discriminate.
    + rewrite IH. split.
      * intros H k v [Heq|Hin]; [injection Heq as <- <-; exact E|eauto].
      * intros H k v Hin. apply (H k v). now right.
Qed.

Lemma placeholder_at_ext (tokens : PyDict.t string) (s s' : string) :
  (forall k v, In (k, v) tokens ->
     PyStr.startswith s (placeholder k) = PyStr.startswith s' (placeholder k)) ->
  placeholder_at tokens s = placeholder_at tokens s'.
Proof.
  induction tokens as [|[k v] tokens IH]; intros H; [reflexivity|].
  cbn [placeholder_at]. rewrite (H k v (or_introl eq_refl)).
  rewrite IH; [reflexivity|]. intros; apply (H k0 v0); now right.
Qed.

Lemma substitute_match (tokens : PyDict.t string) (k v s2 : string) :
  placeholder_at tokens (placeholder k +++ s2) = Some (k, v) ->
  substitute tokens (placeholder k +++ s2) = v +++ substitute tokens s2.
Proof.
  intros H. unfold substitute.
  change (placeholder k +++ s2) with (String "{" ((k +++ "}") +++ s2)) in *.
  cbn [substitute_from]. rewrite H. f_equal.
  rewrite substitute_from_skip.
  replace (String.length k + 1) with (String.length (k +++ "}"))
    by (rewrite length_append; reflexivity).
  now rewrite drop_app_length.
Qed.

Lemma substitute_nomatch (tokens : PyDict.t string) (c : ascii) (s : string) :
  placeholder_at tokens (String c s) = None ->
  substitute tokens (String c s) = String c (substitute tokens s).
Proof. intros H. unfold substitute. cbn [substitute_from]. now rewrite H. Qed.

Lemma startswith_app_cases (b y q : string) :
  PyStr.startswith (b +++ y) q = true ->
  PyStr.startswith b q = true \/ PyStr.startswith q b = true.
Proof.
  revert q; induction b as [|c b IH]; intros q H; [now right|].
  destruct q as [|d q]; [now left|].
  cbn [String.append PyStr.startswith] in *.
  apply andb_true_iff in H as [H1 H2].
  rewrite H1, (Ascii.eqb_sym c d), H1. cbn [andb]. now apply IH.
Qed.

Lemma no_start_inside_head (q : string) (c : ascii) (v y : string) :
  no_start_inside q (String c v) = true ->
  PyStr.startswith (String c v +++ y) q = false /\
  no_start_inside q v = true.
Proof.
  cbn [no_start_inside]. intros H.
  apply andb_true_iff in H as [H1 H2]. split; [|exact H2].
  apply negb_true_iff, orb_false_iff in H1 as [Ha Hb].
  destruct (PyStr.startswith (String c v +++ y) q) eqn:E; [|reflexivity].
  apply startswith_app_cases in E as [E|E]; congruence.
Qed.

(** What starts the text after a replacement started it before, when no
    occurrence of it can reach into the value written. *)
Lemma startswith_replace_clear (old v s Q : string) :
  no_end_inside Q v = true ->
  PyStr.startswith (PyStr.replace_from old v 0 s) Q = true ->
  PyStr.startswith s Q = true.
Proof.
  revert Q; induction s as [|c s IH]; intros Q HQ H; [exact H|].
  destruct Q as [|q Q]; [reflexivity|].
  cbn [no_end_inside] in HQ. apply andb_true_iff in HQ as [Hq HQ].
  apply negb_true_iff, orb_false_iff in Hq as [Ha Hb].
  cbn [PyStr.replace_from] in H.
  destruct (PyStr.startswith (String c s) old).
  - apply startswith_app_cases in H as [H|H]; congruence.
  - cbn [PyStr.startswith] in *.
    apply andb_true_iff in H as [H1 H2]. rewrite H1. cbn [andb].
    now apply IH.
Qed.

Lemma inert_for_spec (q v : string) :
  inert_for q v = true ->
  exists c0 v', v = String c0 v' /\
                PyStr.contains q (String c0 "") = false /\
                no_start_inside q v = true.
Proof.
  destruct v as [|c0 v']; [discriminate|]. unfold inert_for.
  intros H. apply andb_true_iff in H as [H1 H2].
  apply negb_true_iff in H1. now exists c0, v'.
Qed.

Lemma inert_lookup_spec (tokens : PyDict.t string) :
  inert_lookup tokens = true <->
  forall k v, In (k, v) tokens ->
    (PyStr.contains k "{" = false /\ PyStr.contains k "}" = false) /\
    forall j w, In (j, w) tokens -> inert_for (placeholder j) v = true.
Proof.
  unfold inert_lookup. rewrite forallb_forall. split.
  - intros H k v Hin. specialize (H _ Hin). cbn [fst snd] in H.
    apply andb_true_iff in H as [H1 H2].
    apply negb_true_iff, orb_false_iff in H1.
    split; [exact H1|]. intros j w Hj.
    rewrite forallb_forall in H2. exact (H2 _ Hj).
  - intros H [k v] Hin. destruct (H k v Hin) as [[H1 H1'] H2]. cbn [fst snd].
    rewrite H1, H1'. cbn [negb orb andb]. apply forallb_forall.
    intros [j w] Hj. exact (H2 j w Hj).
Qed.

Lemma inert_lookup_permutation (tokens tokens' : PyDict.t string) :
  Permutation tokens tokens' ->
  inert_lookup tokens = true -> inert_lookup tokens' = true.
Proof.
  intros Hperm. rewrite !inert_lookup_spec. intros H k v Hin.
  apply Permutation_sym in Hperm.
  destruct (H k v (Permutation_in _ Hperm Hin)) as [H1 H2].
  split; [exact H1|]. intros j w Hj.
  exact (H2 j w (Permutation_in _ Hperm Hj)).
Qed.

Lemma clear_of_spec (q v : string) :
  clear_of q v = true <->
  no_start_inside q v = true /\ no_end_inside q v = true.
Proof. unfold clear_of. apply andb_true_iff. Qed.

Lemma clear_in_order_cons (k v : string) (tokens : PyDict.t string) :
  clear_in_order ((k, v) :: tokens) = true <->
  (forall j w, In (j, w) tokens ->
     PyStr.contains j "{" = false /\ clear_of (placeholder j) v = true) /\
  clear_in_order tokens = true.
Proof.
  cbn [clear_in_order]. rewrite andb_true_iff, forallb_forall. split.
  - intros [H1 H2]. split; [|exact H2]. intros j w Hj.
    specialize (H1 _ Hj). cbn [fst] in H1.
    apply andb_true_iff in H1 as [Ha Hb].
    now apply negb_true_iff in Ha.
  - intros [H1 H2]. split; [|exact H2]. intros [j w] Hj.
    destruct (H1 j w Hj) as [Ha Hb]. cbn [fst]. now rewrite Ha, Hb.
Qed.

Lemma clear_lookup_spec (tokens : PyDict.t string) :
  clear_lookup tokens = true <->
  forall k v, In (k, v) tokens ->
    (PyStr.contains k "{" = false /\ PyStr.contains k "}" = false) /\
    forall j w, In (j, w) tokens -> clear_of (placeholder j) v = true.
Proof.
  unfold clear_lookup. rewrite forallb_forall. split.
  - intros H k v Hin. specialize (H _ Hin). cbn [fst snd] in H.
    apply andb_true_iff in H as [H1 H2].
    apply negb_true_iff, orb_false_iff in H1.
    split; [exact H1|]. intros j w Hj.
    rewrite forallb_forall in H2. exact (H2 _ Hj).
  - intros H [k v] Hin. destruct (H k v Hin) as [[H1 H1'] H2]. cbn [fst snd].
    rewrite H1, H1'. cbn [negb orb andb]. apply forallb_forall.
    intros [j w] Hj. exact (H2 j w Hj).
Qed.


(** A lookup that is clear in every order is clear in its own. *)
Lemma clear_lookup_in_order (tokens : PyDict.t string) :
  clear_lookup tokens = true -> clear_in_order tokens = true.
Proof.
  rewrite clear_lookup_spec.
  induction tokens as [|[k v] tokens IH]; intros H; [reflexivity|].
  apply clear_in_order_cons. split.
  - intros j w Hj. split.
    + exact (proj1 (proj1 (H j w (or_intror Hj)))).
    + exact (proj2 (H k v (or_introl eq_refl)) j w (or_intror Hj)).
  - apply IH. intros k' v' Hin.
    destruct (H k' v' (or_intror Hin)) as [H1 H2].
    split; [exact H1|]. intros j w Hj. apply (H2 j w). now right.
Qed.

(** A value whose first character is foreign to [q] is reached by no
    occurrence of [q] that begins before it. *)
Lemma foreign_head_no_end (q : string) (c0 : ascii) (v' : string) :
  PyStr.contains q (String c0 "") = false ->
  no_end_inside q (String c0 v') = true.
Proof.
  induction q as [|d q IH]; intros H; [reflexivity|].
  apply not_in_cons in H as [Hd Hq].
  cbn [no_end_inside PyStr.startswith].
  rewrite Hd, Ascii.eqb_sym, Hd. cbn [andb orb negb]. now apply IH.
Qed.

Lemma inert_clear (q v : string) : inert_for q v = true -> clear_of q v = true.
Proof.
  intros H. destruct (inert_for_spec _ _ H) as [c0 [v' [-> [Hc Hn]]]].
  apply clear_of_spec. split; [exact Hn|now apply foreign_head_no_end].
Qed.

(** An inert lookup is clear. *)
Lemma inert_lookup_clear (tokens : PyDict.t string) :
  inert_lookup tokens = true -> clear_lookup tokens = true.
Proof.
  rewrite inert_lookup_spec, clear_lookup_spec. intros H k v Hin.
  destruct (H k v Hin) as [H1 H2]. split; [exact H1|].
  intros j w Hj. apply inert_clear. exact (H2 j w Hj).
Qed.

(** An inert value is copied by the one-pass substitution. *)
Lemma substitute_inert (tokens : PyDict.t string) (v y : string) :
  (forall j w, In (j, w) tokens -> no_start_inside (placeholder j) v = true) ->
  substitute tokens (v +++ y) = v +++ substitute tokens y.
Proof.
  induction v as [|c v IH]; intros H; [reflexivity|].
  cbn [String.append]. rewrite substitute_nomatch.
  - rewrite IH; [reflexivity|]. intros j w Hj.
    exact (proj2 (no_start_inside_head _ _ _ "" (H j w Hj))).
  - apply placeholder_at_None. intros j w Hj.
    exact (proj1 (no_start_inside_head _ _ _ y (H j w Hj))).
Qed.

(** Replacing the first key's placeholder and substituting the others
    in one pass is substituting all of them in one pass, when the value
    written is clear of the other placeholders. *)
Lemma substitute_after_replace (k v : string) (tokens : PyDict.t string) :
  (forall j w, In (j, w) tokens ->
     PyStr.contains j "{" = false /\ clear_of (placeholder j) v = true) ->
  forall t,
    substitute tokens (PyStr.replace_from (placeholder k) v 0 t) =
    substitute ((k, v) :: tokens) t.
Proof.
  intros Hall.
  assert (Hkeys : forall j w, In (j, w) tokens ->
                    PyStr.contains j "{" = false).
  { intros j w Hj. exact (proj1 (Hall j w Hj)). }
  assert (Hinside : forall j w, In (j, w) tokens ->
            no_start_inside (placeholder j) v = true).
  { intros j w Hj.
    exact (proj1 (proj1 (clear_of_spec _ _) (proj2 (Hall j w Hj)))). }
  assert (Hend : forall j w, In (j, w) tokens ->
            no_end_inside (placeholder j) v = true).
  { intros j w Hj.
    exact (proj2 (proj1 (clear_of_spec _ _) (proj2 (Hall j w Hj)))). }
  induction t as [t IH] using string_length_ind.
  destruct t as [|c t]; [reflexivity|].
  destruct (PyStr.startswith (String c t) (placeholder k)) eqn:Ek.
  - (* the replaced placeholder starts here *)
    destruct (startswith_split _ _ Ek) as [t2 Et]. rewrite Et.
    rewrite (substitute_match ((k, v) :: tokens) k v t2)
      by (cbn [placeholder_at]; now rewrite startswith_app).
    rewrite replace_placeholder.
    rewrite substitute_inert by exact Hinside. f_equal.
    apply IH. rewrite Et, length_append. unfold placeholder. simpl. lia.
  - rewrite (replace_nomatch _ v _ _ Ek).
    assert (Hsame : placeholder_at tokens
                      (String c (PyStr.replace_from (placeholder k) v 0 t)) =
                    placeholder_at tokens (String c t)).
    { apply placeholder_at_ext. intros j w Hj.
      rewrite <- (replace_nomatch _ v _ _ Ek).
      destruct (PyStr.startswith (String c t) (placeholder j)) eqn:Ej.
      - destruct (startswith_split _ _ Ej) as [t2 Et]. rewrite Et in Ek |- *.
        rewrite (replace_through k v j t2 (Hkeys j w Hj) Ek).
        apply startswith_app.
      - destruct (PyStr.startswith
                    (PyStr.replace_from (placeholder k) v 0 (String c t))
                    (placeholder j)) eqn:Er; [|reflexivity].
        apply startswith_replace_clear in Er; [congruence|].
        exact (Hend j w Hj). }
    destruct (placeholder_at tokens (String c t)) as [[j w]|] eqn:Ej.
    + (* another placeholder starts here *)
      destruct (placeholder_at_Some _ _ _ _ Ej) as [Hj [t2 Et]].
      rewrite <- (replace_nomatch _ v _ _ Ek) in Hsame |- *.
      rewrite Et in Ek, Hsame, Ej, IH |- *.
      rewrite (replace_through k v j t2 (Hkeys j w Hj) Ek)
        in Hsame |- *.
      rewrite (substitute_match tokens j w _ Hsame).
      rewrite (substitute_match ((k, v) :: tokens) j w t2)
        by (cbn [placeholder_at]; now rewrite Ek).
      f_equal. apply IH. rewrite length_append. unfold placeholder.
      simpl. lia.
    + rewrite (substitute_nomatch tokens _ _ Hsame).
      rewrite (substitute_nomatch ((k, v) :: tokens) c t)
        by (cbn [placeholder_at]; now rewrite Ek).
      f_equal. apply IH. simpl. lia.
Qed.

Lemma format_cons (template k v : string) (tokens : PyDict.t string) :
  _format template ((k, v) :: tokens) =
  _format (PyStr.replace_from (placeholder k) v 0 template) tokens.
Proof. reflexivity. Qed.

Lemma substitute_no_keys (template : string) :
  substitute [] template = template.
Proof.
  unfold substitute. induction template as [|c t IHt]; [reflexivity|].
  cbn [substitute_from placeholder_at]. now rewrite IHt.
Qed.

(** When each value is clear of the placeholders handled after it, the
    formatter's successive replacements amount to one pass of
    substitution. *)
Lemma format_substitute_in_order (tokens : PyDict.t string) :
  clear_in_order tokens = true ->
  forall template, _format template tokens = substitute tokens template.
Proof.
  induction tokens as [|[k v] tokens IH]; intros Hclear template.
  - now rewrite substitute_no_keys.
  - apply clear_in_order_cons in Hclear as [Hhead Htail].
    rewrite format_cons, IH by exact Htail.
    now apply substitute_after_replace.
Qed.

Lemma format_substitute (tokens : PyDict.t string) :
  inert_lookup tokens = true ->
  forall template, _format template tokens = substitute tokens template.
Proof.
  intros Hinert. now apply format_substitute_in_order, clear_lookup_in_order,
                           inert_lookup_clear.
Qed.

Lemma no_start_inside_contains (q v y : string) :
  no_start_inside q v = true ->
  PyStr.contains (v +++ y) q = PyStr.contains y q.
Proof.
  induction v as [|c v IH]; intros H; [reflexivity|].
  destruct (no_start_inside_head _ _ _ y H) as [H1 H2].
  cbn [String.append PyStr.contains].
  change (String c (v +++ y)) with (String c v +++ y).
  rewrite H1. cbn [orb]. now apply IH.
Qed.

(** What starts the substituted text started the template, when no
    occurrence of it can reach into a value of the lookup. *)
Lemma startswith_substitute_clear (tokens : PyDict.t string) (s Q : string) :
  (forall k v, In (k, v) tokens -> no_end_inside Q v = true) ->
  PyStr.startswith (substitute tokens s) Q = true ->
  PyStr.startswith s Q = true.
Proof.
  unfold substitute.
  revert Q; induction s as [|c s IH]; intros Q HQ H; [exact H|].
  destruct Q as [|q Q]; [reflexivity|].
  cbn [substitute_from] in H.
  destruct (placeholder_at tokens (String c s)) as [[k v]|] eqn:E.
  - destruct (placeholder_at_Some _ _ _ _ E) as [Hin _].
    pose proof (HQ k v Hin) as Hk. cbn [no_end_inside] in Hk.
    apply andb_true_iff in Hk as [Hk _].
    apply negb_true_iff, orb_false_iff in Hk as [Ha Hb].
    apply startswith_app_cases in H as [H|H]; congruence.
  - cbn [PyStr.startswith] in *.
    apply andb_true_iff in H as [H1 H2]. rewrite H1. cbn [andb].
    apply IH; [|exact H2].
    intros k v Hin. pose proof (HQ k v Hin) as Hk. cbn [no_end_inside] in Hk.
    now apply andb_true_iff in Hk as [_ Hk].
Qed.

(** No placeholder of a clear lookup is left in the substituted text. *)
Lemma substitute_leaves_none (tokens : PyDict.t string) :
  clear_lookup tokens = true ->
  forall t j w, In (j, w) tokens ->
    PyStr.contains (substitute tokens t) (placeholder j) = false.
Proof.
  intros Hclear t j w Hj.
  pose proof (proj1 (clear_lookup_spec _) Hclear) as Hall.
  induction t as [t IH] using string_length_ind.
  destruct t as [|c t]; [reflexivity|].
  destruct (placeholder_at tokens (String c t)) as [[k v]|] eqn:E.
  - destruct (placeholder_at_Some _ _ _ _ E) as [Hk [t2 Et]].
    rewrite Et in E |- *. rewrite (substitute_match _ _ _ _ E).
    destruct (proj1 (clear_of_spec _ _) (proj2 (Hall k v Hk) j w Hj))
      as [Hn _].
    rewrite (no_start_inside_contains _ _ _ Hn).
    apply IH. rewrite Et, length_append. unfold placeholder. simpl. lia.
  - rewrite (substitute_nomatch _ _ _ E). cbn [PyStr.contains].
    rewrite (IH t) by (simpl; lia). rewrite orb_false_r.
    rewrite <- (substitute_nomatch _ _ _ E).
    destruct (PyStr.startswith _ _) eqn:Es; [|reflexivity].
    apply startswith_substitute_clear in Es.
    + rewrite (proj1 (placeholder_at_None _ _) E j w Hj) in Es. discriminate.
    + intros k v Hk.
      exact (proj2 (proj1 (clear_of_spec _ _) (proj2 (Hall k v Hk) j w Hj))).
Qed.

(** A text without placeholders of the lookup is left as it is. *)
Lemma substitute_nothing (tokens : PyDict.t string) (r : string) :
  (forall j w, In (j, w) tokens ->
     PyStr.contains r (placeholder j) = false) ->
  substitute tokens r = r.
Proof.
  induction r as [|c r IH]; intros H; [reflexivity|].
  rewrite substitute_nomatch.
  - f_equal. apply IH. intros j w Hj.
    exact (proj2 (contains_cons_false _ _ _ (H j w Hj))).
  - apply placeholder_at_None. intros j w Hj.
    exact (proj1 (contains_cons_false _ _ _ (H j w Hj))).
Qed.

Lemma format_leaves_none_clear (tokens : PyDict.t string) :
  clear_lookup tokens = true ->
  forall t j w, In (j, w) tokens ->
    PyStr.contains (_format t tokens) (placeholder j) = false.
Proof.
  intros Hclear t j w Hj.
  rewrite format_substitute_in_order by now apply clear_lookup_in_order.
  now apply substitute_leaves_none with (w := w).
Qed.

Lemma format_leaves_none (tokens : PyDict.t string) :
  inert_lookup tokens = true ->
  forall t j w, In (j, w) tokens ->
    PyStr.contains (_format t tokens) (placeholder j) = false.
Proof.
  intros Hinert. now apply format_leaves_none_clear, inert_lookup_clear.
Qed.

Lemma format_idempotent (tokens : PyDict.t string) :
  inert_lookup tokens = true ->
  forall t, _format (_format t tokens) tokens = _format t tokens.
Proof.
  intros Hinert t.
  rewrite (format_substitute tokens Hinert (_format t tokens)).
  apply substitute_nothing. intros j w Hj.
  now apply format_leaves_none with (w := w).
Qed.

(** ** Dictionaries *)

Lemma insert_at_permutation {A} (n : nat) (x : A) (l : list A) :
  Permutation (PyDict.insert_at n x l) (x :: l).
Proof.
  revert n; induction l as [|y l IH]; intros [|n]; cbn [PyDict.insert_at];
    try reflexivity.
  rewrite IH. apply perm_swap.
Qed.

Lemma has_key_false {V} (d : PyDict.t V) (k : string) :
  ~ In k (PyDict.keys d) -> PyDict.has_key d k = false.
Proof.
  intros H. unfold PyDict.has_key.
  destruct (existsb _ _) eqn:E; [|reflexivity].
  apply existsb_exists in E as [x [Hx Heq]].
  apply String.eqb_eq in Heq. now subst x.
Qed.

Lemma has_key_true {V} (d : PyDict.t V) (k : string) :
  In k (PyDict.keys d) -> PyDict.has_key d k = true.
Proof.
  intros H. apply existsb_exists. exists k. split; [exact H|].
  apply String.eqb_refl.
Qed.

Lemma fold_set_permutation {V} (place : list string -> string -> nat)
    (items : list (string * V)) :
  NoDup (map fst items) ->
  forall acc,
    (forall k, In k (map fst items) -> ~ In k (PyDict.keys acc)) ->
    Permutation
      (fold_left (fun d kv => PyDict.set place d (fst kv) (snd kv)) items acc)
      (acc ++ items).
Proof.
  induction items as [|[k v] items IH]; intros Hnd acc Hfresh.
  - cbn [fold_left]. now rewrite app_nil_r.
  - cbn [fold_left fst snd]. cbn [map fst] in Hnd, Hfresh.
    apply NoDup_cons_iff in Hnd as [Hk Hnd].
    unfold PyDict.set at 2.
    rewrite has_key_false by (apply Hfresh; now left).
    rewrite IH; [| exact Hnd |].
    + rewrite insert_at_permutation. apply Permutation_middle.
    + intros k' Hk' Hin. unfold PyDict.keys in Hin.
      apply (Permutation_in _ (Permutation_map fst
               (insert_at_permutation _ (k, v) acc))) in Hin.
      cbn [map fst] in Hin. destruct Hin as [<-|Hin]; [contradiction|].
      apply (Hfresh k'); [now right|exact Hin].
Qed.

(** A dict display holds its items, in some order. *)
Lemma of_items_permutation {V} (place : list string -> string -> nat)
    (items : list (string * V)) :
  NoDup (map fst items) ->
  Permutation (PyDict.of_items place items) items.
Proof.
  intros Hnd. unfold PyDict.of_items.
  rewrite fold_set_permutation by (auto; intros k _ []).
  reflexivity.
Qed.

Lemma glob_lookup_items (h : Host) :
  Permutation (COMPONENT_GLOB_LOOKUP h) COMPONENT_GLOB_LOOKUP_items.
Proof.
  apply of_items_permutation.
  repeat (constructor; [simpl; intuition discriminate|]). constructor.
Qed.

Lemma regex_lookup_items (h : Host) :
  Permutation (COMPONENT_REGEX_LOOKUP h) COMPONENT_REGEX_LOOKUP_items.
Proof.
  apply of_items_permutation.
  repeat (constructor; [simpl; intuition discriminate|]). constructor.
Qed.

Lemma glob_lookup_inert (h : Host) :
  inert_lookup (COMPONENT_GLOB_LOOKUP h) = true.
Proof.
  apply inert_lookup_permutation with (tokens := COMPONENT_GLOB_LOOKUP_items);
    [apply Permutation_sym, glob_lookup_items|reflexivity].
Qed.

Lemma regex_lookup_inert (h : Host) :
  inert_lookup (COMPONENT_REGEX_LOOKUP h) = true.
Proof.
  apply inert_lookup_permutation with (tokens := COMPONENT_REGEX_LOOKUP_items);
    [apply Permutation_sym, regex_lookup_items|reflexivity].
Qed.














(** C9. For every template of the per-platform tables and for each of
    the two fixed lookups, formatting the formatted template again
    returns it unchanged; the formatted template holds no placeholder of
    the lookup. *)
Theorem formatting_is_idempotent (h : Host) (platform : string)
    (templates : list string) (T : string) (tokens : PyDict.t string) :
  EXECUTABLE_MATCH_TEMPLATES h platform = Ok templates ->
  In T templates ->
  tokens = COMPONENT_GLOB_LOOKUP h \/ tokens = COMPONENT_REGEX_LOOKUP h ->
  _format (_format T tokens) tokens = _format T tokens /\
  forall key value, In (key, value) tokens ->
    PyStr.contains (_format T tokens) (placeholder key) = false.
Proof.
  intros _ _ Htokens.
  assert (Hinert : inert_lookup tokens = true).
  { destruct Htokens as [->| ->];
      [apply glob_lookup_inert|apply regex_lookup_inert]. }
  split; [now apply format_idempotent|].
  intros key value Hin. now apply format_leaves_none with (w := value).
Qed.

Lemma gen_for_ext {X A} (f g : X -> gen A) (xs : list X) :
  (forall x, In x xs -> f x = g x) -> gen_for f xs = gen_for g xs.
Proof.
  induction xs as [|x xs IH]; intros H; [reflexivity|].
  cbn [gen_for]. rewrite (H x (or_introl eq_refl)).
  rewrite IH; [reflexivity|]. intros; apply H; now right.
Qed.

Lemma gen_for_map {X Y A} (f : Y -> gen A) (g : X -> Y) (xs : list X) :
  gen_for f (map g xs) = gen_for (fun x => f (g x)) xs.
Proof.
  induction xs as [|x xs IH]; [reflexivity|].
  cbn [map gen_for]. now rewrite IH.
Qed.

Lemma gen_for_yielded_in {X A} (body : X -> gen A) (xs : list X) (a : A) :
  In a (yielded (gen_for body xs)) ->
  exists x, In x xs /\ In a (yielded (body x)).
Proof.
  induction xs as [|x xs IH]; [intros []|].
  cbn [gen_for]. unfold gen_then.
  destruct (raised (body x)).
  - intros H. exists x. split; [now left|exact H].
  - cbn [yielded]. intros H. apply in_app_or in H as [H|H].
    + exists x. split; [now left|exact H].
    + destruct (IH H) as [x' [Hx' Ha]]. exists x'. split; [now right|exact Ha].
Qed.

Lemma gen_for_raised_none {X A} (body : X -> gen A) (xs : list X) :
  raised (gen_for body xs) = None ->
  forall x, In x xs -> raised (body x) = None.
Proof.
  induction xs as [|x xs IH]; [intros _ y []|].
  cbn [gen_for]. unfold gen_then.
  destruct (raised (body x)) eqn:E; [congruence|].
  cbn [raised]. intros H y [<-|Hy]; [exact E|now apply IH].
Qed.

Lemma gen_then_nothing {A} (g : gen A) : gen_then (Gen [] None) g = g.
Proof. now destruct g. Qed.

Lemma gen_for_app {X A} (body : X -> gen A) (xs ys : list X) :
  gen_for body (xs ++ ys) = gen_then (gen_for body xs) (gen_for body ys).
Proof.
  induction xs as [|x xs IH]; cbn [app gen_for].
  - now rewrite gen_then_nothing.
  - rewrite IH. unfold gen_then.
    destruct (body x) as [l1 [e|]]; cbn [raised yielded]; [reflexivity|].
    destruct (gen_for body xs) as [l2 [e|]]; cbn [raised yielded];
      [reflexivity|].
    now rewrite app_assoc.
Qed.

(** An item whose body yields nothing and ends normally can be left out
    of the loop, wherever it stands. *)
Lemma gen_for_skip {X A} (body : X -> gen A) (xs ys : list X) (x : X) :
  body x = Gen [] None ->
  gen_for body (xs ++ x :: ys) = gen_for body (xs ++ ys).
Proof.
  intros H. rewrite !gen_for_app. cbn [gen_for].
  now rewrite H, gen_then_nothing.
Qed.

Lemma gen_for_filter {X A} (body : X -> gen A) (keep : X -> bool)
    (xs : list X) :
  (forall x, In x xs -> keep x = false -> body x = Gen [] None) ->
  gen_for body xs = gen_for body (filter keep xs).
Proof.
  induction xs as [|x xs IH]; intros H; [reflexivity|].
  cbn [gen_for filter].
  rewrite IH by (intros; apply H; [now right|assumption]).
  destruct (keep x) eqn:E; [reflexivity|].
  now rewrite (H x (or_introl eq_refl) E), gen_then_nothing.
Qed.

(** In a loop that ends normally nothing a body yields is lost. *)
Lemma gen_for_yields_all {X A} (body : X -> gen A) (xs : list X)
    (x : X) (a : A) :
  raised (gen_for body xs) = None ->
  In x xs -> In a (yielded (body x)) ->
  In a (yielded (gen_for body xs)).
Proof.
  induction xs as [|y xs IH]; [intros _ []|].
  cbn [gen_for]. unfold gen_then.
  destruct (raised (body y)) eqn:E; [congruence|].
  cbn [raised yielded]. intros Hr [->|Hx] Ha; apply in_or_app.
  - now left.
  - right. now apply IH.
Qed.

(** ** The finder's dict *)

Section Finder.

Variable V : Type.
Variable place : list string -> string -> nat.
Variable value_of : string -> V.

Let item : string -> string * V := keyed value_of.

Lemma keys_map_item (l : list string) : PyDict.keys (map item l) = l.
Proof.
  unfold PyDict.keys, item, keyed. rewrite map_map. cbn [fst]. apply map_id.
Qed.

Lemma update_determined (l : list string) (k : string) :
  PyDict.update (map item l) k (value_of k) = map item l.
Proof.
  induction l as [|k' l IH]; [reflexivity|].
  cbn [map PyDict.update]. unfold item at 1, keyed at 1.
  destruct (String.eqb k k') eqn:E.
  - apply String.eqb_eq in E. now subst k'.
  - now rewrite IH.
Qed.

Lemma insert_at_map {A B} (g : A -> B) (n : nat) (x : A) (l : list A) :
  PyDict.insert_at n (g x) (map g l) = map g (PyDict.insert_at n x l).
Proof.
  revert n; induction l as [|y l IH]; intros [|n]; cbn [PyDict.insert_at map];
    try reflexivity.
  now rewrite IH.
Qed.

(** Storing [value_of k] under [k] in a dict whose values are given by
    [value_of] keeps it such, and adds [k] to its keys if it is new. *)
Lemma set_determined (l : list string) (k : string) :
  NoDup l ->
  exists l',
    PyDict.set place (map item l) k (value_of k) = map item l' /\
    NoDup l' /\
    forall k', In k' l' <-> k' = k \/ In k' l.
Proof.
  intros Hnd. unfold PyDict.set.
  destruct (PyDict.has_key (map item l) k) eqn:E.
  - exists l. rewrite update_determined. repeat split; auto.
    + intros [->|H]; [|exact H].
      unfold PyDict.has_key in E. rewrite keys_map_item in E.
      apply existsb_exists in E as [x [Hx Heq]].
      apply String.eqb_eq in Heq. now subst x.
  - exists (PyDict.insert_at (place (PyDict.keys (map item l)) k) k l).
    assert (Hk : ~ In k l).
    { intros Hin. rewrite has_key_true in E; [discriminate|].
      now rewrite keys_map_item. }
    pose proof (insert_at_permutation
                  (place (PyDict.keys (map item l)) k) k l) as Hperm.
    repeat split.
    + apply (insert_at_map item).
    + apply (Permutation_NoDup (Permutation_sym Hperm)).
      now constructor.
    + intros H. apply (Permutation_in _ Hperm) in H.
      destruct H as [<-|H]; auto.
    + intros H. apply (Permutation_in _ (Permutation_sym Hperm)).
      destruct H as [->|H]; [now left|now right].
Qed.

End Finder.

Lemma matches_of_nil (self : Launcher) (T : string) :
  glob_glob (host self) (_format T (COMPONENT_GLOB_LOOKUP (host self))) = [] <->
  matches_of self T = [].
Proof.
  unfold matches_of. split; [now intros ->|].
  destruct (glob_glob _ _); [reflexivity|discriminate].
Qed.

(** The dict the finder builds: its keys are the templates that have
    matches, each once, in the order the dict iterates; under each key
    are the matches of that template. *)
Lemma find_executables_spec (self : Launcher) (match_templates : list string) :
  exists order,
    _find_executables self match_templates =
      map (keyed (matches_of self)) order /\
    NoDup order /\
    forall T, In T order <->
              In T match_templates /\ matches_of self T <> [].
Proof.
  unfold _find_executables.
  set (step := fun executable_matches match_template => _).
  assert (Hgen : forall ts done order,
            NoDup order ->
            (forall T, In T order <-> In T done /\ matches_of self T <> []) ->
            exists order',
              fold_left step ts (map (keyed (matches_of self)) order) =
                map (keyed (matches_of self)) order' /\
              NoDup order' /\
              forall T, In T order' <->
                        In T (done ++ ts) /\ matches_of self T <> []).
  { induction ts as [|T ts IH]; intros done order Hnd Hmem.
    - exists order. rewrite app_nil_r. auto.
    - cbn [fold_left].
      replace (done ++ T :: ts) with ((done ++ [T]) ++ ts)
        by (now rewrite <- app_assoc).
      unfold step at 2.
      destruct (glob_glob (host self)
                  (_format T (COMPONENT_GLOB_LOOKUP (host self))))
        as [|p ps] eqn:Eg.
      + apply IH; [exact Hnd|]. intros T'. rewrite Hmem, in_app_iff.
        split; [intros [H1 H2]; auto|].
        intros [[H1|[<-|[]]] H2]; [auto|].
        apply matches_of_nil in Eg. contradiction.
      + assert (Em : map (fun x => PyStr.replace x "\" "/") (p :: ps) =
                     matches_of self T).
        { unfold matches_of. now rewrite Eg. }
        rewrite Em.
        destruct (set_determined _ (dict_place (host self))
                    (matches_of self) order T Hnd)
          as [order1 [Eset [Hnd1 Hmem1]]].
        rewrite Eset. apply IH; [exact Hnd1|].
        intros T'. rewrite Hmem1, Hmem, in_app_iff. cbn [In].
        split.
        * intros [->|[H1 H2]]; [|auto].
          split; [auto|]. rewrite <- Em. discriminate.
        * intros [[H1|[<-|[]]] H2]; auto. }
  destruct (Hgen match_templates [] []) as [order [H1 [H2 H3]]].
  - constructor.
  - intros T. split; [intros []|intros [[] _]].
  - exists order. auto.
Qed.

(** ** Scanning *)



Lemma templates_supported (h : Host) (platform : string) (ts : list string) :
  EXECUTABLE_MATCH_TEMPLATES h platform = Ok ts ->
  str_in platform ["darwin"; "win32"; "linux2"] = true.
Proof.
  unfold EXECUTABLE_MATCH_TEMPLATES, str_in. cbn [existsb].
  destruct (String.eqb platform "darwin"); [reflexivity|].
  destruct (String.eqb platform "win32"); [reflexivity|].
  destruct (String.eqb platform "linux2"); [reflexivity|discriminate].
Qed.

Lemma find_in_dict_order (self : Launcher) (match_templates : list string) :
  exists order,
    NoDup order /\
    (forall T, In T order <->
               In T match_templates /\ matches_of self T <> []) /\
    gen_for (variations_of_template self)
            (_find_executables self match_templates) =
    gen_for (group_of self) order.
Proof.
  destruct (find_executables_spec self match_templates)
    as [order [Hd [Hnd Hmem]]].
  exists order. split; [exact Hnd|]. split; [exact Hmem|].
  rewrite Hd, gen_for_map. apply gen_for_ext. intros T HT.
  apply Hmem in HT as [_ HT]. unfold group_of, keyed.
  destruct (matches_of self T); [contradiction|reflexivity].
Qed.

Lemma collect_if_filter {A} (p : A -> result bool) (xs : list A)
    (stop : option exn) (l : list A) :
  collect_if p xs stop = Ok l ->
  stop = None /\
  l = filter (fun x => match p x with Ok b => b | Raise _ => false end) xs.
Proof.
  revert l; induction xs as [|x xs IH]; intros l; cbn [collect_if filter].
  - destruct stop; [discriminate|]. intros H; injection H as <-. auto.
  - destruct (p x) as [b|e]; [|discriminate]. cbn [bind].
    destruct (collect_if p xs stop) as [ys|e]; [|discriminate]. cbn [bind].
    intros H; injection H as <-. destruct (IH ys eq_refl) as [Hs Hys].
    split; [exact Hs|]. now destruct b; rewrite Hys.
Qed.



(** C7. On a platform other than darwin, win32 and linux2 a scan returns
    the empty list and raises nothing; so does a scan on any platform
    when no template of the platform has a match on disk. *)
Theorem scan_software_empty (self : Launcher) :
  (sys_platform (host self) <> "darwin" ->
   sys_platform (host self) <> "win32" ->
   sys_platform (host self) <> "linux2" ->
   scan_software self = Ok []) /\
  ((forall match_templates T,
      EXECUTABLE_MATCH_TEMPLATES (host self) (sys_platform (host self)) =
        Ok match_templates ->
      In T match_templates ->
      glob_glob (host self)
                (_format T (COMPONENT_GLOB_LOOKUP (host self))) = []) ->
   scan_software self = Ok []).
Proof.
  unfold scan_software. split.
  - intros H1 H2 H3. unfold str_in. cbn [existsb].
    apply String.eqb_neq in H1, H2, H3. now rewrite H1, H2, H3.
  - intros Hnone. destruct (negb _) eqn:Hp; [reflexivity|].
    unfold _find_software_variations.
    destruct (EXECUTABLE_MATCH_TEMPLATES _ _) as [ts|e] eqn:Hts.
    + cbn [gen_bind].
      destruct (find_executables_spec self ts) as [order [-> [_ Hmem]]].
      destruct order as [|T order]; [reflexivity|].
      destruct (proj1 (Hmem T) (or_introl eq_refl)) as [HT Hm].
      exfalso. apply Hm, matches_of_nil. now apply (Hnone ts).
    + exfalso. unfold EXECUTABLE_MATCH_TEMPLATES in Hts.
      unfold str_in in Hp. cbn [existsb] in Hp.
      destruct (String.eqb _ "darwin"); [discriminate|].
      destruct (String.eqb _ "win32"); [discriminate|].
      destruct (String.eqb _ "linux2"); discriminate.
Qed.

(** ** Glob matches and the regular expression *)

Lemma extract_path (self : Launcher) (P : string) (groupdict : PyDict.t pyval)
    (sv : SoftwareVersion) :
  In sv (yielded (_extract_variations_from_path self P groupdict)) ->
  sv_path sv = P.
Proof.
  unfold _extract_variations_from_path.
  destruct (String.eqb (sys_platform (host self)) "darwin").
  - destruct (PyStr.percent _ _) as [display_name|e]; [|intros []].
    destruct (_get_icon_from_variant self _) as [icon|e]; [|intros []].
    intros [<-|[]]. reflexivity.
  - destruct (_get_variation_templates_from_version _) as [ts|e];
      [|intros []].
    cbn [gen_bind]. intros H.
    apply gen_for_yielded_in in H as [t [_ H]].
    destruct (PyStr.percent _ _) as [display_name|e]; [|destruct H].
    destruct (_get_icon_from_variant self _) as [icon|e]; [|destruct H].
    destruct H as [<-|[]]. reflexivity.
Qed.

(** C5, as amended.  A path that matches the glob form of a template
    need not match the template's anchored case-insensitive regex; such
    a path is passed over.  When the regex of a template matches none of
    the paths found for it, the template yields nothing and raises
    nothing; and every variation a scan returns comes from a template T
    of the platform's table and a path P that the finder returned for T's
    glob pattern and that T's compiled regex matched.  A rejected path is
    passed over wherever it stands among the paths of its template: with
    it or without it the template yields the same variations and ends
    the same way, so the paths before it and the paths after it are
    expanded as if it had not been found; a template yields what its
    accepted paths yield, path after path; and when a scan returns a
    list, every supported variation of every accepted path is in it,
    whatever rejected paths were found next to that path. *)
Theorem unmatched_paths_are_skipped (self : Launcher) :
  (forall T paths executable_regex,
     re_compile_ignorecase (host self) (regex_of (host self) T) =
       Ok executable_regex ->
     (forall P, In P paths -> executable_regex P = None) ->
     variations_of_template self (T, paths) = Gen [] None) /\
  (forall found sv,
     scan_software self = Ok found ->
     In sv found ->
     exists match_templates T P executable_regex groupdict,
       EXECUTABLE_MATCH_TEMPLATES (host self) (sys_platform (host self)) =
         Ok match_templates /\
       In T match_templates /\
       In P (matches_of self T) /\
       re_compile_ignorecase (host self) (regex_of (host self) T) =
         Ok executable_regex /\
       executable_regex P = Some groupdict /\
       In sv (yielded (_extract_variations_from_path self P groupdict)) /\
       sv_path sv = P) /\
  (forall T before P after executable_regex,
     re_compile_ignorecase (host self) (regex_of (host self) T) =
       Ok executable_regex ->
     executable_regex P = None ->
     variations_of_template self (T, before ++ P :: after) =
     variations_of_template self (T, before ++ after)) /\
  (forall T paths executable_regex,
     re_compile_ignorecase (host self) (regex_of (host self) T) =
       Ok executable_regex ->
     variations_of_template self (T, paths) =
     variations_of_template self
       (T, filter (fun P => match executable_regex P with
                            | Some _ => true
                            | None => false
                            end) paths) /\
     ((forall P groupdict,
         In P paths -> executable_regex P = Some groupdict ->
         raised (_extract_variations_from_path self P groupdict) = None) ->
      variations_of_template self (T, paths) =
      Gen (flat_map
             (fun P => match executable_regex P with
                       | Some groupdict =>
                         yielded
                           (_extract_variations_from_path self P groupdict)
                       | None => []
                       end) paths) None)) /\
  (forall found match_templates T P executable_regex groupdict sv,
     scan_software self = Ok found ->
     EXECUTABLE_MATCH_TEMPLATES (host self) (sys_platform (host self)) =
       Ok match_templates ->
     In T match_templates ->
     In P (matches_of self T) ->
     re_compile_ignorecase (host self) (regex_of (host self) T) =
       Ok executable_regex ->
     executable_regex P = Some groupdict ->
     In sv (yielded (_extract_variations_from_path self P groupdict)) ->
     is_version_supported self sv = Ok true ->
     In sv found).
Proof.
  split; [|split; [|split; [|split]]].
  - intros T paths f Hf Hnone. unfold variations_of_template.
    unfold regex_of in Hf. rewrite Hf. cbn [gen_bind].
    apply gen_for_nil_bodies. intros P HP.
    unfold variations_of_path. now rewrite (Hnone P HP).
  - intros found sv Hscan Hsv. unfold scan_software in Hscan.
    destruct (negb _); [injection Hscan as <-; destruct Hsv|].
    apply collect_if_filter in Hscan as [_ ->].
    apply filter_In in Hsv as [Hsv _].
    unfold _find_software_variations in Hsv.
    destruct (EXECUTABLE_MATCH_TEMPLATES _ _) as [ts|e] eqn:Hts;
      [|destruct Hsv].
    cbn [gen_bind] in Hsv.
    destruct (find_in_dict_order self ts) as [order [_ [Hmem Hfind]]].
    rewrite Hfind in Hsv.
    apply gen_for_yielded_in in Hsv as [T [HT Hsv]].
    apply Hmem in HT as [HT Hm].
    unfold group_of in Hsv.
    destruct (matches_of self T) as [|p ps] eqn:Ematches; [contradiction|].
    unfold variations_of_template in Hsv.
    fold (regex_of (host self) T) in Hsv.
    destruct (re_compile_ignorecase (host self) (regex_of (host self) T))
      as [f|e] eqn:Hf; [|destruct Hsv].
    cbn [gen_bind] in Hsv.
    apply gen_for_yielded_in in Hsv as [P [HP Hsv]].
    unfold variations_of_path in Hsv.
    destruct (f P) as [d|] eqn:HfP; [|destruct Hsv].
    exists ts, T, P, f, d.
    split; [reflexivity|]. split; [exact HT|].
    split; [now rewrite Ematches|].
    split; [exact Hf|]. split; [exact HfP|]. split; [exact Hsv|].
    exact (extract_path _ _ _ _ Hsv).
  - intros T before P after f Hf HP. unfold variations_of_template.
    unfold regex_of in Hf. rewrite Hf. cbn [gen_bind].
    apply gen_for_skip. unfold variations_of_path. now rewrite HP.
  - intros T paths f Hf. unfold variations_of_template.
    unfold regex_of in Hf. rewrite Hf. cbn [gen_bind]. split.
    + apply gen_for_filter. intros P _ HP. unfold variations_of_path.
      now destruct (f P).
    + intros Hclean. rewrite gen_for_clean.
      * f_equal. apply flat_map_ext. intros P.
        unfold variations_of_path. now destruct (f P).
      * intros P HP. unfold variations_of_path.
        destruct (f P) as [d|] eqn:E; [now apply (Hclean P d)|reflexivity].
  - intros found ts T P f d sv Hscan Hts HT HP Hf HfP Hsv Hsup.
    unfold scan_software in Hscan.
    rewrite (templates_supported _ _ _ Hts) in Hscan. cbn [negb] in Hscan.
    apply collect_if_filter in Hscan as [Hnone ->].
    apply filter_In. split; [|now rewrite Hsup].
    unfold _find_software_variations in Hnone |- *.
    rewrite Hts in Hnone |- *. cbn [gen_bind] in Hnone |- *.
    destruct (find_in_dict_order self ts) as [order [_ [Hmem Hfind]]].
    rewrite Hfind in Hnone |- *.
    assert (HTo : In T order).
    { apply Hmem. split; [exact HT|]. intros E. now rewrite E in HP. }
    apply (gen_for_yields_all _ _ T sv Hnone HTo).
    pose proof (gen_for_raised_none _ _ Hnone T HTo) as HnT.
    unfold group_of in HnT |- *.
    destruct (matches_of self T) as [|p ps] eqn:Ematches; [destruct HP|].
    unfold variations_of_template in HnT |- *.
    unfold regex_of in Hf. rewrite Hf in HnT |- *.
    cbn [gen_bind] in HnT |- *.
    apply (gen_for_yields_all _ _ P sv HnT HP).
    unfold variations_of_path. now rewrite HfP.
Qed.

(** ** The scenarios of test_startup.py, on the reference host *)

(** [test_nuke10] over the mocked macOS hierarchy: eight variations,
    HieroPlayer left out. *)
Example test_nuke10_darwin :
  let self :=
    reference_launcher "darwin" "/Users/artist"
      [ "/Applications/Nuke10.0v5/Hiero10.0v5.app";
        "/Applications/Nuke10.0v5/HieroPlayer10.0v5.app";
        "/Applications/Nuke10.0v5/Nuke10.0v5 Non-commercial.app";
        "/Applications/Nuke10.0v5/Nuke10.0v5.app";
        "/Applications/Nuke10.0v5/NukeAssist10.0v5.app";
        "/Applications/Nuke10.0v5/NukeStudio10.0v5 Non-commercial.app";
        "/Applications/Nuke10.0v5/NukeStudio10.0v5.app";
        "/Applications/Nuke10.0v5/NukeX10.0v5 Non-commercial.app";
        "/Applications/Nuke10.0v5/NukeX10.0v5.app" ]
      (Some ["10.0v5"]) in
  exists found,
    scan_software self = Ok found /\
    map sv_display_name found =
      [ "Hiero 10.0v5";
        "Nuke 10.0v5 Non-commercial";
        "Nuke 10.0v5";
        "NukeAssist 10.0v5";
        "NukeStudio 10.0v5 Non-commercial";
        "NukeStudio 10.0v5";
        "NukeX 10.0v5 Non-commercial";
        "NukeX 10.0v5" ] /\
    map sv_icon found =
      [ "/tk-nuke/icon_hiero_256.png";
        "/tk-nuke/icon_256.png";
        "/tk-nuke/icon_256.png";
        "/tk-nuke/icon_256.png";
        "/tk-nuke/icon_studio_256.png";
        "/tk-nuke/icon_studio_256.png";
        "/tk-nuke/icon_x_256.png";
        "/tk-nuke/icon_x_256.png" ].
Proof.
  cbv zeta. eexists. split; [vm_compute; reflexivity|].
  split; vm_compute; reflexivity.
Qed.

(** [test_nuke10] over the mocked Windows hierarchy: the eight
    variations of the one launcher. *)
Example test_nuke10_win32 :
  let self :=
    reference_launcher "win32" "/home/artist"
      ["C:/Program Files/Nuke10.0v5/Nuke10.0.exe"] (Some ["10.0v5"]) in
  exists found,
    scan_software self = Ok found /\
    map sv_display_name found =
      [ "Nuke 10.0v5";
        "Nuke 10.0v5 Non-commercial";
        "NukeAssist 10.0v5";
        "NukeStudio 10.0v5";
        "NukeStudio 10.0v5 Non-commercial";
        "NukeX 10.0v5";
        "NukeX 10.0v5 Non-commercial";
        "Hiero 10.0v5" ] /\
    map sv_args found =
      [ Some [];
        Some ["--nc"];
        Some ["--nukeassist"];
        Some ["--studio"];
        Some ["--studio"; "--nc"];
        Some ["--nukex"];
        Some ["--nukex"; "--nc"];
        Some ["--hiero"] ].
Proof.
  cbv zeta. eexists. split; [vm_compute; reflexivity|].
  split; vm_compute; reflexivity.
Qed.

(** With the acceptable versions ["10.0v5"], an installation of 9.0v1
    next to one of 10.0v5 is left out. *)
Example unsupported_version_filtered :
  let self :=
    reference_launcher "linux2" "/home/artist"
      [ "/usr/local/Nuke9.0v1/Nuke9.0";
        "/usr/local/Nuke10.0v5/Nuke10.0" ] (Some ["10.0v5"]) in
  exists found,
    scan_software self = Ok found /\
    map sv_version found = repeat (PyStr "10.0v5") 8.
Proof.
  cbv zeta. eexists. split; [vm_compute; reflexivity|].
  vm_compute; reflexivity.
Qed.

(** The hash of CPython 2.7 on two strings whose hashes are widely
    quoted (840651671246116861 and 1453079729188098211 as signed
    numbers). *)
Example string_hash_known_values :
  CPython27.string_hash "hello" = 840651671246116861%N /\
  CPython27.string_hash "abc" = 1453079729188098211%N.
Proof. split; vm_compute; reflexivity. Qed.

(** A bundle that is no product, found between two products: the scan
    passes over it and returns the products before it and after it. *)
Example rejected_path_among_accepted :
  let self :=
    reference_launcher "darwin" "/Users/artist"
      [ "/Applications/Nuke10.0v5/NukeX10.0v5.app";
        "/Applications/Nuke10.0v5/Documentation.app";
        "/Applications/Nuke10.0v5/Hiero10.0v5.app" ]
      None in
  matches_of self
    "/Applications/Nuke{version}/{variant}{same_version}{suffix}.app" =
    [ "/Applications/Nuke10.0v5/NukeX10.0v5.app";
      "/Applications/Nuke10.0v5/Documentation.app";
      "/Applications/Nuke10.0v5/Hiero10.0v5.app" ] /\
  exists found,
    scan_software self = Ok found /\
    map sv_display_name found = ["NukeX 10.0v5"; "Hiero 10.0v5"] /\
    map sv_path found =
      [ "/Applications/Nuke10.0v5/NukeX10.0v5.app";
        "/Applications/Nuke10.0v5/Hiero10.0v5.app" ].
Proof.
  cbv zeta. split; [vm_compute; reflexivity|].
  eexists. split; [vm_compute; reflexivity|].
  split; vm_compute; reflexivity.
Qed.

(** ** Inputs on which the stronger statements fail *)

(** C2, as stated, fails: the plain "Nuke %s" template, first of both
    lists, contains none of the five keywords, and its variation is
    yielded with an empty argument list. *)
Lemma base_variation_has_no_switch :
  let self :=
    reference_launcher "win32" "/home/artist"
      ["C:/Program Files/Nuke10.0v5/Nuke10.0.exe"] None in
  let groupdict :=
    [("version", PyStr "10.0v5"); ("major_minor_version", PyStr "10.0")] in
  nth_error
    (yielded (_extract_variations_from_path self
                "C:/Program Files/Nuke10.0v5/Nuke10.0.exe" groupdict)) 0 =
  Some {| sv_version := PyStr "10.0v5";
          sv_product := PyStr "Nuke";
          sv_display_name := "Nuke 10.0v5";
          sv_path := "C:/Program Files/Nuke10.0v5/Nuke10.0.exe";
          sv_icon := "/tk-nuke/icon_256.png";
          sv_args := Some [] |} /\
  In "Nuke %s" NUKE_9_OR_HIGHER_VARIATION_DISPLAY_NAME_TEMPLATES /\
  In "Nuke %s" NUKE_7_8_VARIATION_DISPLAY_NAME_TEMPLATES /\
  variation_arguments "Nuke %s" = [] /\
  product_switches (variation_arguments "Nuke %s") <> 1 /\
  product_switches (variation_arguments "Nuke %s Non-commercial") <> 1.
Proof.
  cbv zeta. repeat split; try reflexivity; try (simpl; tauto);
    vm_compute; discriminate.
Qed.

(** C5, as stated, fails: an application bundle next to the products
    matches the glob form of the darwin template and not its regex. *)
Lemma glob_wider_than_regex :
  let h := reference_host "darwin" "/Users/artist" [] in
  let T := "/Applications/Nuke{version}/{variant}{same_version}{suffix}.app" in
  let P := "/Applications/Nuke10.0v5/Documentation.app" in
  EXECUTABLE_MATCH_TEMPLATES h "darwin" = Ok [T] /\
  _format T (COMPONENT_GLOB_LOOKUP h) = "/Applications/Nuke*/***.app" /\
  PyGlob.matches (_format T (COMPONENT_GLOB_LOOKUP h)) P = true /\
  regex_of h T =
    "^/Applications/Nuke(?P<version>[\d.v]+)/(?P<variant>[\w\s]+)(?P=version)(?P<suffix> Non-commercial| PLE){0,1}.app$" /\
  regex_accepts h T P = Ok false /\
  regex_accepts h T "/Applications/Nuke10.0v5/NukeX10.0v5.app" = Ok true /\
  glob_glob (reference_host "darwin" "/Users/artist" [P])
            (_format T (COMPONENT_GLOB_LOOKUP h)) = [P] /\
  scan_software (reference_launcher "darwin" "/Users/artist" [P] None) =
    Ok [].
Proof.
  cbv zeta.
  split; [vm_compute; reflexivity|]. split; [vm_compute; reflexivity|].
  split; [vm_compute; reflexivity|]. split; [vm_compute; reflexivity|].
  split; [vm_compute; reflexivity|]. split; [vm_compute; reflexivity|].
  split; vm_compute; reflexivity.
Qed.



(** ** The theorems at concrete inputs *)

Lemma variation_templates_by_major_witness :
  before_first_dot "8.1v2" = before_first_dot "8.0v4" /\
  _get_variation_templates_from_version (PyStr "8.1v2") =
  _get_variation_templates_from_version (PyStr "8.0v4").
Proof.
  split; [reflexivity|].
  apply (proj1 (proj2 (variation_templates_by_major "8.0v4"))).
  reflexivity.
Defined.

Lemma shared_launcher_arguments_witness :
  let path := "C:/Program Files/Nuke10.0v5/Nuke10.0.exe" in
  let self := reference_launcher "win32" "/home/artist" [path] None in
  let groupdict :=
    [("version", PyStr "10.0v5"); ("major_minor_version", PyStr "10.0")] in
  sys_platform (host self) <> "darwin" /\
  match_get groupdict "version" = PyStr "10.0v5" /\
  exists ts,
    _get_variation_templates_from_version (PyStr "10.0v5") = Ok ts /\
    map sv_args
        (yielded (_extract_variations_from_path self path groupdict)) =
    map (fun t => Some (first_match ARGUMENT_KEYWORDS t ++
                        non_commercial_switch t)) ts.
Proof.
  cbv zeta.
  assert (Hp : sys_platform
                 (host (reference_launcher "win32" "/home/artist"
                          ["C:/Program Files/Nuke10.0v5/Nuke10.0.exe"] None))
               <> "darwin") by (simpl; discriminate).
  split; [exact Hp|]. split; [reflexivity|].
  destruct (shared_launcher_arguments _
              "C:/Program Files/Nuke10.0v5/Nuke10.0.exe"
              [("version", PyStr "10.0v5");
               ("major_minor_version", PyStr "10.0")]
              "10.0v5" Hp eq_refl)
    as [ts [H1 [_ [H2 _]]]].
  exists ts. split; assumption.
Defined.

Lemma darwin_single_variation_witness :
  let path := "/Applications/Nuke10.0v5/NukeX10.0v5.app" in
  let self := reference_launcher "darwin" "/Users/artist" [path] None in
  let groupdict :=
    [("version", PyStr "10.0v5"); ("variant", PyStr "NukeX");
     ("suffix", PyNone)] in
  sys_platform (host self) = "darwin" /\
  match_get groupdict "variant" = PyStr "NukeX" /\
  match_get groupdict "version" = PyStr "10.0v5" /\
  match_get groupdict "suffix" = PyNone /\
  _extract_variations_from_path self path groupdict =
  Gen [ {| sv_version := PyStr "10.0v5";
           sv_product := PyStr "NukeX";
           sv_display_name := "NukeX 10.0v5";
           sv_path := path;
           sv_icon := "/tk-nuke/icon_x_256.png";
           sv_args := None |} ] None.
Proof.
  cbv zeta. repeat (split; [reflexivity|]).
  exact (darwin_single_variation
           (reference_launcher "darwin" "/Users/artist"
              ["/Applications/Nuke10.0v5/NukeX10.0v5.app"] None)
           "/Applications/Nuke10.0v5/NukeX10.0v5.app"
           [("version", PyStr "10.0v5"); ("variant", PyStr "NukeX");
            ("suffix", PyNone)]
           "NukeX" "10.0v5" PyNone eq_refl eq_refl eq_refl eq_refl).
Defined.

Lemma icon_first_match_wins_witness :
  let self := reference_launcher "win32" "/home/artist" [] None in
  occurs_ignoring_case "studio" "NukeStudio %s Non-commercial" /\
  _get_icon_from_variant self (PyStr "NukeStudio %s Non-commercial") =
  Ok "/tk-nuke/icon_studio_256.png".
Proof.
  cbv zeta.
  assert (H : occurs_ignoring_case "studio" "NukeStudio %s Non-commercial").
  { exists "Nuke", "Studio", " %s Non-commercial". split; reflexivity. }
  split; [exact H|].
  exact (proj1 (icon_first_match_wins
                  (reference_launcher "win32" "/home/artist" [] None)
                  "NukeStudio %s Non-commercial") H).
Defined.

Lemma unmatched_paths_are_skipped_witness :
  let P := "/Applications/Nuke10.0v5/Documentation.app" in
  let X := "/Applications/Nuke10.0v5/NukeX10.0v5.app" in
  let T := "/Applications/Nuke{version}/{variant}{same_version}{suffix}.app" in
  let self := reference_launcher "darwin" "/Users/artist" [P; X] None in
  regex_accepts (host self) T P = Ok false /\
  regex_accepts (host self) T X = Ok true /\
  matches_of self T = [P; X] /\
  variations_of_template self (T, [P]) = Gen [] None /\
  variations_of_template self (T, [P; X]) =
    variations_of_template self (T, [X]) /\
  map sv_display_name (yielded (variations_of_template self (T, [P; X]))) =
    ["NukeX 10.0v5"] /\
  raised (variations_of_template self (T, [P; X])) = None.
Proof.
  cbv zeta. split; [vm_compute; reflexivity|].
  split; [vm_compute; reflexivity|].
  split; [vm_compute; reflexivity|].
  set (self := reference_launcher "darwin" "/Users/artist"
                 ["/Applications/Nuke10.0v5/Documentation.app";
                  "/Applications/Nuke10.0v5/NukeX10.0v5.app"] None).
  set (T := "/Applications/Nuke{version}/{variant}{same_version}{suffix}.app").
  destruct (PyRe.parse (regex_of (host self) T)) as [r|] eqn:Hparse;
    [|vm_compute in Hparse; discriminate].
  assert (Hf : re_compile_ignorecase (host self) (regex_of (host self) T) =
               Ok (PyRe.match_ r)).
  { change (PyRe.compile_ignorecase (regex_of (host self) T) =
            Ok (PyRe.match_ r)).
    unfold PyRe.compile_ignorecase. now rewrite Hparse. }
  assert (Hrej : PyRe.match_ r "/Applications/Nuke10.0v5/Documentation.app" =
                 None).
  { vm_compute in Hparse. injection Hparse as <-. vm_compute. reflexivity. }
  destruct (unmatched_paths_are_skipped self) as [Hnone [_ [Hskip _]]].
  split.
  { apply (Hnone T ["/Applications/Nuke10.0v5/Documentation.app"]
                 (PyRe.match_ r) Hf).
    intros P [<-|[]]. exact Hrej. }
  assert (Heq : variations_of_template self
                  (T, ["/Applications/Nuke10.0v5/Documentation.app";
                       "/Applications/Nuke10.0v5/NukeX10.0v5.app"]) =
                variations_of_template self
                  (T, ["/Applications/Nuke10.0v5/NukeX10.0v5.app"])).
  { exact (Hskip T [] "/Applications/Nuke10.0v5/Documentation.app"
                 ["/Applications/Nuke10.0v5/NukeX10.0v5.app"]
                 (PyRe.match_ r) Hf Hrej). }
  split; [exact Heq|].
  rewrite Heq. subst self T. split; vm_compute; reflexivity.
Defined.


Lemma scan_software_empty_witness :
  let elsewhere := reference_launcher "freebsd9" "/home/artist"
                     ["/usr/local/Nuke10.0v5/Nuke10.0"] None in
  let bare := reference_launcher "linux2" "/home/artist" [] None in
  (sys_platform (host elsewhere) <> "darwin" /\
   sys_platform (host elsewhere) <> "win32" /\
   sys_platform (host elsewhere) <> "linux2" /\
   scan_software elsewhere = Ok []) /\
  scan_software bare = Ok [].
Proof.
  cbv zeta.
  assert (H1 : "freebsd9" <> "darwin") by discriminate.
  assert (H2 : "freebsd9" <> "win32") by discriminate.
  assert (H3 : "freebsd9" <> "linux2") by discriminate.
  split.
  - repeat (split; [assumption|]).
    exact (proj1 (scan_software_empty
                    (reference_launcher "freebsd9" "/home/artist"
                       ["/usr/local/Nuke10.0v5/Nuke10.0"] None)) H1 H2 H3).
  - apply (proj2 (scan_software_empty
                    (reference_launcher "linux2" "/home/artist" [] None))).
    intros match_templates T _ _. reflexivity.
Defined.


Lemma formatting_is_idempotent_witness :
  let h := reference_host "linux2" "/home/artist" [] in
  let T := "/home/artist/Nuke{version}/Nuke{major_minor_version}" in
  EXECUTABLE_MATCH_TEMPLATES h "linux2" =
    Ok ["/usr/local/Nuke{version}/Nuke{major_minor_version}"; T] /\
  In T ["/usr/local/Nuke{version}/Nuke{major_minor_version}"; T] /\
  _format (_format T (COMPONENT_REGEX_LOOKUP h)) (COMPONENT_REGEX_LOOKUP h) =
  _format T (COMPONENT_REGEX_LOOKUP h).
Proof.
  cbv zeta. split; [reflexivity|].
  assert (Hin : In "/home/artist/Nuke{version}/Nuke{major_minor_version}"
                   ["/usr/local/Nuke{version}/Nuke{major_minor_version}";
                    "/home/artist/Nuke{version}/Nuke{major_minor_version}"])
    by (simpl; auto).
  split; [exact Hin|].
  exact (proj1 (formatting_is_idempotent
                  (reference_host "linux2" "/home/artist" []) "linux2"
                  ["/usr/local/Nuke{version}/Nuke{major_minor_version}";
                   "/home/artist/Nuke{version}/Nuke{major_minor_version}"]
                  "/home/artist/Nuke{version}/Nuke{major_minor_version}"
                  (COMPONENT_REGEX_LOOKUP
                     (reference_host "linux2" "/home/artist" []))
                  eq_refl Hin (or_intror eq_refl))).
Defined.

Lemma shared_launcher_products_supported_witness :
  let path := "C:/Program Files/Nuke10.0v5/Nuke10.0.exe" in
  let self :=
    reference_launcher "win32" "/home/artist" [path] (Some ["10.0v5"]) in
  let groupdict :=
    [("version", PyStr "10.0v5"); ("major_minor_version", PyStr "10.0")] in
  let sv := shared_launcher_variation self path "10.0v5" "Nuke %s" in
  sys_platform (host self) <> "darwin" /\
  In sv (yielded (_extract_variations_from_path self path groupdict)) /\
  is_version_supported self sv = Ok true.
Proof.
  cbv zeta.
  set (path := "C:/Program Files/Nuke10.0v5/Nuke10.0.exe").
  set (self := reference_launcher "win32" "/home/artist" [path]
                 (Some ["10.0v5"])).
  set (groupdict := [("version", PyStr "10.0v5");
                     ("major_minor_version", PyStr "10.0")]).
  set (sv := shared_launcher_variation self path "10.0v5" "Nuke %s").
  assert (Hp : sys_platform (host self) <> "darwin") by (simpl; discriminate).
  assert (Hin : In sv (yielded (_extract_variations_from_path self path
                                  groupdict))) by (left; reflexivity).
  split; [exact Hp|]. split; [exact Hin|].
  destruct (proj1 (shared_launcher_products_supported self path groupdict sv)
              Hp Hin) as [names [_ [_ H]]].
  exact H.
Defined.

(* ================================================================= *)
(** * Further properties of the module *)

(** ** The formatter does not depend on the order of the lookup *)










(** ** What the finder records *)

(** Replacing a character by another leaves no occurrence of it. *)
Lemma replace_char_gone (c d : ascii) (s : string) :
  Ascii.eqb c d = false ->
  PyStr.contains (PyStr.replace s (String c "") (String d "")) (String c "")
  = false.
Proof.
  intros Hcd. unfold PyStr.replace.
  induction s as [|x s IH]; [reflexivity|].
  cbn [PyStr.replace_from PyStr.startswith String.length Nat.sub].
  rewrite andb_true_r. destruct (Ascii.eqb c x) eqn:E.
  - cbn [String.append PyStr.contains PyStr.startswith].
    now rewrite Hcd, IH.
  - cbn [PyStr.contains PyStr.startswith]. now rewrite E, IH.
Qed.

Lemma get_keyed {V} (value_of : string -> V) (order : list string)
    (k : string) :
  (In k order ->
   PyDict.get (map (keyed value_of) order) k = Some (value_of k)) /\
  (~ In k order -> PyDict.get (map (keyed value_of) order) k = None).
Proof.
  induction order as [|k' order [IH1 IH2]]; [split; [intros []|reflexivity]|].
  cbn [map PyDict.get]. unfold keyed at 1 3.
  destruct (String.eqb k k') eqn:E.
  - apply String.eqb_eq in E. subst k'. split; [reflexivity|].
    intros H. exfalso. apply H. now left.
  - apply String.eqb_neq in E. split.
    + intros [->|H]; [contradiction|now apply IH1].
    + intros H. apply IH2. intros Hin. apply H. now right.
Qed.

(** X2. The dict [_find_executables] returns holds one key for each
    template of its argument that has matches, even when the template is
    listed twice, and none for a template without matches; under a
    template it holds that template's matches, in the order [glob]
    returned them, and no recorded path holds a backslash.  Looking a
    template up gives its matches back. *)
Theorem find_executables_records (self : Launcher)
    (match_templates : list string) :
  let executable_matches := _find_executables self match_templates in
  NoDup (PyDict.keys executable_matches) /\
  (forall T paths,
     In (T, paths) executable_matches <->
     In T match_templates /\ paths = matches_of self T /\ paths <> []) /\
  (forall T,
     In T match_templates -> matches_of self T <> [] ->
     PyDict.get executable_matches T = Some (matches_of self T)) /\
  (forall T,
     ~ (In T match_templates /\ matches_of self T <> []) ->
     PyDict.get executable_matches T = None) /\
  (forall T paths P,
     In (T, paths) executable_matches -> In P paths ->
     PyStr.contains P "\" = false).
Proof.
  cbv zeta.
  destruct (find_executables_spec self match_templates)
    as [order [-> [Hnd Hmem]]].
  assert (Hitems : forall T paths,
            In (T, paths) (map (keyed (matches_of self)) order) <->
            In T match_templates /\ paths = matches_of self T /\ paths <> []).
  { intros T paths. rewrite in_map_iff. split.
    - intros [T' [Heq HT']]. unfold keyed in Heq. injection Heq as -> <-.
      apply Hmem in HT' as [H1 H2]. auto.
    - intros [H1 [-> H2]]. exists T. split; [reflexivity|].
      apply Hmem. auto. }
  split; [|split; [exact Hitems|split; [|split]]].
  - unfold PyDict.keys. rewrite map_map. cbn [keyed fst].
    now rewrite map_id.
  - intros T HT Hm. apply get_keyed. apply Hmem. auto.
  - intros T HT. apply get_keyed. intros Hin. apply HT. now apply Hmem.
  - intros T paths P Hin HP. apply Hitems in Hin as [_ [-> _]].
    unfold matches_of in HP. apply in_map_iff in HP as [x [<- _]].
    now apply replace_char_gone.
Qed.

Lemma find_executables_records_witness :
  let usr := "/usr/local/Nuke10.0v5/Nuke10.0" in
  let T := "/usr/local/Nuke{version}/Nuke{major_minor_version}" in
  let self := reference_launcher "linux2" "/usr/local" [usr] None in
  In T [T; T] /\
  matches_of self T <> [] /\
  PyDict.get (_find_executables self [T; T]) T = Some [usr] /\
  PyDict.keys (_find_executables self [T; T]) = [T].
Proof.
  cbv zeta.
  set (T := "/usr/local/Nuke{version}/Nuke{major_minor_version}").
  set (self := reference_launcher "linux2" "/usr/local"
                 ["/usr/local/Nuke10.0v5/Nuke10.0"] None).
  assert (Hin : In T [T; T]) by (left; reflexivity).
  assert (Hm : matches_of self T <> []) by (vm_compute; discriminate).
  split; [exact Hin|]. split; [exact Hm|]. split.
  - exact (proj1 (proj2 (proj2 (find_executables_records self [T; T])))
             T Hin Hm).
  - vm_compute. reflexivity.
Defined.

(** ** Missing keys and missing groups *)

(** X3. Called on a platform that has no entry in
    [EXECUTABLE_MATCH_TEMPLATES], [_find_software_variations] yields
    nothing and ends in a KeyError for the platform name: the guard at the
    top of [scan_software] is what makes a scan there return an empty
    list. *)
Theorem find_variations_unknown_platform (self : Launcher) :
  sys_platform (host self) <> "darwin" ->
  sys_platform (host self) <> "win32" ->
  sys_platform (host self) <> "linux2" ->
  _find_software_variations self =
    Gen [] (Some (KeyError (sys_platform (host self)))) /\
  scan_software self = Ok [].
Proof.
  intros H1 H2 H3. apply String.eqb_neq in H1, H2, H3.
  unfold _find_software_variations, scan_software,
    EXECUTABLE_MATCH_TEMPLATES, str_in.
  cbn [existsb]. now rewrite H1, H2, H3.
Qed.

Lemma find_variations_unknown_platform_witness :
  let self := reference_launcher "freebsd9" "/home/artist"
                ["/usr/local/Nuke10.0v5/Nuke10.0"] None in
  sys_platform (host self) <> "darwin" /\
  sys_platform (host self) <> "win32" /\
  sys_platform (host self) <> "linux2" /\
  _find_software_variations self = Gen [] (Some (KeyError "freebsd9")).
Proof.
  cbv zeta.
  assert (H1 : "freebsd9" <> "darwin") by discriminate.
  assert (H2 : "freebsd9" <> "win32") by discriminate.
  assert (H3 : "freebsd9" <> "linux2") by discriminate.
  repeat (split; [assumption|]).
  exact (proj1 (find_variations_unknown_platform
                  (reference_launcher "freebsd9" "/home/artist"
                     ["/usr/local/Nuke10.0v5/Nuke10.0"] None) H1 H2 H3)).
Defined.

(** X4. A match that lacks a group the expansion reads.  On darwin a
    match without a variant yields nothing and ends in an AttributeError
    (the icon is looked up on None); away from darwin so does a match
    without a version (the major version is split off None).  On darwin
    a match with a variant and no version raises nothing: it yields one
    variation whose version is None and whose display name spells
    "None", and [is_version_supported] raises on that variation unless
    the toolkit's own check has already rejected it. *)
Theorem extract_missing_groups (self : Launcher) (path : string)
    (m : PyDict.t pyval) :
  (sys_platform (host self) = "darwin" ->
   match_get m "variant" = PyNone ->
   _extract_variations_from_path self path m = Gen [] (Some AttributeError)) /\
  (sys_platform (host self) <> "darwin" ->
   match_get m "version" = PyNone ->
   _extract_variations_from_path self path m = Gen [] (Some AttributeError)) /\
  (forall variant,
     sys_platform (host self) = "darwin" ->
     match_get m "variant" = PyStr variant ->
     match_get m "version" = PyNone ->
     let odd :=
       {| sv_version := PyNone;
          sv_product := PyStr variant;
          sv_display_name :=
            variant +++ " None" +++ or_empty (match_get m "suffix");
          sv_path := path;
          sv_icon := icon_of self variant;
          sv_args := None |} in
     _extract_variations_from_path self path m = Gen [odd] None /\
     is_version_supported self odd =
       if super_is_version_supported self odd
       then Raise AttributeError else Ok false).
Proof.
  unfold _extract_variations_from_path. split; [|split].
  - intros Hp Hv. rewrite Hp, Hv. cbn.
    destruct (match_get m "version"); reflexivity.
  - intros Hp Hv. apply String.eqb_neq in Hp. now rewrite Hp, Hv.
  - intros variant Hp Hvariant Hversion. cbv zeta.
    rewrite Hp, Hvariant, Hversion, icon_total. cbn.
    rewrite append_nil_r. split; [reflexivity|].
    unfold is_version_supported. cbn [sv_version].
    destruct (super_is_version_supported self _); reflexivity.
Qed.

Lemma extract_missing_groups_witness :
  let self := reference_launcher "win32" "/home/artist" [] None in
  let m := [("major_minor_version", PyStr "10.0")] in
  sys_platform (host self) <> "darwin" /\
  match_get m "version" = PyNone /\
  _extract_variations_from_path self "C:/x" m = Gen [] (Some AttributeError).
Proof.
  cbv zeta.
  assert (Hp : sys_platform
                 (host (reference_launcher "win32" "/home/artist" [] None))
               <> "darwin") by (simpl; discriminate).
  split; [exact Hp|]. split; [reflexivity|].
  exact (proj1 (proj2 (extract_missing_groups
                         (reference_launcher "win32" "/home/artist" [] None)
                         "C:/x" [("major_minor_version", PyStr "10.0")]))
               Hp eq_refl).
Defined.

(** ** Product names *)

(** X5. [_get_variations_from_version] returns, for a version whose
    text before the first "." is "7" or "8", the four names Nuke, NukeX,
    Nuke PLE and NukeAssist, and for any other string the eight names
    listed here; the names are those of the display-name templates chosen
    for the same version, item by item, and pairwise distinct.  On None
    it raises an AttributeError.  "NukeX %s Non-commercial" becomes
    "NukeX Non-commercial". *)
Theorem variation_names_by_major (v : string) :
  _get_variations_from_version (PyStr v) =
    Ok (if String.eqb (before_first_dot v) "7"
           || String.eqb (before_first_dot v) "8"
        then ["Nuke"; "NukeX"; "Nuke PLE"; "NukeAssist"]
        else ["Nuke"; "Nuke Non-commercial"; "NukeAssist"; "NukeStudio";
              "NukeStudio Non-commercial"; "NukeX"; "NukeX Non-commercial";
              "Hiero"]) /\
  (exists templates names,
     _get_variation_templates_from_version (PyStr v) = Ok templates /\
     _get_variations_from_version (PyStr v) = Ok names /\
     names = map _template_to_variation_name templates /\
     NoDup names) /\
  _get_variations_from_version PyNone = Raise AttributeError /\
  _template_to_variation_name "NukeX %s Non-commercial" =
    "NukeX Non-commercial".
Proof.
  split; [|split; [|split; reflexivity]].
  - unfold _get_variations_from_version, str_in.
    rewrite split1_head. cbn [existsb]. rewrite orb_false_r.
    now destruct (_ || _).
  - destruct (templates_total v) as [ts Hts].
    exists ts, (map _template_to_variation_name ts).
    split; [exact Hts|]. split; [now apply variations_of_templates|].
    split; [reflexivity|].
    unfold _get_variation_templates_from_version in Hts.
    destruct (str_in _ _); injection Hts as <-; vm_compute;
      repeat (constructor; [simpl; intuition discriminate|]); constructor.
Qed.

(** ** The variations of one shared launcher *)

Lemma append_cancel_l (a b c : string) : a +++ b = a +++ c -> b = c.
Proof.
  induction a as [|x a IH]; [auto|]. cbn [String.append].
  intros H. injection H as H. auto.
Qed.

Lemma template_slot (t v : string) :
  In t known_templates ->
  exists pre post,
    t = pre +++ "%s" +++ post /\
    PyStr.replace t "%s" v = pre +++ v +++ post.
Proof.
  intros H. each_template H;
    match goal with
    | |- exists pre post, ?t = _ /\ _ =>
      match eval vm_compute in (PyStr.cut t "%s") with
      | Some (?a, ?b) => exists a, b; split; reflexivity
      end
    end.
Qed.

Ltac distinct_names :=
  repeat (constructor;
          [cbn [In]; intros Hin;
           repeat (destruct Hin as [Hin|Hin];
                   [first [ discriminate Hin
                          | repeat (injection Hin as Hin);
                            first [ discriminate Hin
                                  | apply append_cancel_l in Hin;
                                    discriminate Hin ] ]|]);
           exact Hin|]);
  constructor.

(** A template of the two lists has one version slot: it is some [pre],
    then "%s", then some [post], neither holding a "%", and filling the
    slot with [v] gives [pre], [v], [post]. *)
Lemma template_single_slot (t v : string) :
  In t known_templates ->
  exists pre post,
    t = pre +++ "%s" +++ post /\
    PyStr.contains pre "%" = false /\
    PyStr.contains post "%" = false /\
    PyStr.replace t "%s" v = pre +++ v +++ post.
Proof.
  intros H. each_template H;
    match goal with
    | |- exists pre post, ?t = _ /\ _ =>
      match eval vm_compute in (PyStr.cut t "%s") with
      | Some (?a, ?b) => exists a, b; repeat split; reflexivity
      end
    end.
Qed.

Lemma Forall2_map_r {A B} (R : A -> B -> Prop) (f : A -> B) (l : list A) :
  (forall x, In x l -> R x (f x)) -> Forall2 R l (map f l).
Proof.
  induction l as [|x l IH]; intros H; cbn [map]; constructor.
  - apply H. now left.
  - apply IH. intros y Hy. apply H. now right.
Qed.

(** X6. Away from darwin a matched path with a version string [v]
    yields, without raising, four variations when the text of [v] before
    its first "." is "7" or "8" and eight otherwise.  All of them carry
    the matched path and the version [v]; display names are pairwise
    distinct, and so are product names.  The variations are those of the
    templates chosen for [v], one per template and in the list's order:
    the display name of each is its own template with [v] written in the
    place of the template's one "%s" (what stands before the slot stays
    before [v], what stands after it stays after), and its product is the
    variation name of that same template.  Spelled out, the display names
    are "Nuke v", "NukeX v", "Nuke v PLE", "NukeAssist v" for the majors 7
    and 8, and "Nuke v", "Nuke v Non-commercial", "NukeAssist v",
    "NukeStudio v", "NukeStudio v Non-commercial", "NukeX v",
    "NukeX v Non-commercial", "Hiero v" otherwise. *)
Theorem shared_launcher_variation_set (self : Launcher) (path : string)
    (m : PyDict.t pyval) (v : string) :
  sys_platform (host self) <> "darwin" ->
  match_get m "version" = PyStr v ->
  let found := _extract_variations_from_path self path m in
  raised found = None /\
  length (yielded found) =
    (if String.eqb (before_first_dot v) "7"
        || String.eqb (before_first_dot v) "8" then 4 else 8) /\
  (forall sv, In sv (yielded found) ->
     sv_path sv = path /\
     sv_version sv = PyStr v /\
     exists pre post,
       sv_display_name sv = pre +++ v +++ post /\
       sv_product sv =
         PyStr (_template_to_variation_name (pre +++ "%s" +++ post))) /\
  NoDup (map sv_display_name (yielded found)) /\
  NoDup (map sv_product (yielded found)) /\
  (exists ts,
     _get_variation_templates_from_version (PyStr v) = Ok ts /\
     Forall2
       (fun t sv =>
          sv_product sv = PyStr (_template_to_variation_name t) /\
          exists pre post,
            t = pre +++ "%s" +++ post /\
            PyStr.contains pre "%" = false /\
            PyStr.contains post "%" = false /\
            sv_display_name sv = pre +++ v +++ post)
       ts (yielded found)) /\
  map sv_display_name (yielded found) =
    (if String.eqb (before_first_dot v) "7"
        || String.eqb (before_first_dot v) "8"
     then ["Nuke " +++ v; "NukeX " +++ v; "Nuke " +++ v +++ " PLE";
           "NukeAssist " +++ v]
     else ["Nuke " +++ v; "Nuke " +++ v +++ " Non-commercial";
           "NukeAssist " +++ v; "NukeStudio " +++ v;
           "NukeStudio " +++ v +++ " Non-commercial"; "NukeX " +++ v;
           "NukeX " +++ v +++ " Non-commercial"; "Hiero " +++ v]) /\
  map sv_product (yielded found) =
    map PyStr
      (if String.eqb (before_first_dot v) "7"
          || String.eqb (before_first_dot v) "8"
       then ["Nuke"; "NukeX"; "Nuke PLE"; "NukeAssist"]
       else ["Nuke"; "Nuke Non-commercial"; "NukeAssist"; "NukeStudio";
             "NukeStudio Non-commercial"; "NukeX"; "NukeX Non-commercial";
             "Hiero"]).
Proof.
  intros Hp Hv. cbv zeta.
  destruct (templates_total v) as [ts Hts].
  rewrite (extract_shared_launcher self path m v ts Hp Hv Hts).
  cbn [raised yielded]. split; [reflexivity|].
  split; [|split; [|split; [|split; [|split; [|split]]]]].
  - rewrite length_map.
    unfold _get_variation_templates_from_version, str_in in Hts.
    rewrite split1_head in Hts. cbn [existsb] in Hts.
    rewrite orb_false_r in Hts.
    destruct (_ || _); injection Hts as <-; reflexivity.
  - intros sv Hsv. apply in_map_iff in Hsv as [t [<- Ht]].
    cbn [shared_launcher_variation sv_path sv_version sv_display_name
         sv_product].
    split; [reflexivity|]. split; [reflexivity|].
    destruct (template_slot t v (templates_known _ _ Hts _ Ht))
      as [pre [post [Et Er]]].
    exists pre, post. split; [exact Er|]. now rewrite <- Et.
  - rewrite map_map. cbn [shared_launcher_variation sv_display_name].
    unfold _get_variation_templates_from_version in Hts.
    destruct (str_in _ _); injection Hts as <-; cbn; distinct_names.
  - rewrite map_map. cbn [shared_launcher_variation sv_product].
    unfold _get_variation_templates_from_version in Hts.
    destruct (str_in _ _); injection Hts as <-; vm_compute;
      repeat (constructor; [simpl; intuition discriminate|]); constructor.
  - exists ts. split; [exact Hts|].
    apply Forall2_map_r. intros t Ht.
    cbn [shared_launcher_variation sv_display_name sv_product].
    split; [reflexivity|].
    destruct (template_single_slot t v (templates_known _ _ Hts _ Ht))
      as [pre [post [Et [Hpre [Hpost Er]]]]].
    now exists pre, post.
  - rewrite map_map. cbn [shared_launcher_variation sv_display_name].
    unfold _get_variation_templates_from_version, str_in in Hts.
    rewrite split1_head in Hts. cbn [existsb] in Hts.
    rewrite orb_false_r in Hts.
    destruct (_ || _); injection Hts as <-; cbn;
      rewrite ?append_nil_r; reflexivity.
  - rewrite map_map. cbn [shared_launcher_variation sv_product].
    unfold _get_variation_templates_from_version, str_in in Hts.
    rewrite split1_head in Hts. cbn [existsb] in Hts.
    rewrite orb_false_r in Hts.
    destruct (_ || _); injection Hts as <-; reflexivity.
Qed.

Lemma shared_launcher_variation_set_witness :
  let path := "/usr/local/Nuke8.0v4/Nuke8.0" in
  let self := reference_launcher "linux2" "/home/artist" [path] None in
  let m := [("version", PyStr "8.0v4"); ("major_minor_version", PyStr "8.0")] in
  sys_platform (host self) <> "darwin" /\
  match_get m "version" = PyStr "8.0v4" /\
  length (yielded (_extract_variations_from_path self path m)) = 4 /\
  NoDup (map sv_display_name
             (yielded (_extract_variations_from_path self path m))) /\
  map sv_display_name (yielded (_extract_variations_from_path self path m)) =
    ["Nuke 8.0v4"; "NukeX 8.0v4"; "Nuke 8.0v4 PLE"; "NukeAssist 8.0v4"].
Proof.
  cbv zeta.
  set (path := "/usr/local/Nuke8.0v4/Nuke8.0").
  set (self := reference_launcher "linux2" "/home/artist" [path] None).
  set (m := [("version", PyStr "8.0v4");
             ("major_minor_version", PyStr "8.0")]).
  assert (Hp : sys_platform (host self) <> "darwin") by (simpl; discriminate).
  split; [exact Hp|]. split; [reflexivity|].
  destruct (shared_launcher_variation_set self path m "8.0v4" Hp eq_refl)
    as [_ [Hlen [_ [Hnd [_ [_ [Hnames _]]]]]]].
  split; [exact Hlen|]. split; [exact Hnd|exact Hnames].
Defined.

(** ** What a scan returns and when it raises *)

Lemma collect_if_ok {A} (p : A -> result bool) (xs : list A)
    (stop : option exn) (l : list A) :
  collect_if p xs stop = Ok l ->
  stop = None /\
  (forall x, In x xs -> exists b, p x = Ok b) /\
  l = filter (fun x => match p x with Ok b => b | Raise _ => false end) xs.
Proof.
  revert l; induction xs as [|x xs IH]; intros l; cbn [collect_if filter].
  - destruct stop; [discriminate|]. intros H; injection H as <-.
    repeat split. intros x [].
  - destruct (p x) as [b|e] eqn:Ex; [|discriminate]. cbn [bind].
    destruct (collect_if p xs stop) as [ys|e]; [|discriminate]. cbn [bind].
    intros H; injection H as <-.
    destruct (IH ys eq_refl) as [Hs [Hall Hys]].
    split; [exact Hs|]. split.
    + intros y [<-|Hy]; [now exists b|now apply Hall].
    + now destruct b; rewrite Hys.
Qed.

Lemma find_yields_from_match (self : Launcher) (sv : SoftwareVersion) :
  In sv (yielded (_find_software_variations self)) ->
  exists P groupdict,
    In sv (yielded (_extract_variations_from_path self P groupdict)).
Proof.
  unfold _find_software_variations. intros Hsv.
  destruct (EXECUTABLE_MATCH_TEMPLATES _ _) as [ts|e]; [|destruct Hsv].
  cbn [gen_bind] in Hsv.
  apply gen_for_yielded_in in Hsv as [[T paths] [_ Hsv]].
  unfold variations_of_template in Hsv.
  destruct (re_compile_ignorecase _ _) as [f|e]; [|destruct Hsv].
  cbn [gen_bind] in Hsv.
  apply gen_for_yielded_in in Hsv as [P [_ Hsv]].
  unfold variations_of_path in Hsv.
  destruct (f P) as [d|]; [|destruct Hsv]. now exists P, d.
Qed.

Lemma pyval_eqb_eq (a b : pyval) : pyval_eqb a b = true -> a = b.
Proof.
  destruct a, b; simpl; try discriminate; [reflexivity|].
  intros H. apply String.eqb_eq in H. now subst.
Qed.

Lemma unsupported_platform_finds_nothing (self : Launcher) :
  negb (str_in (sys_platform (host self)) ["darwin"; "win32"; "linux2"])
  = true ->
  yielded (_find_software_variations self) = [].
Proof.
  unfold _find_software_variations, EXECUTABLE_MATCH_TEMPLATES, str_in.
  cbn [existsb].
  destruct (String.eqb _ "darwin"); [discriminate|].
  destruct (String.eqb _ "win32"); [discriminate|].
  destruct (String.eqb _ "linux2"); [discriminate|reflexivity].
Qed.

(** X7. When a scan returns a list, the list holds exactly the
    variations found that [is_version_supported] accepts, each as often
    and in the order found; the check returned, without raising, for
    every variation found; and every variation returned passed the
    toolkit's own check and has a product that belongs to the variation
    names of its version. *)
Theorem scan_returns_the_supported (self : Launcher)
    (found : list SoftwareVersion) :
  scan_software self = Ok found ->
  found =
    filter (fun sv => match is_version_supported self sv with
                      | Ok b => b
                      | Raise _ => false
                      end)
           (yielded (_find_software_variations self)) /\
  (forall sv,
     In sv found <->
     In sv (yielded (_find_software_variations self)) /\
     is_version_supported self sv = Ok true) /\
  (forall sv,
     In sv (yielded (_find_software_variations self)) ->
     exists b, is_version_supported self sv = Ok b) /\
  (forall sv,
     In sv found ->
     super_is_version_supported self sv = true /\
     exists names,
       _get_variations_from_version (sv_version sv) = Ok names /\
       In (sv_product sv) (map PyStr names)).
Proof.
  intros Hscan.
  assert (Hfilter :
    found =
      filter (fun sv => match is_version_supported self sv with
                        | Ok b => b
                        | Raise _ => false
                        end)
             (yielded (_find_software_variations self)) /\
    forall sv, In sv (yielded (_find_software_variations self)) ->
               exists b, is_version_supported self sv = Ok b).
  { unfold scan_software in Hscan. destruct (negb _) eqn:Hp.
    - injection Hscan as <-.
      rewrite (unsupported_platform_finds_nothing self Hp).
      split; [reflexivity|intros sv []].
    - apply collect_if_ok in Hscan as [_ [Hall Hl]]. auto. }
  destruct Hfilter as [Hfound Hall].
  assert (Hiff : forall sv,
            In sv found <->
            In sv (yielded (_find_software_variations self)) /\
            is_version_supported self sv = Ok true).
  { intros sv. rewrite Hfound at 1. rewrite filter_In. split.
    - intros [Hin Hb]. split; [exact Hin|].
      destruct (is_version_supported self sv) as [[]|]; congruence.
    - intros [Hin Hb]. now rewrite Hb. }
  split; [exact Hfound|]. split; [exact Hiff|]. split; [exact Hall|].
  intros sv Hsv. apply Hiff in Hsv as [_ Hb].
  unfold is_version_supported in Hb.
  destruct (super_is_version_supported self sv); [|discriminate].
  split; [reflexivity|].
  destruct (_get_variations_from_version (sv_version sv)) as [names|e];
    [|discriminate].
  exists names. split; [reflexivity|].
  cbn [bind] in Hb. injection Hb as Hb.
  apply existsb_exists in Hb as [x [Hx Heq]].
  apply pyval_eqb_eq in Heq. now subst x.
Qed.

Lemma scan_returns_the_supported_witness :
  let player := "/Applications/Nuke10.0v5/HieroPlayer10.0v5.app" in
  let nukex := "/Applications/Nuke10.0v5/NukeX10.0v5.app" in
  let self :=
    reference_launcher "darwin" "/Users/artist" [player; nukex] None in
  let found :=
    [ {| sv_version := PyStr "10.0v5";
         sv_product := PyStr "NukeX";
         sv_display_name := "NukeX 10.0v5";
         sv_path := nukex;
         sv_icon := "/tk-nuke/icon_x_256.png";
         sv_args := None |} ] in
  scan_software self = Ok found /\
  length (yielded (_find_software_variations self)) = 2 /\
  forall sv, In sv found -> super_is_version_supported self sv = true.
Proof.
  cbv zeta.
  set (self := reference_launcher "darwin" "/Users/artist"
                 ["/Applications/Nuke10.0v5/HieroPlayer10.0v5.app";
                  "/Applications/Nuke10.0v5/NukeX10.0v5.app"] None).
  assert (Hscan : scan_software self =
    Ok [ {| sv_version := PyStr "10.0v5";
            sv_product := PyStr "NukeX";
            sv_display_name := "NukeX 10.0v5";
            sv_path := "/Applications/Nuke10.0v5/NukeX10.0v5.app";
            sv_icon := "/tk-nuke/icon_x_256.png";
            sv_args := None |} ]) by (vm_compute; reflexivity).
  split; [exact Hscan|]. split; [vm_compute; reflexivity|].
  intros sv Hsv.
  exact (proj1 (proj2 (proj2 (proj2
           (scan_returns_the_supported self _ Hscan))) sv Hsv)).
Defined.

Lemma extract_needs_groups (self : Launcher) (P : string)
    (groupdict : PyDict.t pyval) :
  raised (_extract_variations_from_path self P groupdict) = None ->
  (sys_platform (host self) <> "darwin" ->
   exists v, match_get groupdict "version" = PyStr v) /\
  (sys_platform (host self) = "darwin" ->
   exists variant, match_get groupdict "variant" = PyStr variant).
Proof.
  unfold _extract_variations_from_path. intros H. split; intros Hp.
  - apply String.eqb_neq in Hp. rewrite Hp in H.
    destruct (match_get groupdict "version") as [|v]; [discriminate|].
    now exists v.
  - rewrite Hp in H. cbn [String.eqb Ascii.eqb Bool.eqb] in H.
    destruct (match_get groupdict "variant") as [|variant];
      [|now exists variant].
    destruct (PyStr.percent _ _); discriminate.
Qed.

Lemma collect_if_generator_raised {A} (p : A -> result bool) (xs : list A)
    (e : exn) :
  exists e', collect_if p xs (Some e) = Raise e'.
Proof.
  induction xs as [|x xs [e' IH]]; [now exists e|].
  cbn [collect_if]. destruct (p x) as [b|e1]; [|now exists e1].
  cbn [bind]. rewrite IH. now exists e'.
Qed.

(** X8. A scan does not swallow exceptions.  When it returns a list,
    the regex of every template of the platform that has matches was
    compiled, and the expansion of every path that the regex matched
    ended normally: away from darwin the match gave a version string, on
    darwin a variant string.  When the regex of a template with matches
    does not compile, the scan raises. *)
Theorem scan_does_not_swallow (self : Launcher)
    (match_templates : list string) (T : string) :
  EXECUTABLE_MATCH_TEMPLATES (host self) (sys_platform (host self)) =
    Ok match_templates ->
  In T match_templates ->
  matches_of self T <> [] ->
  (forall found,
     scan_software self = Ok found ->
     exists executable_regex,
       re_compile_ignorecase (host self) (regex_of (host self) T) =
         Ok executable_regex /\
       forall P groupdict,
         In P (matches_of self T) ->
         executable_regex P = Some groupdict ->
         raised (_extract_variations_from_path self P groupdict) = None /\
         (sys_platform (host self) <> "darwin" ->
          exists v, match_get groupdict "version" = PyStr v) /\
         (sys_platform (host self) = "darwin" ->
          exists variant, match_get groupdict "variant" = PyStr variant)) /\
  (forall e,
     re_compile_ignorecase (host self) (regex_of (host self) T) = Raise e ->
     exists e', scan_software self = Raise e').
Proof.
  intros Hts HT Hm.
  assert (Hgroup : raised (_find_software_variations self) = None ->
                   raised (group_of self T) = None).
  { unfold _find_software_variations. rewrite Hts. cbn [gen_bind].
    destruct (find_in_dict_order self match_templates)
      as [order [_ [Hmem ->]]].
    intros H. apply (gen_for_raised_none _ _ H). apply Hmem. auto. }
  assert (Hscan : scan_software self =
                  collect_if (is_version_supported self)
                    (yielded (_find_software_variations self))
                    (raised (_find_software_variations self))).
  { unfold scan_software.
    now rewrite (templates_supported _ _ _ Hts). }
  split.
  - intros found Hfound. rewrite Hscan in Hfound.
    apply collect_if_ok in Hfound as [Hraised _].
    apply Hgroup in Hraised. unfold group_of in Hraised.
    destruct (matches_of self T) as [|p ps] eqn:Ematches; [contradiction|].
    unfold variations_of_template in Hraised.
    fold (regex_of (host self) T) in Hraised.
    destruct (re_compile_ignorecase (host self) (regex_of (host self) T))
      as [f|e]; [|discriminate].
    exists f. split; [reflexivity|]. intros P d HP Hd.
    cbn [gen_bind] in Hraised.
    pose proof (gen_for_raised_none _ _ Hraised P HP) as HPd.
    unfold variations_of_path in HPd. rewrite Hd in HPd.
    split; [exact HPd|]. exact (extract_needs_groups self P d HPd).
  - intros e He. rewrite Hscan.
    destruct (raised (_find_software_variations self)) as [e0|] eqn:Er.
    + apply collect_if_generator_raised.
    + exfalso. clear Er. pose proof (Hgroup eq_refl) as Er.
      unfold group_of in Er.
      destruct (matches_of self T) as [|p ps]; [contradiction|].
      unfold variations_of_template in Er.
      fold (regex_of (host self) T) in Er. rewrite He in Er. discriminate.
Qed.

(** A home directory that holds a parenthesis goes into the regex as it
    is: the glob finds the installation and the scan raises. *)
Lemma scan_does_not_swallow_witness :
  let installed := "/home/a(b/Nuke10.0v5/Nuke10.0" in
  let T := "/home/a(b/Nuke{version}/Nuke{major_minor_version}" in
  let self := reference_launcher "linux2" "/home/a(b" [installed] None in
  EXECUTABLE_MATCH_TEMPLATES (host self) (sys_platform (host self)) =
    Ok ["/usr/local/Nuke{version}/Nuke{major_minor_version}"; T] /\
  matches_of self T = [installed] /\
  re_compile_ignorecase (host self) (regex_of (host self) T) =
    Raise ReError /\
  exists e, scan_software self = Raise e.
Proof.
  cbv zeta.
  set (T := "/home/a(b/Nuke{version}/Nuke{major_minor_version}").
  set (self := reference_launcher "linux2" "/home/a(b"
                 ["/home/a(b/Nuke10.0v5/Nuke10.0"] None).
  assert (Hts : EXECUTABLE_MATCH_TEMPLATES (host self)
                  (sys_platform (host self)) =
                Ok ["/usr/local/Nuke{version}/Nuke{major_minor_version}"; T])
    by reflexivity.
  assert (HT : In T ["/usr/local/Nuke{version}/Nuke{major_minor_version}"; T])
    by (right; left; reflexivity).
  assert (Hm : matches_of self T <> []) by (vm_compute; discriminate).
  assert (He : re_compile_ignorecase (host self) (regex_of (host self) T) =
               Raise ReError) by (vm_compute; reflexivity).
  split; [exact Hts|]. split; [vm_compute; reflexivity|].
  split; [exact He|].
  exact (proj2 (scan_does_not_swallow self _ T Hts HT Hm) ReError He).
Defined.

Lemma shared_variation_supported (self : Launcher) (P : string)
    (groupdict : PyDict.t pyval) (sv : SoftwareVersion) :
  sys_platform (host self) <> "darwin" ->
  In sv (yielded (_extract_variations_from_path self P groupdict)) ->
  is_version_supported self sv = Ok (super_is_version_supported self sv).
Proof.
  intros Hp Hin.
  destruct (match_get groupdict "version") as [|v] eqn:Hv.
  - unfold _extract_variations_from_path in Hin.
    apply String.eqb_neq in Hp. rewrite Hp, Hv in Hin. destruct Hin.
  - destruct (templates_total v) as [ts Hts].
    rewrite (extract_shared_launcher self P groupdict v ts Hp Hv Hts) in Hin.
    cbn [yielded] in Hin. apply in_map_iff in Hin as [t [<- Ht]].
    unfold is_version_supported.
    cbn [shared_launcher_variation sv_version sv_product].
    rewrite (variations_of_templates _ _ Hts). cbn [bind].
    replace (existsb _ _) with true.
    + now destruct (super_is_version_supported self _).
    + symmetry. apply existsb_exists.
      exists (PyStr (_template_to_variation_name t)).
      split; [|apply pyval_eqb_refl]. apply in_map, in_map, Ht.
Qed.

Lemma filter_all {A} (p : A -> bool) (l : list A) :
  (forall x, p x = true) -> filter p l = l.
Proof.
  intros H. induction l as [|x l IH]; [reflexivity|].
  cbn [filter]. now rewrite H, IH.
Qed.

(** X9. On win32 and linux2, and on any platform but darwin, the list a
    scan returns is the list of the variations found, filtered by the
    toolkit's own check alone; when that check accepts everything, the
    scan returns all the variations found. *)
Theorem shared_launcher_scan_filter (self : Launcher)
    (found : list SoftwareVersion) :
  sys_platform (host self) <> "darwin" ->
  scan_software self = Ok found ->
  found = filter (super_is_version_supported self)
                 (yielded (_find_software_variations self)) /\
  ((forall sv, super_is_version_supported self sv = true) ->
   found = yielded (_find_software_variations self)).
Proof.
  intros Hp Hscan.
  assert (Hfound : found =
            filter (super_is_version_supported self)
                   (yielded (_find_software_variations self))).
  { unfold scan_software in Hscan. destruct (negb _) eqn:Hplat.
    - injection Hscan as <-.
      now rewrite (unsupported_platform_finds_nothing self Hplat).
    - apply collect_if_ok in Hscan as [_ [_ ->]].
      apply filter_ext_in. intros sv Hsv.
      destruct (find_yields_from_match self sv Hsv) as [P [d Hd]].
      now rewrite (shared_variation_supported self P d sv Hp Hd). }
  split; [exact Hfound|]. intros Hall. rewrite Hfound.
  now apply filter_all.
Qed.

Lemma shared_launcher_scan_filter_witness :
  let path := "C:/Program Files/Nuke10.0v5/Nuke10.0.exe" in
  let self := reference_launcher "win32" "/home/artist" [path] None in
  sys_platform (host self) <> "darwin" /\
  (exists found, scan_software self = Ok found /\ length found = 8) /\
  forall found,
    scan_software self = Ok found ->
    found = yielded (_find_software_variations self).
Proof.
  cbv zeta.
  assert (Hp : sys_platform
                 (host (reference_launcher "win32" "/home/artist"
                          ["C:/Program Files/Nuke10.0v5/Nuke10.0.exe"] None))
               <> "darwin") by (simpl; discriminate).
  split; [exact Hp|]. split.
  - eexists. split; [vm_compute; reflexivity|reflexivity].
  - intros found Hscan.
    apply (proj2 (shared_launcher_scan_filter _ found Hp Hscan)).
    intros sv. reflexivity.
Defined.

(** ** The icon and the display name *)

Lemma startswith_separator (kw x y : string) (c : ascii) :
  PyStr.contains kw (String c "") = false ->
  PyStr.startswith (x +++ String c y) kw = PyStr.startswith x kw.
Proof.
  revert x; induction kw as [|q kw IH]; intros x Hc; [reflexivity|].
  apply not_in_cons in Hc as [Hq Hc].
  destruct x as [|a x]; cbn [String.append PyStr.startswith].
  - now rewrite Ascii.eqb_sym, Hq.
  - now rewrite IH.
Qed.

(** A character foreign to a keyword cuts the search for the keyword in
    two. *)
Lemma contains_separator (q : ascii) (kw x y : string) (c : ascii) :
  PyStr.contains (String q kw) (String c "") = false ->
  PyStr.contains (x +++ String c y) (String q kw) =
  PyStr.contains x (String q kw) || PyStr.contains y (String q kw).
Proof.
  intros Hc. induction x as [|a x IH].
  - destruct (not_in_cons _ _ _ Hc) as [Hq _].
    cbn [String.append PyStr.contains PyStr.startswith].
    now rewrite Ascii.eqb_sym, Hq.
  - cbn [String.append PyStr.contains].
    change (String a (x +++ String c y)) with (String a x +++ String c y).
    rewrite (startswith_separator _ (String a x) y c Hc), IH.
    now rewrite orb_assoc.
Qed.

Lemma contains_foreign_prefix (q : ascii) (kw u y : string) :
  all_chars (fun c => negb (PyStr.contains (String q kw) (String c ""))) u
  = true ->
  PyStr.contains (u +++ y) (String q kw) = PyStr.contains y (String q kw).
Proof.
  induction u as [|c u IH]; intros H; [reflexivity|].
  cbn [all_chars] in H. apply andb_true_iff in H as [Hc Hu].
  apply negb_true_iff in Hc.
  change (String c u +++ y) with ("" +++ String c (u +++ y)).
  rewrite (contains_separator q kw "" (u +++ y) c Hc).
  cbn [PyStr.contains PyStr.startswith orb]. now apply IH.
Qed.

Lemma contains_foreign_between (q : ascii) (kw x u y : string) :
  u <> "" ->
  all_chars (fun c => negb (PyStr.contains (String q kw) (String c ""))) u
  = true ->
  PyStr.contains (x +++ u +++ y) (String q kw) =
  PyStr.contains x (String q kw) || PyStr.contains y (String q kw).
Proof.
  intros Hu H. destruct u as [|c u]; [contradiction|].
  cbn [all_chars] in H. apply andb_true_iff in H as [Hc Hrest].
  apply negb_true_iff in Hc.
  change (x +++ String c u +++ y) with (x +++ String c (u +++ y)).
  rewrite (contains_separator q kw x (u +++ y) c Hc).
  now rewrite contains_foreign_prefix.
Qed.

Lemma all_chars_lower (p p' : ascii -> bool) (s : string) :
  (forall c, p c = true -> p' (PyStr.lower_ascii c) = true) ->
  all_chars p s = true -> all_chars p' (PyStr.lower s) = true.
Proof.
  intros Hp. induction s as [|c s IH]; [reflexivity|].
  cbn [all_chars PyStr.lower]. intros H.
  apply andb_true_iff in H as [Hc Hs]. now rewrite (Hp c Hc), IH.
Qed.

Lemma version_char_foreign (kw : string) (c : ascii) :
  In kw ["studio"; "hiero"; "nukex"] ->
  version_char c = true ->
  negb (PyStr.contains kw (String (PyStr.lower_ascii c) "")) = true.
Proof.
  intros Hkw Hc.
  destruct c as [[] [] [] [] [] [] [] []]; try discriminate Hc;
    repeat (destruct Hkw as [<-|Hkw]; [reflexivity|]); destruct Hkw.
Qed.

Lemma lower_empty (s : string) : PyStr.lower s = "" -> s = "".
Proof. destruct s; [reflexivity|discriminate]. Qed.

(** The three tests of the icon give the same answers on the display
    name of a shared launcher's variation as on its template. *)
Lemma icon_tests_shared (t v kw : string) :
  In t known_templates ->
  In kw ["studio"; "hiero"; "nukex"] ->
  v <> "" ->
  all_chars version_char v = true ->
  PyStr.contains (PyStr.lower (PyStr.replace t "%s" v)) kw =
  PyStr.contains (PyStr.lower t) kw.
Proof.
  intros Ht Hkw Hv Hchars.
  assert (Hlv : PyStr.lower v <> "")
    by (intros H; apply Hv; now apply lower_empty).
  assert (Hfor : forall q kw',
            kw = String q kw' ->
            all_chars
              (fun c => negb (PyStr.contains (String q kw') (String c "")))
              (PyStr.lower v) = true).
  { intros q kw' E. apply (all_chars_lower version_char); [|exact Hchars].
    intros c Hc. rewrite <- E. now apply version_char_foreign. }
  each_template Ht;
    match goal with
    | |- context [PyStr.replace ?t "%s" v] =>
      match eval vm_compute in (PyStr.cut t "%s") with
      | Some (?a, ?b) =>
        change (PyStr.replace t "%s" v) with (a +++ v +++ b)
      end
    end;
    rewrite !lower_append;
    repeat (destruct Hkw as [<-|Hkw];
            [rewrite (contains_foreign_between _ _ _ _ _ Hlv
                        (Hfor _ _ eq_refl)); reflexivity|]);
    destruct Hkw.
Qed.

(** The same for a bundle: the tests on the display name answer as on
    the variant. *)
Lemma icon_tests_bundle (variant v suffix kw : string) :
  In kw ["studio"; "hiero"; "nukex"] ->
  all_chars version_char v = true ->
  str_in (PyStr.lower suffix) [""; " non-commercial"; " ple"] = true ->
  PyStr.contains (PyStr.lower (variant +++ " " +++ v +++ suffix)) kw =
  PyStr.contains (PyStr.lower variant) kw.
Proof.
  intros Hkw Hchars Hsuffix.
  rewrite !lower_append.
  change (PyStr.lower " ") with (String " " "").
  change (String " " "" +++ PyStr.lower v +++ PyStr.lower suffix)
    with (String " " (PyStr.lower v +++ PyStr.lower suffix)).
  assert (Htail : forall q kw',
            kw = String q kw' ->
            PyStr.contains (PyStr.lower v +++ PyStr.lower suffix)
                           (String q kw') = false).
  { intros q kw' E. rewrite contains_foreign_prefix.
    - unfold str_in in Hsuffix. cbn [existsb] in Hsuffix.
      rewrite orb_false_r in Hsuffix.
      apply orb_true_iff in Hsuffix as [H|H];
        [|apply orb_true_iff in H as [H|H]];
        apply String.eqb_eq in H; rewrite H, <- E;
        repeat (destruct Hkw as [<-|Hkw]; [reflexivity|]); destruct Hkw.
    - apply (all_chars_lower version_char); [|exact Hchars].
      intros c Hc. rewrite <- E. now apply version_char_foreign. }
  repeat (destruct Hkw as [<-|Hkw];
          [rewrite contains_separator by reflexivity;
           rewrite (Htail _ _ eq_refl); apply orb_false_r|]);
  destruct Hkw.
Qed.

Lemma basename_no_slash (name : string) :
  PyStr.contains name "/" = false -> Posix.basename name = name.
Proof.
  destruct name as [|c name]; [reflexivity|]. intros H.
  apply contains_cons_false in H as [Hc Hname].
  cbn [Posix.basename]. rewrite Hname.
  cbn [PyStr.startswith] in Hc. rewrite andb_true_r, Ascii.eqb_sym in Hc.
  now rewrite Hc.
Qed.

Lemma basename_after_slash (d name : string) :
  PyStr.contains name "/" = false ->
  Posix.basename (d +++ "/" +++ name) = name.
Proof.
  intros Hname. change ("/" +++ name) with (String "/" name).
  induction d as [|c d IH].
  - cbn [String.append Posix.basename]. rewrite Hname.
    now rewrite Ascii.eqb_refl.
  - cbn [String.append Posix.basename]. rewrite IH.
    replace (PyStr.contains (d +++ String "/" name) "/") with true;
      [reflexivity|].
    symmetry. apply contains_iff. now exists d, name.
Qed.

Lemma ends_with_slash (a : string) :
  PyStr.drop (String.length a - 1) a = "/" -> exists a', a = a' +++ "/".
Proof.
  induction a as [|c a IH]; [discriminate|].
  cbn [String.length]. rewrite Nat.sub_succ, Nat.sub_0_r.
  destruct a as [|c' a].
  - cbn. intros H. injection H as ->. now exists "".
  - cbn [String.length PyStr.drop] in *.
    rewrite Nat.sub_succ, Nat.sub_0_r in IH. intros H.
    destruct (IH H) as [a' Ha']. exists (String c a').
    cbn [String.append]. now rewrite <- Ha'.
Qed.

Lemma basename_join (d name : string) :
  name <> "" ->
  PyStr.contains name "/" = false ->
  Posix.basename (Posix.join d name) = name.
Proof.
  intros Hne Hname. unfold Posix.join.
  destruct name as [|c name]; [contradiction|].
  pose proof (contains_cons_false _ _ _ Hname) as [Hc _].
  rewrite Hc.
  destruct (String.eqb d "") eqn:Ed.
  - apply String.eqb_eq in Ed. subst d. cbn [orb String.append].
    now apply basename_no_slash.
  - cbn [orb]. destruct (String.eqb _ "/") eqn:Es.
    + apply String.eqb_eq, ends_with_slash in Es as [d' ->].
      rewrite append_assoc. now apply basename_after_slash.
    + now apply basename_after_slash.
Qed.

Lemma icon_of_expected (self : Launcher) (s : string) :
  icon_of self s =
  os_path_join (host self) (disk_location self) (expected_icon_file s).
Proof.
  unfold icon_of, _get_icon_from_variant, expected_icon_file.
  destruct (PyStr.contains (PyStr.lower s) "studio");
    destruct (PyStr.contains (PyStr.lower s) "hiero");
    destruct (PyStr.contains (PyStr.lower s) "nukex"); reflexivity.
Qed.

Lemma expected_icon_file_ext (a b : string) :
  (forall kw, In kw ["studio"; "hiero"; "nukex"] ->
     PyStr.contains (PyStr.lower a) kw = PyStr.contains (PyStr.lower b) kw) ->
  expected_icon_file a = expected_icon_file b.
Proof.
  intros H. unfold expected_icon_file.
  rewrite (H "studio"), (H "hiero"), (H "nukex"); simpl; auto.
Qed.

Lemma expected_icon_file_plain (s : string) :
  expected_icon_file s <> "" /\
  PyStr.contains (expected_icon_file s) "/" = false.
Proof.
  unfold expected_icon_file.
  destruct (PyStr.contains (PyStr.lower s) "studio");
    [split; [discriminate|reflexivity]|].
  destruct (PyStr.contains (PyStr.lower s) "hiero");
    [split; [discriminate|reflexivity]|].
  destruct (PyStr.contains (PyStr.lower s) "nukex");
    split; try discriminate; reflexivity.
Qed.

(** X10. The icon of a variation is the one the test suite expects from
    its display name.  For a match whose version is a non-empty text of
    digits, dots and the letter v, and, on darwin, whose suffix is absent
    or one of the two suffixes of the regex, every variation yielded has
    as icon the join of [disk_location] with the file name that
    [_test_nuke] computes from the display name (the same three
    case-insensitive tests in the same order); with [posixpath.join] the
    base name of the icon is that file name. *)
Theorem icon_follows_display_name (self : Launcher) (path : string)
    (m : PyDict.t pyval) (v : string) (sv : SoftwareVersion) :
  match_get m "version" = PyStr v ->
  v <> "" ->
  all_chars version_char v = true ->
  (sys_platform (host self) = "darwin" ->
   suffix_value (match_get m "suffix") = true) ->
  In sv (yielded (_extract_variations_from_path self path m)) ->
  sv_icon sv =
    os_path_join (host self) (disk_location self)
                 (expected_icon_file (sv_display_name sv)) /\
  (os_path_join (host self) = Posix.join ->
   Posix.basename (sv_icon sv) = expected_icon_file (sv_display_name sv)).
Proof.
  intros Hv Hne Hchars Hsuffix Hsv.
  assert (Hicon : sv_icon sv =
            os_path_join (host self) (disk_location self)
                         (expected_icon_file (sv_display_name sv))).
  { destruct (String.eqb (sys_platform (host self)) "darwin") eqn:Hp.
    - apply String.eqb_eq in Hp.
      destruct (match_get m "variant") as [|variant] eqn:Hvariant.
      + unfold _extract_variations_from_path in Hsv.
        rewrite Hp, Hvariant in Hsv. cbn in Hsv.
        destruct (match_get m "version"); destruct Hsv.
      + rewrite (extract_single_bundle self path m variant v Hp Hvariant Hv)
          in Hsv.
        destruct Hsv as [<-|[]]. cbn [sv_icon sv_display_name].
        rewrite icon_of_expected. f_equal.
        apply expected_icon_file_ext. intros kw Hkw. symmetry.
        apply icon_tests_bundle; auto.
    - apply String.eqb_neq in Hp.
      destruct (templates_total v) as [ts Hts].
      rewrite (extract_shared_launcher self path m v ts Hp Hv Hts) in Hsv.
      cbn [yielded] in Hsv. apply in_map_iff in Hsv as [t [<- Ht]].
      cbn [shared_launcher_variation sv_icon sv_display_name].
      rewrite icon_of_expected. f_equal.
      apply expected_icon_file_ext. intros kw Hkw. symmetry.
      apply icon_tests_shared; auto. eapply templates_known; eauto. }
  split; [exact Hicon|]. intros Hjoin. rewrite Hicon, Hjoin.
  destruct (expected_icon_file_plain (sv_display_name sv)) as [H1 H2].
  now apply basename_join.
Qed.

Lemma icon_follows_display_name_witness :
  let path := "/Applications/Nuke10.0v5/NukeStudio10.0v5 Non-commercial.app" in
  let self := reference_launcher "darwin" "/Users/artist" [path] None in
  let m := [("version", PyStr "10.0v5"); ("variant", PyStr "NukeStudio");
            ("suffix", PyStr " Non-commercial")] in
  let sv := {| sv_version := PyStr "10.0v5";
               sv_product := PyStr "NukeStudio";
               sv_display_name := "NukeStudio 10.0v5 Non-commercial";
               sv_path := path;
               sv_icon := "/tk-nuke/icon_studio_256.png";
               sv_args := None |} in
  match_get m "version" = PyStr "10.0v5" /\
  "10.0v5" <> "" /\
  all_chars version_char "10.0v5" = true /\
  suffix_value (match_get m "suffix") = true /\
  In sv (yielded (_extract_variations_from_path self path m)) /\
  Posix.basename (sv_icon sv) = expected_icon_file (sv_display_name sv).
Proof.
  cbv zeta.
  assert (Hne : "10.0v5" <> "") by discriminate.
  split; [reflexivity|]. split; [exact Hne|]. split; [reflexivity|].
  split; [reflexivity|]. split; [left; reflexivity|].
  apply (proj2 (icon_follows_display_name
                  (reference_launcher "darwin" "/Users/artist"
                     ["/Applications/Nuke10.0v5/NukeStudio10.0v5 Non-commercial.app"]
                     None)
                  "/Applications/Nuke10.0v5/NukeStudio10.0v5 Non-commercial.app"
                  [("version", PyStr "10.0v5"); ("variant", PyStr "NukeStudio");
                   ("suffix", PyStr " Non-commercial")]
                  "10.0v5" _ eq_refl Hne eq_refl (fun _ => eq_refl)
                  (or_introl eq_refl))).
  reflexivity.
Defined.

(** ** Support of a bundle *)

Lemma product_in_names (variant : string) (names : list string) :
  existsb (pyval_eqb (PyStr variant)) (map PyStr names) =
  str_in variant names.
Proof.
  unfold str_in. induction names as [|n names IH]; [reflexivity|].
  cbn [map existsb pyval_eqb]. now rewrite IH.
Qed.

(** X11. On darwin the product of a variation is the variant read from
    the path, whatever the suffix, which only shows in the display name;
    the variation is built without launch arguments.  It is supported
    exactly when the toolkit's own check accepts it and the variant is,
    letter for letter, one of the variation names of its version. *)
Theorem bundle_support_by_variant (self : Launcher) (path : string)
    (m : PyDict.t pyval) (variant v : string) :
  sys_platform (host self) = "darwin" ->
  match_get m "variant" = PyStr variant ->
  match_get m "version" = PyStr v ->
  exists sv names,
    _extract_variations_from_path self path m = Gen [sv] None /\
    sv_product sv = PyStr variant /\
    sv_display_name sv =
      variant +++ " " +++ v +++ or_empty (match_get m "suffix") /\
    sv_args sv = None /\
    _get_variations_from_version (PyStr v) = Ok names /\
    is_version_supported self sv =
      Ok (super_is_version_supported self sv && str_in variant names).
Proof.
  intros Hp Hvariant Hv.
  rewrite (extract_single_bundle self path m variant v Hp Hvariant Hv).
  destruct (templates_total v) as [ts Hts].
  eexists. exists (map _template_to_variation_name ts).
  split; [reflexivity|]. cbn [sv_product sv_display_name sv_args].
  repeat (split; [reflexivity|]).
  split; [now apply variations_of_templates|].
  unfold is_version_supported. cbn [sv_version sv_product].
  rewrite (variations_of_templates _ _ Hts). cbn [bind].
  rewrite product_in_names.
  now destruct (super_is_version_supported self _).
Qed.

Lemma bundle_support_by_variant_witness :
  let path := "/Applications/Nuke10.0v5/nukex10.0v5 Non-commercial.app" in
  let self := reference_launcher "darwin" "/Users/artist" [path] None in
  let m := [("version", PyStr "10.0v5"); ("variant", PyStr "nukex");
            ("suffix", PyStr " Non-commercial")] in
  sys_platform (host self) = "darwin" /\
  match_get m "variant" = PyStr "nukex" /\
  match_get m "version" = PyStr "10.0v5" /\
  exists sv,
    _extract_variations_from_path self path m = Gen [sv] None /\
    sv_icon sv = "/tk-nuke/icon_x_256.png" /\
    is_version_supported self sv = Ok false.
Proof.
  cbv zeta. repeat (split; [reflexivity|]).
  destruct (bundle_support_by_variant
              (reference_launcher "darwin" "/Users/artist"
                 ["/Applications/Nuke10.0v5/nukex10.0v5 Non-commercial.app"]
                 None)
              "/Applications/Nuke10.0v5/nukex10.0v5 Non-commercial.app"
              [("version", PyStr "10.0v5"); ("variant", PyStr "nukex");
               ("suffix", PyStr " Non-commercial")]
              "nukex" "10.0v5" eq_refl eq_refl eq_refl)
    as [sv [names [Hgen [_ [_ [_ [Hnames Hsup]]]]]]].
  exists sv. split; [exact Hgen|].
  injection Hgen as <-. injection Hnames as <-.
  split; [reflexivity|exact Hsup].
Defined.
